(** * The gorp query builder: field-addressed SQL construction

A shallow embedding of the Go sources [query.go] and [query_plans.go].
[query.go] holds three successive revisions of the query plan and
[query_plans.go] holds the revision with joins; each revision is
embedded in a module of its own:

- [ScanPlan]   : [query.go], second document (columns are found by
                 walking the target struct at every call);
- [ListPlan]   : [query.go], third document (a column map is built
                 once, the where clause is a list of strings);
- [FilterPlan] : [query.go], first document (the filter algebra and
                 a plan that holds an [andFilter]);
- [JoinPlan]   : [query_plans.go] (joins, [MultiFilter]).

Go strings are [string], [int] and [int64] are [Z], slices are lists,
a [(value, error)] pair is a [result] or a pair with an
[option error], and a nil-pointer dereference or an explicit [panic]
is the [Panics] outcome. *)

From Stdlib Require Import String Ascii List ZArith Bool Lia DecimalString.
Import ListNotations.
Open Scope string_scope.
Open Scope Z_scope.

Set Implicit Arguments.
Set Warnings "-register-all".

(** ** Values shared by all revisions *)

(** Go's [error] values; every error of the builder is made by
    [errors.New] from a fixed message, the executor's and the table
    registry's errors are [errorsNew] of their own messages. *)
Inductive error : Type :=
  | errorsNew (msg : string).

(** A Go [(T, error)] return where exactly one side is meaningful. *)
Inductive result (A : Type) : Type :=
  | Ok (a : A)
  | Err (e : error).
Arguments Ok {A} a.
Arguments Err {A} e.

(** A call either returns or panics (nil dereference, [panic]). *)
Inductive outcome (A : Type) : Type :=
  | Returns (a : A)
  | Panics.
Arguments Returns {A} a.
Arguments Panics {A}.

Definition obind {A B : Type} (o : outcome A) (k : A -> outcome B) : outcome B :=
  match o with
  | Returns a => k a
  | Panics => Panics
  end.

Notation "x <~ o ;; k" := (obind o (fun x => k))
  (at level 61, o at next level, right associativity).

(** An [interface{}] used as a bound query argument. *)
Inductive iface : Type :=
  | INil
  | IInt (n : Z)
  | IString (s : string)
  | IBool (b : bool).

(** An [interface{}] that holds the address of a struct field: its
    dynamic type and the address.  [==] on two such interfaces compares
    both.  An interface that holds no pointer behaves like a [Pointer]
    that no binding holds. *)
Record Pointer : Type := mkPointer {
  ptrType : string;
  ptrAddr : Z
}.

Definition Pointer_eqb (p q : Pointer) : bool :=
  String.eqb (ptrType p) (ptrType q) && Z.eqb (ptrAddr p) (ptrAddr q).

(** The double quote, for messages that contain one. *)
Definition dquote : string := String (ascii_of_nat 34) EmptyString.

(** [strings.ToLower] on the ASCII letters.  Go also lower-cases letters
    outside ASCII; none of them lower-cases to a letter of "asc" or
    "desc", so the order-direction switch decides alike. *)
Definition lowerAscii (c : ascii) : ascii :=
  let n := nat_of_ascii c in
  if (Nat.leb 65 n && Nat.leb n 90)%bool then ascii_of_nat (n + 32) else c.

Fixpoint ToLower (s : string) : string :=
  match s with
  | EmptyString => EmptyString
  | String c rest => String (lowerAscii c) (ToLower rest)
  end.

(** [strings.Join]. *)
Fixpoint strings_Join (elems : list string) (sep : string) : string :=
  match elems with
  | [] => ""
  | [e] => e
  | e :: rest => e ++ sep ++ strings_Join rest sep
  end.

(** The collaborators the builder consumes (none of them is part of the
    builder's sources): the dialect, the column descriptors and table
    metadata, the table registry and the statement executor. *)
Record Dialect : Type := mkDialect {
  QuoteField : string -> string;
  QuotedTableForQuery : string -> string -> string;
  BindVar : Z -> string
}.

Record ColumnMap : Type := mkColumnMap {
  ColumnName : string;
  Transient : bool;
  fieldName : string
}.

(** [TableMap]: [tableDialect] is [table.dbmap.Dialect]; [ColMap] is the
    lookup from a struct-field name to its column, [None] where the Go
    method panics because the table has no such column. *)
Record TableMap : Type := mkTableMap {
  TableName : string;
  SchemaName : string;
  columns : list ColumnMap;
  tableDialect : Dialect;
  ColMap : string -> option ColumnMap
}.

(** What one call of the executor was given. *)
Inductive ExecutorCall : Type :=
  | SelectCall (query : string) (args : list iface)
  | ExecCall (query : string) (args : list iface).

(** [sql.Result], of which the builder reads [RowsAffected] only. *)
Record sqlResult : Type := mkSqlResult {
  RowsAffected : result Z
}.

Record SqlExecutor : Type := mkSqlExecutor {
  executorSelect : string -> list iface -> list iface * option error;
  executorExec : string -> list iface -> result sqlResult
}.

(** The reflected view of the target: a struct is its fields in
    declaration order, each with its [reflect.StructField] data, the
    address [fieldVal.Addr().Interface()] and the field's own value
    ([fieldVal.Addr().Elem()] is the field again, and an embedded pointer
    is followed by [Elem]).  [Scalar] is any value that is not a struct:
    [NumField] panics on it. *)
Record StructField : Type := mkStructField {
  Name : string;
  PkgPath : string;
  Anonymous : bool
}.

Inductive Value : Type :=
  | Scalar
  | Struct (typeName : string) (fields : list Field)
with Field : Type :=
  | mkField (fieldType : StructField) (addr : Pointer) (fieldVal : Value).

(** [reflect.ValueOf(target)]: a pointer to a struct, or anything else. *)
Inductive Target : Type :=
  | NotStructPointer
  | StructPointer (v : Value).

Definition errTarget : error :=
  errorsNew "gorp: Cannot create query plan - target value must be a pointer to a struct".
Definition errTransient : error :=
  errorsNew "gorp: Cannot run queries against transient columns".
Definition errNotFound : error :=
  errorsNew "gorp: Cannot find a field matching the passed in pointer".
Definition errDirection : error :=
  errorsNew ("gorp: Order by direction must be empty string, " ++ dquote ++ "asc"
             ++ dquote ++ ", or " ++ dquote ++ "desc" ++ dquote).

(** The loops that several statements share, written once: the column
    list of [Select] and the comma lists of [Insert] and [Update]. *)

(** [for i, col := range cols { if i > 0 { ", " }; col }]. *)
Fixpoint writeCommaList (elems : list string) (i : nat) (buffer : string) : string :=
  match elems with
  | [] => buffer
  | e :: rest =>
      let buffer := if Nat.ltb 0 i then buffer ++ ", " else buffer in
      writeCommaList rest (S i) (buffer ++ e)
  end.

(** [for index, x := range xs { if index == 0 { first } else { ", " }; x }],
    the order-by and group-by loops. *)
Fixpoint writeClauseList (first : string) (elems : list string) (index : nat)
    (buffer : string) : string :=
  match elems with
  | [] => buffer
  | e :: rest =>
      let buffer := if Nat.eqb index 0 then buffer ++ first else buffer ++ ", " in
      writeClauseList first rest (S index) (buffer ++ e)
  end.

(** [for i, col := range assignCols { bindVar := assignBindVars[i]; ... }]
    of [Update]; indexing past the bind variables panics. *)
Fixpoint writeAssignments (assignCols assignBindVars : list string) (i : nat)
    (buffer : string) : outcome string :=
  match assignCols with
  | [] => Returns buffer
  | col :: rest =>
      match nth_error assignBindVars i with
      | None => Panics
      | Some bindVar =>
          let buffer := if Nat.ltb 0 i then buffer ++ ", " else buffer in
          writeAssignments rest assignBindVars (S i) (buffer ++ col ++ "=" ++ bindVar)
      end
  end.

(** The table registry [DbMap]: [tableFor] by the struct's type name. *)
Record DbMap : Type := mkDbMap {
  tableFor : string -> result TableMap
}.

(** What a terminal call leaves behind: the plan as it mutated it, the
    executor calls it made, and the Go return values. *)
Record Ran (P A : Type) : Type := mkRan {
  planAfter : P;
  calls : list ExecutorCall;
  returned : A;
  returnedErr : option error
}.

(** The tail of [Update] and [Delete]: [Exec], then [RowsAffected]. *)
Definition execRows {P : Type} (plan : P) (executor : SqlExecutor) (query : string)
    (args : list iface) : Ran P Z :=
  match executorExec executor query args with
  | Err e => mkRan plan [ExecCall query args] (-1) (Some e)
  | Ok res =>
      match RowsAffected res with
      | Err e => mkRan plan [ExecCall query args] (-1) (Some e)
      | Ok rows => mkRan plan [ExecCall query args] rows None
      end
  end.

(** The tail of [Insert]: [_, err := Exec(...); return err]. *)
Definition execInsert {P : Type} (plan : P) (executor : SqlExecutor) (query : string)
    (args : list iface) : Ran P unit :=
  match executorExec executor query args with
  | Err e => mkRan plan [ExecCall query args] tt (Some e)
  | Ok _ => mkRan plan [ExecCall query args] tt None
  end.

(** The tail of [Select]. *)
Definition execSelect {P : Type} (plan : P) (executor : SqlExecutor) (query : string)
    (args : list iface) : Ran P (list iface) :=
  let '(rows, err) := executorSelect executor query args in
  mkRan plan [SelectCall query args] rows err.

(** [for index, col := range table.columns] of [Select]: a column that is
    not transient is written, after a comma unless its index is 0;
    [prefix] is written before each column ([query_plans.go] only). *)
Fixpoint writeColumns (dialect : Dialect) (prefix : string) (cols : list ColumnMap)
    (index : nat) (buffer : string) : string :=
  match cols with
  | [] => buffer
  | col :: rest =>
      let buffer :=
        if negb (Transient col) then
          (if negb (Nat.eqb index 0) then buffer ++ "," else buffer)
            ++ prefix ++ QuoteField dialect (ColumnName col)
        else buffer in
      writeColumns dialect prefix rest (S index) buffer
  end.

(** [for index, whereEntry := range plan.where]. *)
Fixpoint writeWhereList (entries : list string) (index : nat) (buffer : string) : string :=
  match entries with
  | [] => buffer
  | e :: rest =>
      let buffer := if Nat.eqb index 0 then buffer ++ " where " else buffer ++ " and " in
      writeWhereList rest (S index) (buffer ++ e)
  end.

(** ** [query.go], second document: columns found by walking the target *)

Module ScanPlan.

Record QueryPlan : Type := mkQueryPlan {
  Errors : list error;
  table : option TableMap;
  executor : SqlExecutor;
  target : option Value;
  assignCols : list string;
  assignBindVars : list string;
  where_ : list string;
  orderBy : string;
  orderByDirection : string;
  groupBy : string;
  limit : Z;
  offset : Z;
  args : list iface
}.

Definition setErrors (es : list error) (p : QueryPlan) : QueryPlan :=
  mkQueryPlan es (table p) (executor p) (target p) (assignCols p) (assignBindVars p)
    (where_ p) (orderBy p) (orderByDirection p) (groupBy p) (limit p) (offset p) (args p).
Definition setTable (t : option TableMap) (p : QueryPlan) : QueryPlan :=
  mkQueryPlan (Errors p) t (executor p) (target p) (assignCols p) (assignBindVars p)
    (where_ p) (orderBy p) (orderByDirection p) (groupBy p) (limit p) (offset p) (args p).
Definition setTarget (v : option Value) (p : QueryPlan) : QueryPlan :=
  mkQueryPlan (Errors p) (table p) (executor p) v (assignCols p) (assignBindVars p)
    (where_ p) (orderBy p) (orderByDirection p) (groupBy p) (limit p) (offset p) (args p).
Definition setAssign (cols vars : list string) (p : QueryPlan) : QueryPlan :=
  mkQueryPlan (Errors p) (table p) (executor p) (target p) cols vars
    (where_ p) (orderBy p) (orderByDirection p) (groupBy p) (limit p) (offset p) (args p).
Definition setWhere (w : list string) (p : QueryPlan) : QueryPlan :=
  mkQueryPlan (Errors p) (table p) (executor p) (target p) (assignCols p) (assignBindVars p)
    w (orderBy p) (orderByDirection p) (groupBy p) (limit p) (offset p) (args p).
Definition setOrderBy (o dir : string) (p : QueryPlan) : QueryPlan :=
  mkQueryPlan (Errors p) (table p) (executor p) (target p) (assignCols p) (assignBindVars p)
    (where_ p) o dir (groupBy p) (limit p) (offset p) (args p).
Definition setGroupBy (g : string) (p : QueryPlan) : QueryPlan :=
  mkQueryPlan (Errors p) (table p) (executor p) (target p) (assignCols p) (assignBindVars p)
    (where_ p) (orderBy p) (orderByDirection p) g (limit p) (offset p) (args p).
Definition setLimit (n : Z) (p : QueryPlan) : QueryPlan :=
  mkQueryPlan (Errors p) (table p) (executor p) (target p) (assignCols p) (assignBindVars p)
    (where_ p) (orderBy p) (orderByDirection p) (groupBy p) n (offset p) (args p).
Definition setOffset (n : Z) (p : QueryPlan) : QueryPlan :=
  mkQueryPlan (Errors p) (table p) (executor p) (target p) (assignCols p) (assignBindVars p)
    (where_ p) (orderBy p) (orderByDirection p) (groupBy p) (limit p) n (args p).
Definition setArgs (a : list iface) (p : QueryPlan) : QueryPlan :=
  mkQueryPlan (Errors p) (table p) (executor p) (target p) (assignCols p) (assignBindVars p)
    (where_ p) (orderBy p) (orderByDirection p) (groupBy p) (limit p) (offset p) a.

Definition appendError (e : error) (p : QueryPlan) : QueryPlan :=
  setErrors (Errors p ++ [e]) p.

Definition errNoColumn : error :=
  errorsNew "gorp: The passed in field does not seem to match a column in the applicable table".
Definition errNoField : error :=
  errorsNew "gorp: Could not find a field matching the passed in field pointer".
Definition errNoMatchingColumn : error :=
  errorsNew "gorp: Could not find matching column".
Definition errTransientColumn : error :=
  errorsNew "gorp: Cannot query transient column".
Definition errDirectionInvalid : error :=
  errorsNew "gorp: Order by direction is invalid".

Definition emptyPlan (exec : SqlExecutor) : QueryPlan :=
  mkQueryPlan [] None exec None [] [] [] "" "" "" 0 0 [].

Definition query (m : DbMap) (exec : SqlExecutor) (target : Target) : QueryPlan :=
  let plan := emptyPlan exec in
  match target with
  | NotStructPointer => appendError errTarget plan
  | StructPointer Scalar => appendError errTarget plan
  | StructPointer (Struct typeName fields as v) =>
      let plan := setTarget (Some v) plan in
      match tableFor m typeName with
      | Err err => appendError err plan
      | Ok targetTable => setTable (Some targetTable) plan
      end
  end.

(** [findFieldType]: the first field, embedded structs included, whose
    address is [fieldPtr]; [fieldVal.Addr().Interface()] panics on an
    unexported field. *)
Fixpoint findFieldType (value : Value) (fieldPtr : Pointer) : outcome (option StructField) :=
  match value with
  | Scalar => Panics
  | Struct _ fields =>
      (fix loop (fs : list Field) : outcome (option StructField) :=
         match fs with
         | [] => Returns None
         | mkField fieldType addr fieldVal :: rest =>
             if Anonymous fieldType then
               match findFieldType fieldVal fieldPtr with
               | Panics => Panics
               | Returns (Some foundField) => Returns (Some foundField)
               | Returns None => loop rest
               end
             else if negb (String.eqb (PkgPath fieldType) "") then Panics
             else if Pointer_eqb addr fieldPtr then Returns (Some fieldType)
             else loop rest
         end) fields
  end.

(** [ColumnForPointer]: every panic below it is recovered into
    [errNoColumn]. *)
Definition ColumnForPointer (plan : QueryPlan) (fieldPtr : Pointer) : result ColumnMap :=
  match target plan with
  | None => Err errNoColumn
  | Some v =>
      match findFieldType v fieldPtr with
      | Panics => Err errNoColumn
      | Returns None => Err errNoField
      | Returns (Some targetField) =>
          match table plan with
          | None => Err errNoColumn
          | Some t =>
              match ColMap t (Name targetField) with
              | None => Err errNoColumn
              | Some col => Ok col
              end
          end
      end
  end.

(** [columnOperatorString]: its test for a nil column ([errNoMatchingColumn])
    never fires, [ColMap] panics where it has no column and the panic is
    recovered in [ColumnForPointer]. *)
Definition columnOperatorString (plan : QueryPlan) (fieldPtr : Pointer) (operator : string)
    : outcome (result string) :=
  match ColumnForPointer plan fieldPtr with
  | Err err => Returns (Err err)
  | Ok column =>
      if Transient column then Returns (Err errTransientColumn)
      else
        match table plan with
        | None => Panics
        | Some t =>
            let colStr := QuoteField (tableDialect t) (ColumnName column) in
            let valStr := BindVar (tableDialect t) (Z.of_nat (length (args plan))) in
            Returns (Ok (colStr ++ operator ++ valStr))
        end
  end.

(** [addWhere]: the error is recorded and the function goes on. *)
Definition addWhere (plan : QueryPlan) (fieldPtr : Pointer) (operator : string) (value : iface)
    : outcome QueryPlan :=
  r <~ columnOperatorString plan fieldPtr operator ;;
  let '(whereStr, plan) :=
    match r with
    | Err err => ("", appendError err plan)
    | Ok whereStr => (whereStr, plan)
    end in
  let plan := setWhere (where_ plan ++ [whereStr]) plan in
  Returns (setArgs (args plan ++ [value]) plan).

Definition Set_ (plan : QueryPlan) (fieldPtr : Pointer) (value : iface) : outcome QueryPlan :=
  match ColumnForPointer plan fieldPtr with
  | Err err => Returns (appendError err plan)
  | Ok column =>
      match table plan with
      | None => Panics
      | Some t =>
          let plan := setAssign
            (assignCols plan ++ [QuoteField (tableDialect t) (ColumnName column)])
            (assignBindVars plan ++ [BindVar (tableDialect t) (Z.of_nat (length (args plan)))])
            plan in
          Returns (setArgs (args plan ++ [value]) plan)
      end
  end.

Definition Where (plan : QueryPlan) : QueryPlan := plan.

Definition Equal plan fieldPtr value := addWhere plan fieldPtr "=" value.
Definition Less plan fieldPtr value := addWhere plan fieldPtr "<" value.
Definition LessOrEqual plan fieldPtr value := addWhere plan fieldPtr "<=" value.
Definition Greater plan fieldPtr value := addWhere plan fieldPtr ">" value.
Definition GreaterOrEqual plan fieldPtr value := addWhere plan fieldPtr ">=" value.

Definition OrderBy (plan : QueryPlan) (fieldPtr : Pointer) (direction : string) : QueryPlan :=
  match ColumnForPointer plan fieldPtr with
  | Err err => appendError err plan
  | Ok column => setOrderBy (ColumnName column) direction plan
  end.

Definition GroupBy (plan : QueryPlan) (fieldPtr : Pointer) : QueryPlan :=
  match ColumnForPointer plan fieldPtr with
  | Err err => appendError err plan
  | Ok column => setGroupBy (ColumnName column) plan
  end.

Definition Limit (plan : QueryPlan) (limit : Z) : QueryPlan := setLimit limit plan.
Definition Offset (plan : QueryPlan) (offset : Z) : QueryPlan := setOffset offset plan.

(** The shared end of [Select]: limit and offset are bound last. *)
Definition limitOffset (t : TableMap) (plan : QueryPlan) (buffer : string)
    : QueryPlan * string :=
  let '(plan, buffer) :=
    if 0 <? limit plan then
      (setArgs (args plan ++ [IInt (limit plan)]) plan,
       buffer ++ " limit " ++ BindVar (tableDialect t) (Z.of_nat (length (args plan))))
    else (plan, buffer) in
  if 0 <? offset plan then
    (setArgs (args plan ++ [IInt (offset plan)]) plan,
     buffer ++ " offset " ++ BindVar (tableDialect t) (Z.of_nat (length (args plan))))
  else (plan, buffer).

Definition Select (plan : QueryPlan) : outcome (Ran QueryPlan (list iface)) :=
  match Errors plan with
  | first :: _ => Returns (mkRan plan [] [] (Some first))
  | [] =>
      match table plan with
      | None => Panics
      | Some t =>
          let d := tableDialect t in
          let buffer := "select " in
          let buffer := writeColumns d "" (columns t) 0 buffer in
          let buffer := buffer ++ " from "
                          ++ QuotedTableForQuery d (SchemaName t) (TableName t) in
          let buffer := writeWhereList (where_ plan) 0 buffer in
          let ordered : result string :=
            if negb (String.eqb (orderBy plan) "") then
              let buffer := buffer ++ " order by " ++ QuoteField d (orderBy plan) in
              let lower := ToLower (orderByDirection plan) in
              if (String.eqb lower "desc" || String.eqb lower "asc")%bool
              then Ok (buffer ++ orderByDirection plan)
              else if String.eqb lower "" then Ok buffer
              else Err errDirectionInvalid
            else Ok buffer in
          match ordered with
          | Err e =>
              let plan := appendError e plan in
              match Errors plan with
              | first :: _ => Returns (mkRan plan [] [] (Some first))
              | [] => Panics
              end
          | Ok buffer =>
              let buffer :=
                if negb (String.eqb (groupBy plan) "")
                then buffer ++ " group by " ++ groupBy plan else buffer in
              let '(plan, buffer) := limitOffset t plan buffer in
              match target plan with
              | None => Panics
              | Some _ => Returns (execSelect plan (executor plan) buffer (args plan))
              end
          end
      end
  end.

Definition Insert (plan : QueryPlan) : outcome (Ran QueryPlan unit) :=
  match Errors plan with
  | first :: _ => Returns (mkRan plan [] tt (Some first))
  | [] =>
      match table plan with
      | None => Panics
      | Some t =>
          let d := tableDialect t in
          let buffer := "insert into " ++ QuotedTableForQuery d (SchemaName t) (TableName t)
                          ++ " (" in
          let buffer := writeCommaList (assignCols plan) 0 buffer in
          let buffer := buffer ++ ") values (" in
          let buffer := writeCommaList (assignBindVars plan) 0 buffer in
          let buffer := buffer ++ ")" in
          Returns (execInsert plan (executor plan) buffer (args plan))
      end
  end.

Definition Update (plan : QueryPlan) : outcome (Ran QueryPlan Z) :=
  match Errors plan with
  | first :: _ => Returns (mkRan plan [] (-1) (Some first))
  | [] =>
      match table plan with
      | None => Panics
      | Some t =>
          let d := tableDialect t in
          let buffer := "update " ++ QuotedTableForQuery d (SchemaName t) (TableName t)
                          ++ " set " in
          buffer <~ writeAssignments (assignCols plan) (assignBindVars plan) 0 buffer ;;
          let buffer := writeWhereList (where_ plan) 0 buffer in
          Returns (execRows plan (executor plan) buffer (args plan))
      end
  end.

Definition Delete (plan : QueryPlan) : outcome (Ran QueryPlan Z) :=
  match Errors plan with
  | first :: _ => Returns (mkRan plan [] (-1) (Some first))
  | [] =>
      match table plan with
      | None => Panics
      | Some t =>
          let d := tableDialect t in
          let buffer := "delete from " ++ QuotedTableForQuery d (SchemaName t) (TableName t) in
          let buffer := writeWhereList (where_ plan) 0 buffer in
          Returns (execRows plan (executor plan) buffer (args plan))
      end
  end.

End ScanPlan.

(** ** The column map of [query.go], first and third documents

Both documents build the map with the same [mapColumns] and search it
with the same loop (the third names the record [fieldColMap] and the
lookup [QueryPlan.ColumnForPointer]). *)

Record fieldColumnMap : Type := mkFieldColumnMap {
  addr : Pointer;
  column : ColumnMap;
  quotedColumn : string
}.

Definition structColumnMap : Type := list fieldColumnMap.

Fixpoint columnForPointer (structMap : structColumnMap) (fieldPtr : Pointer) : result string :=
  match structMap with
  | [] => Err errNotFound
  | fieldMap :: rest =>
      if Pointer_eqb (addr fieldMap) fieldPtr then
        if Transient (column fieldMap) then Err errTransient
        else Ok (quotedColumn fieldMap)
      else columnForPointer rest fieldPtr
  end.

(** [mapColumns]: the plan's column map is threaded through the walk.
    [ColMap] panics on a field without a column, and
    [fieldVal.Addr().Interface()] panics on an unexported field. *)
Fixpoint mapColumns (table : TableMap) (value : Value) (colMap : structColumnMap)
    : outcome structColumnMap :=
  match value with
  | Scalar => Panics
  | Struct _ fields =>
      (fix loop (fs : list Field) (colMap : structColumnMap) : outcome structColumnMap :=
         match fs with
         | [] => Returns colMap
         | mkField fieldType addr fieldVal :: rest =>
             if Anonymous fieldType then
               match mapColumns table fieldVal colMap with
               | Panics => Panics
               | Returns colMap => loop rest colMap
               end
             else
               match ColMap table (Name fieldType) with
               | None => Panics
               | Some col =>
                   if String.eqb (PkgPath fieldType) "" then
                     let quotedCol := QuoteField (tableDialect table) (ColumnName col) in
                     loop rest (colMap ++ [mkFieldColumnMap addr col quotedCol])%list
                   else Panics
               end
         end) fields colMap
  end.

(** ** [query.go], third document: a column map and a list of where strings *)

Module ListPlan.

Record QueryPlan : Type := mkQueryPlan {
  Errors : list error;
  table : option TableMap;
  executor : SqlExecutor;
  target : option Value;
  targetColMap : structColumnMap;
  assignCols : list string;
  assignBindVars : list string;
  where_ : list string;
  orderBy : list string;
  groupBy : list string;
  limit : Z;
  offset : Z;
  args : list iface
}.

Definition setErrors (es : list error) (p : QueryPlan) : QueryPlan :=
  mkQueryPlan es (table p) (executor p) (target p) (targetColMap p) (assignCols p)
    (assignBindVars p) (where_ p) (orderBy p) (groupBy p) (limit p) (offset p) (args p).
Definition setTable (t : option TableMap) (p : QueryPlan) : QueryPlan :=
  mkQueryPlan (Errors p) t (executor p) (target p) (targetColMap p) (assignCols p)
    (assignBindVars p) (where_ p) (orderBy p) (groupBy p) (limit p) (offset p) (args p).
Definition setTarget (v : option Value) (p : QueryPlan) : QueryPlan :=
  mkQueryPlan (Errors p) (table p) (executor p) v (targetColMap p) (assignCols p)
    (assignBindVars p) (where_ p) (orderBy p) (groupBy p) (limit p) (offset p) (args p).
Definition setTargetColMap (m : structColumnMap) (p : QueryPlan) : QueryPlan :=
  mkQueryPlan (Errors p) (table p) (executor p) (target p) m (assignCols p)
    (assignBindVars p) (where_ p) (orderBy p) (groupBy p) (limit p) (offset p) (args p).
Definition setAssign (cols vars : list string) (p : QueryPlan) : QueryPlan :=
  mkQueryPlan (Errors p) (table p) (executor p) (target p) (targetColMap p) cols
    vars (where_ p) (orderBy p) (groupBy p) (limit p) (offset p) (args p).
Definition setWhere (w : list string) (p : QueryPlan) : QueryPlan :=
  mkQueryPlan (Errors p) (table p) (executor p) (target p) (targetColMap p) (assignCols p)
    (assignBindVars p) w (orderBy p) (groupBy p) (limit p) (offset p) (args p).
Definition setOrderBy (o : list string) (p : QueryPlan) : QueryPlan :=
  mkQueryPlan (Errors p) (table p) (executor p) (target p) (targetColMap p) (assignCols p)
    (assignBindVars p) (where_ p) o (groupBy p) (limit p) (offset p) (args p).
Definition setGroupBy (g : list string) (p : QueryPlan) : QueryPlan :=
  mkQueryPlan (Errors p) (table p) (executor p) (target p) (targetColMap p) (assignCols p)
    (assignBindVars p) (where_ p) (orderBy p) g (limit p) (offset p) (args p).
Definition setLimit (n : Z) (p : QueryPlan) : QueryPlan :=
  mkQueryPlan (Errors p) (table p) (executor p) (target p) (targetColMap p) (assignCols p)
    (assignBindVars p) (where_ p) (orderBy p) (groupBy p) n (offset p) (args p).
Definition setOffset (n : Z) (p : QueryPlan) : QueryPlan :=
  mkQueryPlan (Errors p) (table p) (executor p) (target p) (targetColMap p) (assignCols p)
    (assignBindVars p) (where_ p) (orderBy p) (groupBy p) (limit p) n (args p).
Definition setArgs (a : list iface) (p : QueryPlan) : QueryPlan :=
  mkQueryPlan (Errors p) (table p) (executor p) (target p) (targetColMap p) (assignCols p)
    (assignBindVars p) (where_ p) (orderBy p) (groupBy p) (limit p) (offset p) a.

Definition appendError (e : error) (p : QueryPlan) : QueryPlan :=
  setErrors (Errors p ++ [e]) p.

Definition emptyPlan (exec : SqlExecutor) : QueryPlan :=
  mkQueryPlan [] None exec None [] [] [] [] [] [] 0 0 [].

Definition query (m : DbMap) (exec : SqlExecutor) (target : Target) : outcome QueryPlan :=
  let plan := emptyPlan exec in
  match target with
  | NotStructPointer => Returns (appendError errTarget plan)
  | StructPointer Scalar => Returns (appendError errTarget plan)
  | StructPointer (Struct typeName fields as v) =>
      let plan := setTarget (Some v) plan in
      match tableFor m typeName with
      | Err err => Returns (appendError err plan)
      | Ok targetTable =>
          let plan := setTable (Some targetTable) plan in
          colMap <~ mapColumns targetTable v (targetColMap plan) ;;
          Returns (setTargetColMap colMap plan)
      end
  end.

Definition ColumnForPointer (plan : QueryPlan) (fieldPtr : Pointer) : result string :=
  columnForPointer (targetColMap plan) fieldPtr.

(** [addWhere]: on an error the function returns at once. *)
Definition addWhere (plan : QueryPlan) (fieldPtr : Pointer) (operator : string) (value : iface)
    : outcome QueryPlan :=
  match ColumnForPointer plan fieldPtr with
  | Err err => Returns (appendError err plan)
  | Ok column =>
      match table plan with
      | None => Panics
      | Some t =>
          let valStr := BindVar (tableDialect t) (Z.of_nat (length (args plan))) in
          let plan := setWhere (where_ plan ++ [column ++ operator ++ valStr]) plan in
          Returns (setArgs (args plan ++ [value]) plan)
      end
  end.

Definition Set_ (plan : QueryPlan) (fieldPtr : Pointer) (value : iface) : outcome QueryPlan :=
  match ColumnForPointer plan fieldPtr with
  | Err err => Returns (appendError err plan)
  | Ok column =>
      match table plan with
      | None => Panics
      | Some t =>
          let plan := setAssign
            (assignCols plan ++ [column])
            (assignBindVars plan ++ [BindVar (tableDialect t) (Z.of_nat (length (args plan)))])
            plan in
          Returns (setArgs (args plan ++ [value]) plan)
      end
  end.

Definition Where (plan : QueryPlan) : QueryPlan := plan.

Definition Equal plan fieldPtr value := addWhere plan fieldPtr "=" value.
Definition Less plan fieldPtr value := addWhere plan fieldPtr "<" value.
Definition LessOrEqual plan fieldPtr value := addWhere plan fieldPtr "<=" value.
Definition Greater plan fieldPtr value := addWhere plan fieldPtr ">" value.
Definition GreaterOrEqual plan fieldPtr value := addWhere plan fieldPtr ">=" value.

Definition OrderBy (plan : QueryPlan) (fieldPtr : Pointer) (direction : string) : QueryPlan :=
  match ColumnForPointer plan fieldPtr with
  | Err err => appendError err plan
  | Ok column =>
      let lower := ToLower direction in
      if (String.eqb lower "asc" || String.eqb lower "desc")%bool
      then setOrderBy (orderBy plan ++ [column]) plan
      else if String.eqb lower "" then setOrderBy (orderBy plan ++ [column]) plan
      else appendError errDirection plan
  end.

Definition GroupBy (plan : QueryPlan) (fieldPtr : Pointer) : QueryPlan :=
  match ColumnForPointer plan fieldPtr with
  | Err err => appendError err plan
  | Ok column => setGroupBy (groupBy plan ++ [column]) plan
  end.

Definition Limit (plan : QueryPlan) (limit : Z) : QueryPlan := setLimit limit plan.
Definition Offset (plan : QueryPlan) (offset : Z) : QueryPlan := setOffset offset plan.

Definition limitOffset (t : TableMap) (plan : QueryPlan) (buffer : string)
    : QueryPlan * string :=
  let '(plan, buffer) :=
    if 0 <? limit plan then
      (setArgs (args plan ++ [IInt (limit plan)]) plan,
       buffer ++ " limit " ++ BindVar (tableDialect t) (Z.of_nat (length (args plan))))
    else (plan, buffer) in
  if 0 <? offset plan then
    (setArgs (args plan ++ [IInt (offset plan)]) plan,
     buffer ++ " offset " ++ BindVar (tableDialect t) (Z.of_nat (length (args plan))))
  else (plan, buffer).

Definition Select (plan : QueryPlan) : outcome (Ran QueryPlan (list iface)) :=
  match Errors plan with
  | first :: _ => Returns (mkRan plan [] [] (Some first))
  | [] =>
      match table plan with
      | None => Panics
      | Some t =>
          let d := tableDialect t in
          let buffer := "select " in
          let buffer := writeColumns d "" (columns t) 0 buffer in
          let buffer := buffer ++ " from "
                          ++ QuotedTableForQuery d (SchemaName t) (TableName t) in
          let buffer := writeWhereList (where_ plan) 0 buffer in
          let buffer := writeClauseList " order by " (orderBy plan) 0 buffer in
          let buffer := writeClauseList " group by " (groupBy plan) 0 buffer in
          let '(plan, buffer) := limitOffset t plan buffer in
          match target plan with
          | None => Panics
          | Some _ => Returns (execSelect plan (executor plan) buffer (args plan))
          end
      end
  end.

Definition Insert (plan : QueryPlan) : outcome (Ran QueryPlan unit) :=
  match Errors plan with
  | first :: _ => Returns (mkRan plan [] tt (Some first))
  | [] =>
      match table plan with
      | None => Panics
      | Some t =>
          let d := tableDialect t in
          let buffer := "insert into " ++ QuotedTableForQuery d (SchemaName t) (TableName t)
                          ++ " (" in
          let buffer := writeCommaList (assignCols plan) 0 buffer in
          let buffer := buffer ++ ") values (" in
          let buffer := writeCommaList (assignBindVars plan) 0 buffer in
          let buffer := buffer ++ ")" in
          Returns (execInsert plan (executor plan) buffer (args plan))
      end
  end.

Definition Update (plan : QueryPlan) : outcome (Ran QueryPlan Z) :=
  match Errors plan with
  | first :: _ => Returns (mkRan plan [] (-1) (Some first))
  | [] =>
      match table plan with
      | None => Panics
      | Some t =>
          let d := tableDialect t in
          let buffer := "update " ++ QuotedTableForQuery d (SchemaName t) (TableName t)
                          ++ " set " in
          buffer <~ writeAssignments (assignCols plan) (assignBindVars plan) 0 buffer ;;
          let buffer := writeWhereList (where_ plan) 0 buffer in
          Returns (execRows plan (executor plan) buffer (args plan))
      end
  end.

Definition Delete (plan : QueryPlan) : outcome (Ran QueryPlan Z) :=
  match Errors plan with
  | first :: _ => Returns (mkRan plan [] (-1) (Some first))
  | [] =>
      match table plan with
      | None => Panics
      | Some t =>
          let d := tableDialect t in
          let buffer := "delete from " ++ QuotedTableForQuery d (SchemaName t) (TableName t) in
          let buffer := writeWhereList (where_ plan) 0 buffer in
          Returns (execRows plan (executor plan) buffer (args plan))
      end
  end.

End ListPlan.

(** ** The filter algebra ([query.go], first document)

A filter is a pointer in Go; a plan is handed a filter once and the
embedding takes it by value. *)

Module Filters.

Inductive Filter : Type :=
  | andFilter (subFilters : list Filter)
  | orFilter (subFilters : list Filter)
  | comparisonFilter (addr : Pointer) (comparison : string) (value : iface)
  | notFilter (filter : Filter)
  | nullFilter (addr : Pointer)
  | notNullFilter (addr : Pointer).

Definition Or (filters : list Filter) : Filter := orFilter filters.
Definition And (filters : list Filter) : Filter := andFilter filters.
Definition Not (filter : Filter) : Filter := notFilter filter.
Definition Null (fieldPtr : Pointer) : Filter := nullFilter fieldPtr.
Definition NotNull (fieldPtr : Pointer) : Filter := notNullFilter fieldPtr.
Definition Equal (fieldPtr : Pointer) (value : iface) : Filter :=
  comparisonFilter fieldPtr "=" value.
Definition NotEqual (fieldPtr : Pointer) (value : iface) : Filter :=
  comparisonFilter fieldPtr "!=" value.
Definition Less (fieldPtr : Pointer) (value : iface) : Filter :=
  comparisonFilter fieldPtr "<" value.
Definition LessOrEqual (fieldPtr : Pointer) (value : iface) : Filter :=
  comparisonFilter fieldPtr "<=" value.
Definition Greater (fieldPtr : Pointer) (value : iface) : Filter :=
  comparisonFilter fieldPtr "=" value.
Definition GreaterOrEqual (fieldPtr : Pointer) (value : iface) : Filter :=
  comparisonFilter fieldPtr "=" value.

Section FilterWhere.

(** The filters are written against [structMap.columnForPointer]; the
    map and its lookup are those of the revision that renders. *)
Variable colMapT : Type.
Variable lookup : colMapT -> Pointer -> result string.

Section JoinFilters.
  (** [subFilter.Where(structMap, dialect, _)], the interface call. *)
  Variable whereOf : Filter -> Z -> result (string * list iface).
  Variable separator : string.
  Variable startBindIdx : Z.

(** The loop of [joinFilters], from sub-filter [index] on. *)
Fixpoint joinLoop (subFilters : list Filter) (index : nat) (buffer : string)
    (args : list iface) : result (string * list iface) :=
  match subFilters with
  | [] => Ok (buffer, args)
  | subFilter :: rest =>
      match whereOf subFilter (startBindIdx + Z.of_nat (length args)) with
      | Err err => Err err
      | Ok (nextWhere, nextArgs) =>
          let args := (args ++ nextArgs)%list in
          let buffer := if negb (Nat.eqb index 0) then buffer ++ separator else buffer in
          joinLoop rest (S index) (buffer ++ nextWhere) args
      end
  end.

Definition joinFilters (subFilters : list Filter) : result (string * list iface) :=
  let buffer := if Nat.ltb 1 (length subFilters) then "(" else "" in
  match joinLoop subFilters 0 buffer [] with
  | Err err => Err err
  | Ok (buffer, args) =>
      Ok (if Nat.ltb 1 (length subFilters) then buffer ++ ")" else buffer, args)
  end.
End JoinFilters.

Fixpoint Where (filter : Filter) (structMap : colMapT) (dialect : Dialect)
    (startBindIdx : Z) {struct filter} : result (string * list iface) :=
  match filter with
  | andFilter subFilters =>
      joinFilters (fun sub idx => Where sub structMap dialect idx) " and "
        startBindIdx subFilters
  | orFilter subFilters =>
      joinFilters (fun sub idx => Where sub structMap dialect idx) " or "
        startBindIdx subFilters
  | comparisonFilter addr comparison value =>
      match lookup structMap addr with
      | Err err => Err err
      | Ok column =>
          let bindVar := BindVar dialect startBindIdx in
          Ok (column ++ comparison ++ bindVar, [value])
      end
  | notFilter inner =>
      match Where inner structMap dialect startBindIdx with
      | Err err => Err err
      | Ok (whereStr, args) => Ok ("NOT " ++ whereStr, args)
      end
  | nullFilter addr =>
      match lookup structMap addr with
      | Err err => Err err
      | Ok column => Ok (column ++ " IS NULL", [])
      end
  | notNullFilter addr =>
      match lookup structMap addr with
      | Err err => Err err
      | Ok column => Ok (column ++ " IS NOT NULL", [])
      end
  end.

End FilterWhere.

End Filters.

(** ** [query.go], first document: a plan that holds an [andFilter] *)

Module FilterPlan.

(** [filters] is a [*andFilter]: [None] is nil, [Some subFilters] the
    filter with these sub-filters. *)
Record QueryPlan : Type := mkQueryPlan {
  Errors : list error;
  table : option TableMap;
  executor : SqlExecutor;
  target : option Value;
  targetColMap : structColumnMap;
  assignCols : list string;
  assignBindVars : list string;
  filters : option (list Filters.Filter);
  orderBy : list string;
  groupBy : list string;
  limit : Z;
  offset : Z;
  args : list iface
}.

Definition setErrors (es : list error) (p : QueryPlan) : QueryPlan :=
  mkQueryPlan es (table p) (executor p) (target p) (targetColMap p) (assignCols p)
    (assignBindVars p) (filters p) (orderBy p) (groupBy p) (limit p) (offset p) (args p).
Definition setTable (t : option TableMap) (p : QueryPlan) : QueryPlan :=
  mkQueryPlan (Errors p) t (executor p) (target p) (targetColMap p) (assignCols p)
    (assignBindVars p) (filters p) (orderBy p) (groupBy p) (limit p) (offset p) (args p).
Definition setTarget (v : option Value) (p : QueryPlan) : QueryPlan :=
  mkQueryPlan (Errors p) (table p) (executor p) v (targetColMap p) (assignCols p)
    (assignBindVars p) (filters p) (orderBy p) (groupBy p) (limit p) (offset p) (args p).
Definition setTargetColMap (m : structColumnMap) (p : QueryPlan) : QueryPlan :=
  mkQueryPlan (Errors p) (table p) (executor p) (target p) m (assignCols p)
    (assignBindVars p) (filters p) (orderBy p) (groupBy p) (limit p) (offset p) (args p).
Definition setAssign (cols vars : list string) (p : QueryPlan) : QueryPlan :=
  mkQueryPlan (Errors p) (table p) (executor p) (target p) (targetColMap p) cols
    vars (filters p) (orderBy p) (groupBy p) (limit p) (offset p) (args p).
Definition setFilters (f : option (list Filters.Filter)) (p : QueryPlan) : QueryPlan :=
  mkQueryPlan (Errors p) (table p) (executor p) (target p) (targetColMap p) (assignCols p)
    (assignBindVars p) f (orderBy p) (groupBy p) (limit p) (offset p) (args p).
Definition setOrderBy (o : list string) (p : QueryPlan) : QueryPlan :=
  mkQueryPlan (Errors p) (table p) (executor p) (target p) (targetColMap p) (assignCols p)
    (assignBindVars p) (filters p) o (groupBy p) (limit p) (offset p) (args p).
Definition setGroupBy (g : list string) (p : QueryPlan) : QueryPlan :=
  mkQueryPlan (Errors p) (table p) (executor p) (target p) (targetColMap p) (assignCols p)
    (assignBindVars p) (filters p) (orderBy p) g (limit p) (offset p) (args p).
Definition setLimit (n : Z) (p : QueryPlan) : QueryPlan :=
  mkQueryPlan (Errors p) (table p) (executor p) (target p) (targetColMap p) (assignCols p)
    (assignBindVars p) (filters p) (orderBy p) (groupBy p) n (offset p) (args p).
Definition setOffset (n : Z) (p : QueryPlan) : QueryPlan :=
  mkQueryPlan (Errors p) (table p) (executor p) (target p) (targetColMap p) (assignCols p)
    (assignBindVars p) (filters p) (orderBy p) (groupBy p) (limit p) n (args p).
Definition setArgs (a : list iface) (p : QueryPlan) : QueryPlan :=
  mkQueryPlan (Errors p) (table p) (executor p) (target p) (targetColMap p) (assignCols p)
    (assignBindVars p) (filters p) (orderBy p) (groupBy p) (limit p) (offset p) a.

Definition appendError (e : error) (p : QueryPlan) : QueryPlan :=
  setErrors (Errors p ++ [e]) p.

Definition emptyPlan (exec : SqlExecutor) : QueryPlan :=
  mkQueryPlan [] None exec None [] [] [] None [] [] 0 0 [].

Definition query (m : DbMap) (exec : SqlExecutor) (target : Target) : outcome QueryPlan :=
  let plan := emptyPlan exec in
  match target with
  | NotStructPointer => Returns (appendError errTarget plan)
  | StructPointer Scalar => Returns (appendError errTarget plan)
  | StructPointer (Struct typeName fields as v) =>
      let plan := setTarget (Some v) plan in
      match tableFor m typeName with
      | Err err => Returns (appendError err plan)
      | Ok targetTable =>
          let plan := setTable (Some targetTable) plan in
          colMap <~ mapColumns targetTable v (targetColMap plan) ;;
          Returns (setTargetColMap colMap plan)
      end
  end.

(** [AssignQueryPlan.Assign]; [QueryPlan.Assign] copies the plan into
    an [AssignQueryPlan] and calls it. *)
Definition Assign (plan : QueryPlan) (fieldPtr : Pointer) (value : iface)
    : outcome QueryPlan :=
  match columnForPointer (targetColMap plan) fieldPtr with
  | Err err => Returns (appendError err plan)
  | Ok column =>
      match table plan with
      | None => Panics
      | Some t =>
          let plan := setAssign
            (assignCols plan ++ [column])
            (assignBindVars plan ++ [BindVar (tableDialect t) (Z.of_nat (length (args plan)))])
            plan in
          Returns (setArgs (args plan ++ [value]) plan)
      end
  end.

Definition Where (plan : QueryPlan) : QueryPlan := plan.

Definition Filter (plan : QueryPlan) (filter : Filters.Filter) : QueryPlan :=
  let subFilters := match filters plan with
                    | None => []
                    | Some subFilters => subFilters
                    end in
  setFilters (Some (subFilters ++ [filter])%list) plan.

Definition Equal plan fieldPtr value := Filter plan (Filters.Equal fieldPtr value).
Definition NotEqual plan fieldPtr value := Filter plan (Filters.NotEqual fieldPtr value).
Definition Less plan fieldPtr value := Filter plan (Filters.Less fieldPtr value).
Definition LessOrEqual plan fieldPtr value := Filter plan (Filters.LessOrEqual fieldPtr value).
Definition Greater plan fieldPtr value := Filter plan (Filters.Greater fieldPtr value).
Definition GreaterOrEqual plan fieldPtr value := Filter plan (Filters.GreaterOrEqual fieldPtr value).
Definition Null plan fieldPtr := Filter plan (Filters.Null fieldPtr).
Definition NotNull plan fieldPtr := Filter plan (Filters.NotNull fieldPtr).

Definition OrderBy (plan : QueryPlan) (fieldPtr : Pointer) (direction : string) : QueryPlan :=
  match columnForPointer (targetColMap plan) fieldPtr with
  | Err err => appendError err plan
  | Ok column =>
      let lower := ToLower direction in
      if (String.eqb lower "asc" || String.eqb lower "desc")%bool
      then setOrderBy (orderBy plan ++ [column]) plan
      else if String.eqb lower "" then setOrderBy (orderBy plan ++ [column]) plan
      else appendError errDirection plan
  end.

Definition GroupBy (plan : QueryPlan) (fieldPtr : Pointer) : QueryPlan :=
  match columnForPointer (targetColMap plan) fieldPtr with
  | Err err => appendError err plan
  | Ok column => setGroupBy (groupBy plan ++ [column]) plan
  end.

Definition Limit (plan : QueryPlan) (limit : Z) : QueryPlan := setLimit limit plan.
Definition Offset (plan : QueryPlan) (offset : Z) : QueryPlan := setOffset offset plan.

(** [whereClause]: a nil [filters] or a nil [table] is dereferenced. *)
Definition whereClause (plan : QueryPlan) : outcome (QueryPlan * result string) :=
  match filters plan, table plan with
  | Some subFilters, Some t =>
      match Filters.Where columnForPointer (Filters.andFilter subFilters) (targetColMap plan)
              (tableDialect t) (Z.of_nat (length (args plan))) with
      | Err err => Returns (plan, Err err)
      | Ok (where_, whereArgs) =>
          if negb (String.eqb where_ "") then
            Returns (setArgs (args plan ++ whereArgs) plan, Ok (" where " ++ where_))
          else Returns (plan, Ok "")
      end
  | _, _ => Panics
  end.

Definition limitOffset (t : TableMap) (plan : QueryPlan) (buffer : string)
    : QueryPlan * string :=
  let '(plan, buffer) :=
    if 0 <? limit plan then
      (setArgs (args plan ++ [IInt (limit plan)]) plan,
       buffer ++ " limit " ++ BindVar (tableDialect t) (Z.of_nat (length (args plan))))
    else (plan, buffer) in
  if 0 <? offset plan then
    (setArgs (args plan ++ [IInt (offset plan)]) plan,
     buffer ++ " offset " ++ BindVar (tableDialect t) (Z.of_nat (length (args plan))))
  else (plan, buffer).

Definition Select (plan : QueryPlan) : outcome (Ran QueryPlan (list iface)) :=
  match Errors plan with
  | first :: _ => Returns (mkRan plan [] [] (Some first))
  | [] =>
      match table plan with
      | None => Panics
      | Some t =>
          let d := tableDialect t in
          let buffer := "select " in
          let buffer := writeColumns d "" (columns t) 0 buffer in
          let buffer := buffer ++ " from "
                          ++ QuotedTableForQuery d (SchemaName t) (TableName t) in
          w <~ whereClause plan ;;
          match w with
          | (plan, Err err) => Returns (mkRan plan [] [] (Some err))
          | (plan, Ok clause) =>
              let buffer := buffer ++ clause in
              let buffer := writeClauseList " order by " (orderBy plan) 0 buffer in
              let buffer := writeClauseList " group by " (groupBy plan) 0 buffer in
              let '(plan, buffer) := limitOffset t plan buffer in
              match target plan with
              | None => Panics
              | Some _ => Returns (execSelect plan (executor plan) buffer (args plan))
              end
          end
      end
  end.

Definition Insert (plan : QueryPlan) : outcome (Ran QueryPlan unit) :=
  match Errors plan with
  | first :: _ => Returns (mkRan plan [] tt (Some first))
  | [] =>
      match table plan with
      | None => Panics
      | Some t =>
          let d := tableDialect t in
          let buffer := "insert into " ++ QuotedTableForQuery d (SchemaName t) (TableName t)
                          ++ " (" in
          let buffer := writeCommaList (assignCols plan) 0 buffer in
          let buffer := buffer ++ ") values (" in
          let buffer := writeCommaList (assignBindVars plan) 0 buffer in
          let buffer := buffer ++ ")" in
          Returns (execInsert plan (executor plan) buffer (args plan))
      end
  end.

Definition Update (plan : QueryPlan) : outcome (Ran QueryPlan Z) :=
  match Errors plan with
  | first :: _ => Returns (mkRan plan [] (-1) (Some first))
  | [] =>
      match table plan with
      | None => Panics
      | Some t =>
          let d := tableDialect t in
          let buffer := "update " ++ QuotedTableForQuery d (SchemaName t) (TableName t)
                          ++ " set " in
          buffer <~ writeAssignments (assignCols plan) (assignBindVars plan) 0 buffer ;;
          w <~ whereClause plan ;;
          match w with
          | (plan, Err err) => Returns (mkRan plan [] (-1) (Some err))
          | (plan, Ok clause) =>
              Returns (execRows plan (executor plan) (buffer ++ clause) (args plan))
          end
      end
  end.

Definition Delete (plan : QueryPlan) : outcome (Ran QueryPlan Z) :=
  match Errors plan with
  | first :: _ => Returns (mkRan plan [] (-1) (Some first))
  | [] =>
      match table plan with
      | None => Panics
      | Some t =>
          let d := tableDialect t in
          let buffer := "delete from " ++ QuotedTableForQuery d (SchemaName t) (TableName t) in
          w <~ whereClause plan ;;
          match w with
          | (plan, Err err) => Returns (mkRan plan [] (-1) (Some err))
          | (plan, Ok clause) =>
              Returns (execRows plan (executor plan) (buffer ++ clause) (args plan))
          end
      end
  end.

End FilterPlan.

(** ** [query_plans.go]: the plan with joins *)

Module JoinPlan.

Record fieldColumnMap : Type := mkFieldColumnMap {
  addr : Pointer;
  column : ColumnMap;
  quotedTable : string;
  quotedColumn : string
}.

Definition structColumnMap : Type := list fieldColumnMap.

Fixpoint fieldMapForPointer (structMap : structColumnMap) (fieldPtr : Pointer)
    : result fieldColumnMap :=
  match structMap with
  | [] => Err errNotFound
  | fieldMap :: rest =>
      if Pointer_eqb (addr fieldMap) fieldPtr then
        if Transient (column fieldMap) then Err errTransient
        else Ok fieldMap
      else fieldMapForPointer rest fieldPtr
  end.

Definition columnForPointer (structMap : structColumnMap) (fieldPtr : Pointer) : result string :=
  match fieldMapForPointer structMap fieldPtr with
  | Err err => Err err
  | Ok fieldMap => Ok (quotedColumn fieldMap)
  end.

Definition tableColumnForPointer (structMap : structColumnMap) (fieldPtr : Pointer)
    : result string :=
  match fieldMapForPointer structMap fieldPtr with
  | Err err => Err err
  | Ok fieldMap => Ok (quotedTable fieldMap ++ "." ++ quotedColumn fieldMap)
  end.

(** Modelled from the spec: the type [joinFilter] is declared outside
    the sources; a join clause is a table and its own ON-filter, and the
    comparison calls of a join append to that filter. *)
Record joinFilter : Type := mkJoinFilter {
  quotedJoinTable : string;
  onFilters : list Filters.Filter
}.

(** [MultiFilter], the interface of [plan.filters]: an [*andFilter] or a
    [*joinFilter]; nil is [None] in the plan. *)
Inductive MultiFilter : Type :=
  | andMulti (subFilters : list Filters.Filter)
  | joinMulti (join : joinFilter).

Definition Add (filter : MultiFilter) (filters : list Filters.Filter) : MultiFilter :=
  match filter with
  | andMulti subFilters => andMulti (subFilters ++ filters)
  | joinMulti join =>
      joinMulti (mkJoinFilter (quotedJoinTable join) (onFilters join ++ filters))
  end.

Record QueryPlan : Type := mkQueryPlan {
  Errors : list error;
  table : option TableMap;
  dbMap : DbMap;
  executor : SqlExecutor;
  target : option Value;
  colMap : structColumnMap;
  joins : list joinFilter;
  assignCols : list string;
  assignBindVars : list string;
  filters : option MultiFilter;
  orderBy : list string;
  groupBy : list string;
  limit : Z;
  offset : Z;
  args : list iface
}.

Definition setErrors (es : list error) (p : QueryPlan) : QueryPlan :=
  mkQueryPlan es (table p) (dbMap p) (executor p) (target p) (colMap p) (joins p)
    (assignCols p) (assignBindVars p) (filters p) (orderBy p) (groupBy p) (limit p)
    (offset p) (args p).
Definition setTable (t : option TableMap) (p : QueryPlan) : QueryPlan :=
  mkQueryPlan (Errors p) t (dbMap p) (executor p) (target p) (colMap p) (joins p)
    (assignCols p) (assignBindVars p) (filters p) (orderBy p) (groupBy p) (limit p)
    (offset p) (args p).
Definition setTarget (v : option Value) (p : QueryPlan) : QueryPlan :=
  mkQueryPlan (Errors p) (table p) (dbMap p) (executor p) v (colMap p) (joins p)
    (assignCols p) (assignBindVars p) (filters p) (orderBy p) (groupBy p) (limit p)
    (offset p) (args p).
Definition setColMap (m : structColumnMap) (p : QueryPlan) : QueryPlan :=
  mkQueryPlan (Errors p) (table p) (dbMap p) (executor p) (target p) m (joins p)
    (assignCols p) (assignBindVars p) (filters p) (orderBy p) (groupBy p) (limit p)
    (offset p) (args p).
Definition setJoins (j : list joinFilter) (p : QueryPlan) : QueryPlan :=
  mkQueryPlan (Errors p) (table p) (dbMap p) (executor p) (target p) (colMap p) j
    (assignCols p) (assignBindVars p) (filters p) (orderBy p) (groupBy p) (limit p)
    (offset p) (args p).
Definition setAssign (cols vars : list string) (p : QueryPlan) : QueryPlan :=
  mkQueryPlan (Errors p) (table p) (dbMap p) (executor p) (target p) (colMap p) (joins p)
    cols vars (filters p) (orderBy p) (groupBy p) (limit p)
    (offset p) (args p).
Definition setFilters (f : option MultiFilter) (p : QueryPlan) : QueryPlan :=
  mkQueryPlan (Errors p) (table p) (dbMap p) (executor p) (target p) (colMap p) (joins p)
    (assignCols p) (assignBindVars p) f (orderBy p) (groupBy p) (limit p)
    (offset p) (args p).
Definition setOrderBy (o : list string) (p : QueryPlan) : QueryPlan :=
  mkQueryPlan (Errors p) (table p) (dbMap p) (executor p) (target p) (colMap p) (joins p)
    (assignCols p) (assignBindVars p) (filters p) o (groupBy p) (limit p)
    (offset p) (args p).
Definition setGroupBy (g : list string) (p : QueryPlan) : QueryPlan :=
  mkQueryPlan (Errors p) (table p) (dbMap p) (executor p) (target p) (colMap p) (joins p)
    (assignCols p) (assignBindVars p) (filters p) (orderBy p) g (limit p)
    (offset p) (args p).
Definition setLimit (n : Z) (p : QueryPlan) : QueryPlan :=
  mkQueryPlan (Errors p) (table p) (dbMap p) (executor p) (target p) (colMap p) (joins p)
    (assignCols p) (assignBindVars p) (filters p) (orderBy p) (groupBy p) n
    (offset p) (args p).
Definition setOffset (n : Z) (p : QueryPlan) : QueryPlan :=
  mkQueryPlan (Errors p) (table p) (dbMap p) (executor p) (target p) (colMap p) (joins p)
    (assignCols p) (assignBindVars p) (filters p) (orderBy p) (groupBy p) (limit p)
    n (args p).
Definition setArgs (a : list iface) (p : QueryPlan) : QueryPlan :=
  mkQueryPlan (Errors p) (table p) (dbMap p) (executor p) (target p) (colMap p) (joins p)
    (assignCols p) (assignBindVars p) (filters p) (orderBy p) (groupBy p) (limit p)
    (offset p) a.

Definition appendError (e : error) (p : QueryPlan) : QueryPlan :=
  setErrors (Errors p ++ [e]) p.

Definition emptyPlan (m : DbMap) (exec : SqlExecutor) : QueryPlan :=
  mkQueryPlan [] None m exec None [] [] [] [] None [] [] 0 0 [].

(** [mapColumns]: an unexported field is skipped, and [ColMap] is asked
    for exported fields only. *)
Fixpoint mapColumns (table : TableMap) (value : Value) (colMap : structColumnMap)
    : outcome structColumnMap :=
  match value with
  | Scalar => Panics
  | Struct _ fields =>
      let quotedTableName :=
        QuotedTableForQuery (tableDialect table) (SchemaName table) (TableName table) in
      (fix loop (fs : list Field) (colMap : structColumnMap) : outcome structColumnMap :=
         match fs with
         | [] => Returns colMap
         | mkField fieldType addr fieldVal :: rest =>
             if Anonymous fieldType then
               match mapColumns table fieldVal colMap with
               | Panics => Panics
               | Returns colMap => loop rest colMap
               end
             else if String.eqb (PkgPath fieldType) "" then
               match ColMap table (Name fieldType) with
               | None => Panics
               | Some col =>
                   let quotedCol := QuoteField (tableDialect table) (ColumnName col) in
                   loop rest
                     (colMap ++ [mkFieldColumnMap addr col quotedTableName quotedCol])%list
               end
             else loop rest colMap
         end) fields colMap
  end.

Definition mapTable (plan : QueryPlan) (targetVal : Target)
    : outcome (QueryPlan * result TableMap) :=
  match targetVal with
  | NotStructPointer => Returns (plan, Err errTarget)
  | StructPointer Scalar => Returns (plan, Err errTarget)
  | StructPointer (Struct typeName fields as v) =>
      match tableFor (dbMap plan) typeName with
      | Err err => Returns (plan, Err err)
      | Ok targetTable =>
          colMap <~ mapColumns targetTable v (colMap plan) ;;
          Returns (setColMap colMap plan, Ok targetTable)
      end
  end.

Definition targetValue (targetVal : Target) : option Value :=
  match targetVal with
  | NotStructPointer => None
  | StructPointer v => Some v
  end.

Definition query (m : DbMap) (exec : SqlExecutor) (target : Target) : outcome QueryPlan :=
  let plan := emptyPlan m exec in
  r <~ mapTable plan target ;;
  match r with
  | (plan, Err err) => Returns (appendError err plan)
  | (plan, Ok targetTable) =>
      Returns (setTable (Some targetTable) (setTarget (targetValue target) plan))
  end.

(** [AssignQueryPlan.Assign]; [QueryPlan.Assign] wraps the same plan in
    an [AssignQueryPlan] and calls it. *)
Definition Assign (plan : QueryPlan) (fieldPtr : Pointer) (value : iface)
    : outcome QueryPlan :=
  match columnForPointer (colMap plan) fieldPtr with
  | Err err => Returns (appendError err plan)
  | Ok column =>
      match table plan with
      | None => Panics
      | Some t =>
          let plan := setAssign
            (assignCols plan ++ [column])
            (assignBindVars plan ++ [BindVar (tableDialect t) (Z.of_nat (length (args plan)))])
            plan in
          Returns (setArgs (args plan ++ [value]) plan)
      end
  end.

Definition storeJoin (plan : QueryPlan) : QueryPlan :=
  match filters plan with
  | Some (joinMulti lastJoinFilter) =>
      setFilters None (setJoins (joins plan ++ [lastJoinFilter]) plan)
  | _ => plan
  end.

(** [Join]: when [mapTable] fails the error is recorded and the nil
    table is dereferenced on the next line. *)
Definition Join (plan : QueryPlan) (target : Target) : outcome QueryPlan :=
  let plan := storeJoin plan in
  r <~ mapTable plan target ;;
  match r with
  | (plan, Err err) => Panics
  | (plan, Ok table) =>
      let quotedTable :=
        QuotedTableForQuery (tableDialect table) (SchemaName table) (TableName table) in
      Returns (setFilters (Some (joinMulti (mkJoinFilter quotedTable []))) plan)
  end.

(** [Filter] and [On]: [plan.filters.Add]; a nil [filters] panics. *)
Definition Filter (plan : QueryPlan) (filters_ : list Filters.Filter) : outcome QueryPlan :=
  match filters plan with
  | None => Panics
  | Some f => Returns (setFilters (Some (Add f filters_)) plan)
  end.

Definition On (plan : QueryPlan) (filters_ : list Filters.Filter) : outcome QueryPlan :=
  Filter plan filters_.

Definition Where (plan : QueryPlan) (filters_ : list Filters.Filter) : outcome QueryPlan :=
  let plan := storeJoin plan in
  let plan := setFilters (Some (andMulti [])) plan in
  Filter plan filters_.

Definition Equal plan fieldPtr value := Filter plan [Filters.Equal fieldPtr value].
Definition NotEqual plan fieldPtr value := Filter plan [Filters.NotEqual fieldPtr value].
Definition Less plan fieldPtr value := Filter plan [Filters.Less fieldPtr value].
Definition LessOrEqual plan fieldPtr value := Filter plan [Filters.LessOrEqual fieldPtr value].
Definition Greater plan fieldPtr value := Filter plan [Filters.Greater fieldPtr value].
Definition GreaterOrEqual plan fieldPtr value :=
  Filter plan [Filters.GreaterOrEqual fieldPtr value].
Definition Null plan fieldPtr := Filter plan [Filters.Null fieldPtr].
Definition NotNull plan fieldPtr := Filter plan [Filters.NotNull fieldPtr].

Definition OrderBy (plan : QueryPlan) (fieldPtr : Pointer) (direction : string) : QueryPlan :=
  match tableColumnForPointer (colMap plan) fieldPtr with
  | Err err => appendError err plan
  | Ok column =>
      let lower := ToLower direction in
      if (String.eqb lower "asc" || String.eqb lower "desc")%bool
      then setOrderBy (orderBy plan ++ [column]) plan
      else if String.eqb lower "" then setOrderBy (orderBy plan ++ [column]) plan
      else appendError errDirection plan
  end.

Definition GroupBy (plan : QueryPlan) (fieldPtr : Pointer) : QueryPlan :=
  match tableColumnForPointer (colMap plan) fieldPtr with
  | Err err => appendError err plan
  | Ok column => setGroupBy (groupBy plan ++ [column]) plan
  end.

Definition Limit (plan : QueryPlan) (limit : Z) : QueryPlan := setLimit limit plan.
Definition Offset (plan : QueryPlan) (offset : Z) : QueryPlan := setOffset offset plan.


Section Rendering.

(** The two methods of [joinFilter] that the plan calls; they are
    declared with the type, outside the sources. *)
Variable joinFilterWhere :
  joinFilter -> structColumnMap -> Dialect -> Z -> result (string * list iface).
Variable joinFilterJoinClause :
  joinFilter -> structColumnMap -> Dialect -> Z -> result (string * list iface).

(** [filter.Where] through the [MultiFilter] interface. *)
Definition multiWhere (filter : MultiFilter) (structMap : structColumnMap) (dialect : Dialect)
    (startBindIdx : Z) : result (string * list iface) :=
  match filter with
  | andMulti subFilters =>
      Filters.Where columnForPointer (Filters.andFilter subFilters) structMap dialect
        startBindIdx
  | joinMulti join => joinFilterWhere join structMap dialect startBindIdx
  end.

Definition whereClause (plan : QueryPlan) : outcome (QueryPlan * result string) :=
  match filters plan, table plan with
  | Some filter, Some t =>
      match multiWhere filter (colMap plan) (tableDialect t) (Z.of_nat (length (args plan))) with
      | Err err => Returns (plan, Err err)
      | Ok (where_, whereArgs) =>
          if negb (String.eqb where_ "") then
            Returns (setArgs (args plan ++ whereArgs) plan, Ok (" where " ++ where_))
          else Returns (plan, Ok "")
      end
  | _, _ => Panics
  end.

(** The loop of [selectJoinClause]; the arguments of the joins rendered
    before a failing one stay on the plan. *)
Fixpoint selectJoinLoop (t : TableMap) (js : list joinFilter) (plan : QueryPlan)
    (buffer : string) : QueryPlan * result string :=
  match js with
  | [] => (plan, Ok buffer)
  | join :: rest =>
      match joinFilterJoinClause join (colMap plan) (tableDialect t)
              (Z.of_nat (length (args plan))) with
      | Err err => (plan, Err err)
      | Ok (joinClause, joinArgs) =>
          selectJoinLoop t rest (setArgs (args plan ++ joinArgs) plan) (buffer ++ joinClause)
      end
  end.

Definition selectJoinClause (plan : QueryPlan) : outcome (QueryPlan * result string) :=
  match joins plan with
  | [] => Returns (plan, Ok "")
  | js =>
      match table plan with
      | None => Panics
      | Some t => Returns (selectJoinLoop t js plan "")
      end
  end.

Definition offsetLimit (t : TableMap) (plan : QueryPlan) (buffer : string)
    : QueryPlan * string :=
  let '(plan, buffer) :=
    if 0 <? offset plan then
      (setArgs (args plan ++ [IInt (offset plan)]) plan,
       buffer ++ " offset " ++ BindVar (tableDialect t) (Z.of_nat (length (args plan))))
    else (plan, buffer) in
  if 0 <? limit plan then
    (setArgs (args plan ++ [IInt (limit plan)]) plan,
     buffer ++ " fetch next (" ++ BindVar (tableDialect t) (Z.of_nat (length (args plan)))
       ++ ") rows only")
  else (plan, buffer).

Definition selectQuery (plan : QueryPlan) : outcome (QueryPlan * result string) :=
  match Errors plan with
  | first :: _ => Returns (plan, Err first)
  | [] =>
      match table plan with
      | None => Panics
      | Some t =>
          let d := tableDialect t in
          let quotedTable := QuotedTableForQuery d (SchemaName t) (TableName t) in
          let buffer := "select " in
          let buffer := writeColumns d (quotedTable ++ ".") (columns t) 0 buffer in
          let buffer := buffer ++ " from " ++ quotedTable in
          j <~ selectJoinClause plan ;;
          match j with
          | (plan, Err err) => Returns (plan, Err err)
          | (plan, Ok joinClause) =>
              let buffer := buffer ++ joinClause in
              w <~ whereClause plan ;;
              match w with
              | (plan, Err err) => Returns (plan, Err err)
              | (plan, Ok clause) =>
                  let buffer := buffer ++ clause in
                  let buffer := writeClauseList " order by " (orderBy plan) 0 buffer in
                  let buffer := writeClauseList " group by " (groupBy plan) 0 buffer in
                  let '(plan, buffer) := offsetLimit t plan buffer in
                  Returns (plan, Ok buffer)
              end
          end
      end
  end.

Definition Select (plan : QueryPlan) : outcome (Ran QueryPlan (list iface)) :=
  q <~ selectQuery plan ;;
  match q with
  | (plan, Err err) => Returns (mkRan plan [] [] (Some err))
  | (plan, Ok query) =>
      match target plan with
      | None => Panics
      | Some _ => Returns (execSelect plan (executor plan) query (args plan))
      end
  end.


Definition Insert (plan : QueryPlan) : outcome (Ran QueryPlan unit) :=
  match Errors plan with
  | first :: _ => Returns (mkRan plan [] tt (Some first))
  | [] =>
      match table plan with
      | None => Panics
      | Some t =>
          let d := tableDialect t in
          let buffer := "insert into " ++ QuotedTableForQuery d (SchemaName t) (TableName t)
                          ++ " (" in
          let buffer := writeCommaList (assignCols plan) 0 buffer in
          let buffer := buffer ++ ") values (" in
          let buffer := writeCommaList (assignBindVars plan) 0 buffer in
          let buffer := buffer ++ ")" in
          Returns (execInsert plan (executor plan) buffer (args plan))
      end
  end.

(** The loop of [joinFromAndWhereClause]. *)
Fixpoint joinFromAndWhereLoop (t : TableMap) (js : list joinFilter) (plan : QueryPlan)
    (fromSlice : list string) (whereBuffer : string)
    : QueryPlan * result (string * string) :=
  match js with
  | [] => (plan, Ok (strings_Join fromSlice ", ", whereBuffer))
  | join :: rest =>
      let fromSlice := (fromSlice ++ [quotedJoinTable join])%list in
      match joinFilterWhere join (colMap plan) (tableDialect t)
              (Z.of_nat (length (args plan))) with
      | Err err => (plan, Err err)
      | Ok (whereClause, whereArgs) =>
          joinFromAndWhereLoop t rest (setArgs (args plan ++ whereArgs) plan) fromSlice
            (whereBuffer ++ whereClause)
      end
  end.

Definition joinFromAndWhereClause (plan : QueryPlan)
    : outcome (QueryPlan * result (string * string)) :=
  match joins plan with
  | [] => Returns (plan, Ok ("", ""))
  | js =>
      match table plan with
      | None => Panics
      | Some t => Returns (joinFromAndWhereLoop t js plan [] "")
      end
  end.

(** The where clause of [Update] and [Delete] with the joins' filters. *)
Definition withJoinWhere (whereClause joinWhereClause : string) : string :=
  if negb (String.eqb joinWhereClause "") then
    (if String.eqb whereClause "" then " where" else whereClause) ++ " " ++ joinWhereClause
  else whereClause.

Definition Update (plan : QueryPlan) : outcome (Ran QueryPlan Z) :=
  match Errors plan with
  | first :: _ => Returns (mkRan plan [] (-1) (Some first))
  | [] =>
      match table plan with
      | None => Panics
      | Some t =>
          let d := tableDialect t in
          let buffer := "update " ++ QuotedTableForQuery d (SchemaName t) (TableName t)
                          ++ " set " in
          buffer <~ writeAssignments (assignCols plan) (assignBindVars plan) 0 buffer ;;
          j <~ joinFromAndWhereClause plan ;;
          match j with
          | (plan, Err err) => Returns (mkRan plan [] (-1) None)
          | (plan, Ok (joinTables, joinWhereClause)) =>
              let buffer :=
                if negb (String.eqb joinTables "") then buffer ++ " from " ++ joinTables
                else buffer in
              w <~ whereClause plan ;;
              match w with
              | (plan, Err err) => Returns (mkRan plan [] (-1) (Some err))
              | (plan, Ok clause) =>
                  let buffer := buffer ++ withJoinWhere clause joinWhereClause in
                  Returns (execRows plan (executor plan) buffer (args plan))
              end
          end
      end
  end.

Definition Delete (plan : QueryPlan) : outcome (Ran QueryPlan Z) :=
  match Errors plan with
  | first :: _ => Returns (mkRan plan [] (-1) (Some first))
  | [] =>
      match table plan with
      | None => Panics
      | Some t =>
          let d := tableDialect t in
          let buffer := "delete from " ++ QuotedTableForQuery d (SchemaName t) (TableName t) in
          j <~ joinFromAndWhereClause plan ;;
          match j with
          | (plan, Err err) => Returns (mkRan plan [] (-1) (Some err))
          | (plan, Ok (joinTables, joinWhereClause)) =>
              let buffer :=
                if negb (String.eqb joinTables "") then buffer ++ " using " ++ joinTables
                else buffer in
              w <~ whereClause plan ;;
              match w with
              | (plan, Err err) => Returns (mkRan plan [] (-1) (Some err))
              | (plan, Ok clause) =>
                  let buffer := buffer ++ withJoinWhere clause joinWhereClause in
                  Returns (execRows plan (executor plan) buffer (args plan))
              end
          end
      end
  end.

End Rendering.

End JoinPlan.

(** ** Descriptions used by the statements *)

(** A comparison predicate: field address, operator, value. *)
Record Comparison : Type := mkComparison {
  cmpAddr : Pointer;
  cmpOperator : string;
  cmpValue : iface
}.

Definition comparisonOf (c : Comparison) : Filters.Filter :=
  Filters.comparisonFilter (cmpAddr c) (cmpOperator c) (cmpValue c).

(** The placeholder indices [k], [k+1], ..., [k+n-1]. *)
Definition bindIndices (k : Z) (n : nat) : list Z :=
  map (fun i => k + Z.of_nat i) (seq 0 n).

(** The comparisons as text, the i-th with the i-th column and the i-th
    placeholder index. *)
Fixpoint comparisonTexts (dialect : Dialect) (columns : list string) (cs : list Comparison)
    (indices : list Z) : list string :=
  match columns, cs, indices with
  | column :: columns, c :: cs, i :: indices =>
      (column ++ cmpOperator c ++ BindVar dialect i)
        :: comparisonTexts dialect columns cs indices
  | _, _, _ => []
  end.

(** A group is parenthesized when it has more than one member. *)
Definition parenthesized (n : nat) (s : string) : string :=
  if Nat.ltb 1 n then "(" ++ s ++ ")" else s.

(** Every text after its separator. *)
Fixpoint separated (sep : string) (texts : list string) : string :=
  match texts with
  | [] => ""
  | t :: rest => sep ++ t ++ separated sep rest
  end.

(** The binding a field address resolves to: the first binding of the
    map that holds this address. *)
Definition bindingOf (structMap : JoinPlan.structColumnMap) (fieldPtr : Pointer)
    : option JoinPlan.fieldColumnMap :=
  find (fun fieldMap => Pointer_eqb (JoinPlan.addr fieldMap) fieldPtr) structMap.

Definition resolvesToTransient (structMap : JoinPlan.structColumnMap) (fieldPtr : Pointer)
    : Prop :=
  exists fieldMap,
    bindingOf structMap fieldPtr = Some fieldMap /\
    Transient (JoinPlan.column fieldMap) = true.

(** The field addresses a filter mentions, in rendering order. *)
Fixpoint filterPointers (filter : Filters.Filter) : list Pointer :=
  match filter with
  | Filters.andFilter subFilters => flat_map filterPointers subFilters
  | Filters.orFilter subFilters => flat_map filterPointers subFilters
  | Filters.comparisonFilter addr _ _ => [addr]
  | Filters.notFilter inner => filterPointers inner
  | Filters.nullFilter addr => [addr]
  | Filters.notNullFilter addr => [addr]
  end.

(** A comparison or null test on one field address. *)
Definition leafOn (fieldPtr : Pointer) (filter : Filters.Filter) : Prop :=
  match filter with
  | Filters.comparisonFilter addr _ _ => addr = fieldPtr
  | Filters.nullFilter addr => addr = fieldPtr
  | Filters.notNullFilter addr => addr = fieldPtr
  | _ => False
  end.

(** The builder calls of [query_plans.go] as data, and what each does
    to the plan ([Equal] and the other comparison calls are [Filter] of
    one filter). *)
Inductive BuilderCall : Type :=
  | CallAssign (fieldPtr : Pointer) (value : iface)
  | CallJoin (target : Target)
  | CallOn (filters : list Filters.Filter)
  | CallWhere (filters : list Filters.Filter)
  | CallFilter (filters : list Filters.Filter)
  | CallOrderBy (fieldPtr : Pointer) (direction : string)
  | CallGroupBy (fieldPtr : Pointer)
  | CallLimit (limit : Z)
  | CallOffset (offset : Z).

Definition builderCall (call : BuilderCall) (plan : JoinPlan.QueryPlan)
    : outcome JoinPlan.QueryPlan :=
  match call with
  | CallAssign fieldPtr value => JoinPlan.Assign plan fieldPtr value
  | CallJoin target => JoinPlan.Join plan target
  | CallOn filters => JoinPlan.On plan filters
  | CallWhere filters => JoinPlan.Where plan filters
  | CallFilter filters => JoinPlan.Filter plan filters
  | CallOrderBy fieldPtr direction => Returns (JoinPlan.OrderBy plan fieldPtr direction)
  | CallGroupBy fieldPtr => Returns (JoinPlan.GroupBy plan fieldPtr)
  | CallLimit limit => Returns (JoinPlan.Limit plan limit)
  | CallOffset offset => Returns (JoinPlan.Offset plan offset)
  end.

(** A chain of builder calls, each on the plan the one before left. *)
Fixpoint builderCalls (chain : list BuilderCall) (plan : JoinPlan.QueryPlan)
    : outcome JoinPlan.QueryPlan :=
  match chain with
  | [] => Returns plan
  | call :: rest => plan <~ builderCall call plan ;; builderCalls rest plan
  end.

(** The names of the fields that [mapColumns] of [query_plans.go] binds:
    the exported fields that are not embedded, embedded structs
    flattened in place. *)
Fixpoint boundFieldNames (value : Value) : list string :=
  match value with
  | Scalar => []
  | Struct _ fields =>
      flat_map (fun field =>
                  match field with
                  | mkField fieldType _ fieldVal =>
                      if Anonymous fieldType then boundFieldNames fieldVal
                      else if String.eqb (PkgPath fieldType) "" then [Name fieldType]
                      else []
                  end) fields
  end.

(** The value of a reflected field. *)
Definition fieldValueOf (field : Field) : Value :=
  match field with mkField _ _ fieldVal => fieldVal end.

(** The columns [mapColumns] binds for a list of field names. *)
Definition columnsOf (table : TableMap) (names : list string) : list (option ColumnMap) :=
  map (ColMap table) names.

(** The directions [OrderBy] is specified to accept. *)
Definition orderDirections : list string := [""; "asc"; "desc"].

(** The values a filter binds: those of its comparisons, in rendering
    order. *)
Fixpoint filterValues (filter : Filters.Filter) : list iface :=
  match filter with
  | Filters.andFilter subFilters => flat_map filterValues subFilters
  | Filters.orFilter subFilters => flat_map filterValues subFilters
  | Filters.comparisonFilter _ _ value => [value]
  | Filters.notFilter inner => filterValues inner
  | Filters.nullFilter _ => []
  | Filters.notNullFilter _ => []
  end.

(** The children of a group rendered one after the other, each from the
    index after the arguments of those before it: their texts and all
    their arguments, or the error of the first child that fails. *)
Fixpoint renderEach (whereOf : Filters.Filter -> Z -> result (string * list iface))
    (startBindIdx : Z) (subFilters : list Filters.Filter)
    : result (list string * list iface) :=
  match subFilters with
  | [] => Ok ([], [])
  | subFilter :: rest =>
      match whereOf subFilter startBindIdx with
      | Err err => Err err
      | Ok (text, args) =>
          match renderEach whereOf (startBindIdx + Z.of_nat (length args)) rest with
          | Err err => Err err
          | Ok (texts, moreArgs) => Ok (text :: texts, (args ++ moreArgs)%list)
          end
      end
  end.

(** A group as text: its children joined by the separator, in
    parentheses when there is more than one child. *)
Definition groupOf (separator : string) (subFilters : list Filters.Filter)
    (rendered : result (list string * list iface)) : result (string * list iface) :=
  match rendered with
  | Err err => Err err
  | Ok (texts, args) =>
      Ok (parenthesized (length subFilters) (strings_Join texts separator), args)
  end.

(** The assignments of a plan are aligned when every assigned column
    has its bind variable and its argument, and the bind variables are
    those of the indices 0, 1, ... in this order. *)
Definition assignmentsAligned (plan : JoinPlan.QueryPlan) : Prop :=
  length (JoinPlan.assignCols plan) = length (JoinPlan.assignBindVars plan) /\
  length (JoinPlan.assignBindVars plan) = length (JoinPlan.args plan) /\
  forall t, JoinPlan.table plan = Some t ->
            JoinPlan.assignBindVars plan
              = map (BindVar (tableDialect t)) (bindIndices 0 (length (JoinPlan.args plan))).

(** A column text of a plan names a binding of the plan that is not
    transient: bare for an assignment, table-qualified for an ordering
    or grouping. *)
Definition namesKeptColumn (qualified : bool) (structMap : JoinPlan.structColumnMap)
    (text : string) : Prop :=
  exists fieldMap,
    In fieldMap structMap /\
    Transient (JoinPlan.column fieldMap) = false /\
    text = if qualified
           then JoinPlan.quotedTable fieldMap ++ "." ++ JoinPlan.quotedColumn fieldMap
           else JoinPlan.quotedColumn fieldMap.

Definition onlyKeptColumns (plan : JoinPlan.QueryPlan) : Prop :=
  Forall (namesKeptColumn false (JoinPlan.colMap plan)) (JoinPlan.assignCols plan) /\
  Forall (namesKeptColumn true (JoinPlan.colMap plan)) (JoinPlan.orderBy plan) /\
  Forall (namesKeptColumn true (JoinPlan.colMap plan)) (JoinPlan.groupBy plan).

(** A clause that is absent when its list is empty. *)
Definition clauseOf (first separator : string) (elems : list string) : string :=
  match elems with
  | [] => ""
  | _ => first ++ strings_Join elems separator
  end.

(** Whether [mapColumns] of [query_plans.go] can walk a value: it is a
    struct, each exported field that is not embedded has a column in the
    table, and each embedded field can be walked in turn. *)
Fixpoint mappable (table : TableMap) (value : Value) : bool :=
  match value with
  | Scalar => false
  | Struct _ fields =>
      (fix all (fs : list Field) : bool :=
         match fs with
         | [] => true
         | mkField fieldType _ fieldVal :: rest =>
             (if Anonymous fieldType then mappable table fieldVal
              else if String.eqb (PkgPath fieldType) "" then
                match ColMap table (Name fieldType) with
                | Some _ => true
                | None => false
                end
              else true) && all rest
         end) fields
  end.

(** The texts [column=bindVar] of an update's assignments. *)
Definition assignmentTexts (assignCols assignBindVars : list string) : list string :=
  map (fun pair => fst pair ++ "=" ++ snd pair) (combine assignCols assignBindVars).

(** The quoted name of a table as the statements write it. *)
Definition quotedName (t : TableMap) : string :=
  QuotedTableForQuery (tableDialect t) (SchemaName t) (TableName t).

(** The builder calls that give the plan a filter to add to. *)
Definition startsFilter (call : BuilderCall) : bool :=
  match call with
  | CallJoin _ => true
  | CallWhere _ => true
  | _ => false
  end.

(** The where clause as [whereClause] of [query_plans.go] writes it, and
    the arguments it appends: nothing for an empty rendering. *)
Definition whereText (where_ : string) : string :=
  if String.eqb where_ "" then "" else " where " ++ where_.

Definition whereArgsKept (where_ : string) (whereArgs : list iface) : list iface :=
  if String.eqb where_ "" then [] else whereArgs.

(** The offset and limit of [selectQuery]: a positive offset is bound
    first, a positive limit after it, each to the next bind index after
    [bound] arguments. *)
Definition offsetArgs (plan : JoinPlan.QueryPlan) : list iface :=
  if 0 <? JoinPlan.offset plan then [IInt (JoinPlan.offset plan)] else [].

Definition limitArgs (plan : JoinPlan.QueryPlan) : list iface :=
  if 0 <? JoinPlan.limit plan then [IInt (JoinPlan.limit plan)] else [].

Definition offsetText (dialect : Dialect) (plan : JoinPlan.QueryPlan) (bound : nat) : string :=
  if 0 <? JoinPlan.offset plan then " offset " ++ BindVar dialect (Z.of_nat bound) else "".

Definition limitText (dialect : Dialect) (plan : JoinPlan.QueryPlan) (bound : nat) : string :=
  if 0 <? JoinPlan.limit plan then
    " fetch next (" ++ BindVar dialect (Z.of_nat (bound + length (offsetArgs plan)))
      ++ ") rows only"
  else "".

(** A binding of [query.go] as [query_plans.go] holds it: with the
    quoted name of its table. *)
Definition withTable (quotedTable : string) (fieldMap : fieldColumnMap)
    : JoinPlan.fieldColumnMap :=
  JoinPlan.mkFieldColumnMap (addr fieldMap) (column fieldMap) quotedTable
    (quotedColumn fieldMap).

(** The comparison calls of the third document of [query.go], one after
    the other, and the same comparisons given to [Filter] of the first
    document. *)
Fixpoint listComparisons (cs : list Comparison) (plan : ListPlan.QueryPlan)
    : outcome ListPlan.QueryPlan :=
  match cs with
  | [] => Returns plan
  | c :: rest =>
      plan <~ ListPlan.addWhere plan (cmpAddr c) (cmpOperator c) (cmpValue c) ;;
      listComparisons rest plan
  end.

Definition filterComparisons (cs : list Comparison) (plan : FilterPlan.QueryPlan)
    : FilterPlan.QueryPlan :=
  fold_left (fun plan c => FilterPlan.Filter plan (comparisonOf c)) cs plan.

(** The same comparison calls in the second document. *)
Fixpoint scanComparisons (cs : list Comparison) (plan : ScanPlan.QueryPlan)
    : outcome ScanPlan.QueryPlan :=
  match cs with
  | [] => Returns plan
  | c :: rest =>
      plan <~ ScanPlan.addWhere plan (cmpAddr c) (cmpOperator c) (cmpValue c) ;;
      scanComparisons rest plan
  end.

(** The builder calls that the first document of [query.go] and
    [query_plans.go] share, and what each does to a plan of either. *)
Inductive SharedCall : Type :=
  | SharedAssign (fieldPtr : Pointer) (value : iface)
  | SharedFilter (filter : Filters.Filter)
  | SharedOrderBy (fieldPtr : Pointer) (direction : string)
  | SharedGroupBy (fieldPtr : Pointer)
  | SharedLimit (limit : Z)
  | SharedOffset (offset : Z).

Definition filterPlanCall (call : SharedCall) (plan : FilterPlan.QueryPlan)
    : outcome FilterPlan.QueryPlan :=
  match call with
  | SharedAssign fieldPtr value => FilterPlan.Assign plan fieldPtr value
  | SharedFilter filter => Returns (FilterPlan.Filter plan filter)
  | SharedOrderBy fieldPtr direction => Returns (FilterPlan.OrderBy plan fieldPtr direction)
  | SharedGroupBy fieldPtr => Returns (FilterPlan.GroupBy plan fieldPtr)
  | SharedLimit limit => Returns (FilterPlan.Limit plan limit)
  | SharedOffset offset => Returns (FilterPlan.Offset plan offset)
  end.

Fixpoint filterPlanCalls (chain : list SharedCall) (plan : FilterPlan.QueryPlan)
    : outcome FilterPlan.QueryPlan :=
  match chain with
  | [] => Returns plan
  | call :: rest => plan <~ filterPlanCall call plan ;; filterPlanCalls rest plan
  end.

Definition asBuilderCall (call : SharedCall) : BuilderCall :=
  match call with
  | SharedAssign fieldPtr value => CallAssign fieldPtr value
  | SharedFilter filter => CallFilter [filter]
  | SharedOrderBy fieldPtr direction => CallOrderBy fieldPtr direction
  | SharedGroupBy fieldPtr => CallGroupBy fieldPtr
  | SharedLimit limit => CallLimit limit
  | SharedOffset offset => CallOffset offset
  end.

(** Two terminal calls ran alike: both panic, or both return with the
    same executor calls, the same value and the same error. *)
Definition sameRun {P Q A : Type} (one : outcome (Ran P A)) (other : outcome (Ran Q A))
    : Prop :=
  match one, other with
  | Returns r1, Returns r2 =>
      calls r1 = calls r2 /\ returned r1 = returned r2 /\ returnedErr r1 = returnedErr r2
  | Panics, Panics => True
  | _, _ => False
  end.

(** A plan of the first document and a plan of [query_plans.go] built
    alike: the same errors, table, executor, assignments and arguments,
    the same column for every field address, no join, and the same
    filters. *)
Definition sameBuild (plan : FilterPlan.QueryPlan) (joinPlan : JoinPlan.QueryPlan) : Prop :=
  JoinPlan.Errors joinPlan = FilterPlan.Errors plan /\
  JoinPlan.table joinPlan = FilterPlan.table plan /\
  JoinPlan.executor joinPlan = FilterPlan.executor plan /\
  JoinPlan.assignCols joinPlan = FilterPlan.assignCols plan /\
  JoinPlan.assignBindVars joinPlan = FilterPlan.assignBindVars plan /\
  JoinPlan.args joinPlan = FilterPlan.args plan /\
  JoinPlan.joins joinPlan = [] /\
  (forall fieldPtr,
      JoinPlan.columnForPointer (JoinPlan.colMap joinPlan) fieldPtr
        = columnForPointer (FilterPlan.targetColMap plan) fieldPtr) /\
  JoinPlan.filters joinPlan
    = Some (JoinPlan.andMulti
              match FilterPlan.filters plan with
              | None => []
              | Some subFilters => subFilters
              end).

(** The calls of the second and third documents of [query.go] that
    assign, compare and page, and what each does to a plan of either. *)
Inductive ListCall : Type :=
  | ListSet (fieldPtr : Pointer) (value : iface)
  | ListCompare (fieldPtr : Pointer) (operator : string) (value : iface)
  | ListLimit (limit : Z)
  | ListOffset (offset : Z).

Definition listCall (call : ListCall) (plan : ListPlan.QueryPlan)
    : outcome ListPlan.QueryPlan :=
  match call with
  | ListSet fieldPtr value => ListPlan.Set_ plan fieldPtr value
  | ListCompare fieldPtr operator value => ListPlan.addWhere plan fieldPtr operator value
  | ListLimit limit => Returns (ListPlan.Limit plan limit)
  | ListOffset offset => Returns (ListPlan.Offset plan offset)
  end.

Definition scanCall (call : ListCall) (plan : ScanPlan.QueryPlan)
    : outcome ScanPlan.QueryPlan :=
  match call with
  | ListSet fieldPtr value => ScanPlan.Set_ plan fieldPtr value
  | ListCompare fieldPtr operator value => ScanPlan.addWhere plan fieldPtr operator value
  | ListLimit limit => Returns (ScanPlan.Limit plan limit)
  | ListOffset offset => Returns (ScanPlan.Offset plan offset)
  end.

Fixpoint listCalls (chain : list ListCall) (plan : ListPlan.QueryPlan)
    : outcome ListPlan.QueryPlan :=
  match chain with
  | [] => Returns plan
  | call :: rest => plan <~ listCall call plan ;; listCalls rest plan
  end.

Fixpoint scanCalls (chain : list ListCall) (plan : ScanPlan.QueryPlan)
    : outcome ScanPlan.QueryPlan :=
  match chain with
  | [] => Returns plan
  | call :: rest => plan <~ scanCall call plan ;; scanCalls rest plan
  end.

(** A plan of the third document and a plan of the second built alike
    for a target [value] with table [t]. *)
Definition sameLists (t : TableMap) (value : Value) (plan : ListPlan.QueryPlan)
    (scanPlan : ScanPlan.QueryPlan) : Prop :=
  mapColumns t value [] = Returns (ListPlan.targetColMap plan) /\
  ListPlan.table plan = Some t /\
  ScanPlan.table scanPlan = Some t /\
  ScanPlan.target scanPlan = Some value /\
  ScanPlan.Errors scanPlan = ListPlan.Errors plan /\
  ScanPlan.executor scanPlan = ListPlan.executor plan /\
  ScanPlan.assignCols scanPlan = ListPlan.assignCols plan /\
  ScanPlan.assignBindVars scanPlan = ListPlan.assignBindVars plan /\
  ScanPlan.where_ scanPlan = ListPlan.where_ plan /\
  ScanPlan.args scanPlan = ListPlan.args plan /\
  ScanPlan.limit scanPlan = ListPlan.limit plan /\
  ScanPlan.offset scanPlan = ListPlan.offset plan /\
  ListPlan.target plan = Some value /\
  ListPlan.orderBy plan = [] /\
  ListPlan.groupBy plan = [] /\
  ScanPlan.orderBy scanPlan = "" /\
  ScanPlan.groupBy scanPlan = "".

(** The joins of a plan rendered one after the other by [render] (the
    join clause of a select, or the where clause that an update and a
    delete take from a join), each from the bind index after the
    arguments so far: the texts, or the error of the first join that
    fails, and the arguments of the joins rendered. *)
Fixpoint renderJoins
    (render : JoinPlan.joinFilter -> JoinPlan.structColumnMap -> Dialect -> Z ->
              result (string * list iface))
    (structMap : JoinPlan.structColumnMap) (dialect : Dialect) (bound : nat)
    (js : list JoinPlan.joinFilter) : result (list string) * list iface :=
  match js with
  | [] => (Ok [], [])
  | join :: rest =>
      match render join structMap dialect (Z.of_nat bound) with
      | Err err => (Err err, [])
      | Ok (text, args) =>
          let '(r, more) :=
            renderJoins render structMap dialect (bound + length args) rest in
          (match r with
           | Ok texts => Ok (text :: texts)
           | Err err => Err err
           end, (args ++ more)%list)
      end
  end.

(** ** Sample data: the structs of the test suite and a dialect *)

Module Sample.

Definition decimal (n : Z) : string :=
  NilZero.string_of_uint (N.to_uint (Z.to_N n)).

(** A dialect with ordinal placeholders [$1], [$2], ... and identifiers
    in back quotes. *)
Definition dialect : Dialect :=
  mkDialect
    (fun f => "`" ++ f ++ "`")
    (fun schema table =>
       if String.eqb schema "" then "`" ++ table ++ "`"
       else schema ++ "." ++ "`" ++ table ++ "`")
    (fun i => "$" ++ decimal (i + 1)).

(** The lookup of a column by the name of its struct field. *)
Definition colMapOf (cols : list ColumnMap) (field : string) : option ColumnMap :=
  find (fun col => String.eqb (fieldName col) field) cols.

Definition exported (name : string) : StructField := mkStructField name "" false.
Definition embedded (name : string) : StructField := mkStructField name "" true.

(** [OverriddenInvoice] of the tests: it embeds [Invoice], and its own
    [Id] overrides [Invoice.Id]; the table has one column per name. *)
Definition invoiceColumns : list ColumnMap :=
  [ mkColumnMap "Id" false "Id";
    mkColumnMap "Created" false "Created";
    mkColumnMap "Updated" false "Updated";
    mkColumnMap "Memo" false "Memo";
    mkColumnMap "PersonId" false "PersonId";
    mkColumnMap "IsPaid" false "IsPaid" ].

Definition invoiceTable : TableMap :=
  mkTableMap "overriddeninvoice" "" invoiceColumns dialect (colMapOf invoiceColumns).

Definition pInvoiceId : Pointer := mkPointer "*int64" 4096.
Definition pCreated : Pointer := mkPointer "*int64" 4104.
Definition pUpdated : Pointer := mkPointer "*int64" 4112.
Definition pMemo : Pointer := mkPointer "*string" 4120.
Definition pPersonId : Pointer := mkPointer "*int64" 4136.
Definition pIsPaid : Pointer := mkPointer "*bool" 4144.
Definition pId : Pointer := mkPointer "*string" 4152.
(** The address of a variable that is no field of the target. *)
Definition pElsewhere : Pointer := mkPointer "*int64" 8192.

Definition invoice : Value :=
  Struct "Invoice"
    [ mkField (exported "Id") pInvoiceId Scalar;
      mkField (exported "Created") pCreated Scalar;
      mkField (exported "Updated") pUpdated Scalar;
      mkField (exported "Memo") pMemo Scalar;
      mkField (exported "PersonId") pPersonId Scalar;
      mkField (exported "IsPaid") pIsPaid Scalar ].

Definition overriddenInvoice : Value :=
  Struct "OverriddenInvoice"
    [ mkField (embedded "Invoice") (mkPointer "*Invoice" 4096) invoice;
      mkField (exported "Id") pId Scalar ].

(** A struct whose first field has no column of its own. *)
Definition draftColumns : list ColumnMap :=
  [ mkColumnMap "Scratch" true "Scratch";
    mkColumnMap "Id" false "Id";
    mkColumnMap "Memo" false "Memo" ].

Definition draftTable : TableMap :=
  mkTableMap "draft" "" draftColumns dialect (colMapOf draftColumns).

Definition pScratch : Pointer := mkPointer "*int64" 12288.
Definition pDraftId : Pointer := mkPointer "*int64" 12296.
Definition pDraftMemo : Pointer := mkPointer "*string" 12304.

Definition draft : Value :=
  Struct "Draft"
    [ mkField (exported "Scratch") pScratch Scalar;
      mkField (exported "Id") pDraftId Scalar;
      mkField (exported "Memo") pDraftMemo Scalar ].

Definition dbmap : DbMap :=
  mkDbMap (fun typeName =>
    if String.eqb typeName "OverriddenInvoice" then Ok invoiceTable
    else if String.eqb typeName "Draft" then Ok draftTable
    else Err (errorsNew ("No table found for type: " ++ typeName))).

(** An executor that finds nothing and changes one row. *)
Definition executor : SqlExecutor :=
  mkSqlExecutor (fun _ _ => ([], None)) (fun _ _ => Ok (mkSqlResult (Ok 1))).

(** A [joinFilter] that renders its ON-filter as an [andFilter]. *)
Definition joinWhere (join : JoinPlan.joinFilter) (structMap : JoinPlan.structColumnMap)
    (dialect : Dialect) (startBindIdx : Z) : result (string * list iface) :=
  Filters.Where JoinPlan.columnForPointer (Filters.andFilter (JoinPlan.onFilters join))
    structMap dialect startBindIdx.

Definition joinClause (join : JoinPlan.joinFilter) (structMap : JoinPlan.structColumnMap)
    (dialect : Dialect) (startBindIdx : Z) : result (string * list iface) :=
  match joinWhere join structMap dialect startBindIdx with
  | Err err => Err err
  | Ok (on, args) =>
      Ok (" inner join " ++ JoinPlan.quotedJoinTable join
            ++ (if String.eqb on "" then "" else " on " ++ on), args)
  end.

(** The plan of [query_plans.go] for an [OverriddenInvoice]. *)
Definition invoicePlan : JoinPlan.QueryPlan :=
  match JoinPlan.query dbmap executor (StructPointer overriddenInvoice) with
  | Returns plan => plan
  | Panics => JoinPlan.emptyPlan dbmap executor
  end.

(** Two failing builder calls in a row: an address that is no field of
    the target, then a direction that is none. *)
Definition failedPlan : JoinPlan.QueryPlan :=
  JoinPlan.OrderBy (JoinPlan.OrderBy invoicePlan pElsewhere "") pMemo "sideways".

(** The plans of the three revisions of [query.go] for the same target. *)
Definition scanPlan : ScanPlan.QueryPlan :=
  ScanPlan.query dbmap executor (StructPointer overriddenInvoice).

Definition listPlan : ListPlan.QueryPlan :=
  match ListPlan.query dbmap executor (StructPointer overriddenInvoice) with
  | Returns plan => plan
  | Panics => ListPlan.emptyPlan executor
  end.

Definition filterPlan : FilterPlan.QueryPlan :=
  match FilterPlan.query dbmap executor (StructPointer overriddenInvoice) with
  | Returns plan => plan
  | Panics => FilterPlan.emptyPlan executor
  end.

(** The plans for a [Draft], whose first column is transient. *)
Definition draftPlan : JoinPlan.QueryPlan :=
  match JoinPlan.query dbmap executor (StructPointer draft) with
  | Returns plan => plan
  | Panics => JoinPlan.emptyPlan dbmap executor
  end.

Definition draftFilterPlan : FilterPlan.QueryPlan :=
  match FilterPlan.query dbmap executor (StructPointer draft) with
  | Returns plan => plan
  | Panics => FilterPlan.emptyPlan executor
  end.

(** Two comparisons of a where clause. *)
Definition twoComparisons : list Comparison :=
  [ mkComparison pIsPaid "=" (IBool false); mkComparison pCreated "<" (IInt 2) ].

(** A where clause on a [Draft] that mentions the transient field. *)
Definition draftWherePlan : JoinPlan.QueryPlan :=
  match JoinPlan.Where draftPlan [Filters.Equal pDraftId (IInt 1); Filters.Null pScratch] with
  | Returns plan => plan
  | Panics => draftPlan
  end.

(** A [Draft] plan after [Where()], ready for [Select]. *)
Definition draftSelectPlan : JoinPlan.QueryPlan :=
  match JoinPlan.Where draftPlan [] with
  | Returns plan => plan
  | Panics => draftPlan
  end.

(** A plan of the second document of [query.go] that has already
    recorded an error. *)
Definition failedScanPlan : ScanPlan.QueryPlan :=
  ScanPlan.GroupBy scanPlan pElsewhere.

(** An update with a join whose ON-filter names an address that is no
    field of either struct:
    [Assign(&inv.IsPaid, true).Join(draft).Equal(&x, 3).Where().Equal(&inv.Id, "4")]. *)
Definition badJoinPlan : JoinPlan.QueryPlan :=
  match (plan <~ JoinPlan.Assign invoicePlan pIsPaid (IBool true) ;;
         plan <~ JoinPlan.Join plan (StructPointer draft) ;;
         plan <~ JoinPlan.Equal plan pElsewhere (IInt 3) ;;
         plan <~ JoinPlan.Where plan [] ;;
         JoinPlan.Equal plan pId (IString "4")) with
  | Returns plan => plan
  | Panics => invoicePlan
  end.

(** An [OverriddenInvoice] plan after [Where()], ready for [Select]. *)
Definition invoiceSelectPlan : JoinPlan.QueryPlan :=
  match JoinPlan.Where invoicePlan [] with
  | Returns plan => plan
  | Panics => invoicePlan
  end.


(** The failed plan after three more builder calls. *)
Definition failedChain : list BuilderCall :=
  [ CallGroupBy pElsewhere; CallLimit 3; CallWhere [Filters.Equal pMemo (IString "m")] ].

Definition failedChainPlan : JoinPlan.QueryPlan :=
  match builderCalls failedChain failedPlan with
  | Returns plan => plan
  | Panics => failedPlan
  end.

(** [Assign(&inv.Id, "4").Assign(&inv.Created, 2).Assign(&inv.Memo, "m")],
    with a failing call in between. *)
Definition assignChain : list BuilderCall :=
  [ CallAssign pId (IString "4"); CallAssign pCreated (IInt 2);
    CallAssign pMemo (IString "m") ].

Definition assignPlan : JoinPlan.QueryPlan :=
  match builderCalls assignChain invoicePlan with
  | Returns plan => plan
  | Panics => invoicePlan
  end.

(** [OrderBy(&inv.Created, "desc").Limit(3)] on a fresh plan. *)
Definition orderChain : list BuilderCall :=
  [ CallOrderBy pCreated "desc"; CallLimit 3 ].

Definition orderPlan : JoinPlan.QueryPlan :=
  match builderCalls orderChain invoicePlan with
  | Returns plan => plan
  | Panics => invoicePlan
  end.

(** [Assign(&inv.Memo, "m").Assign(&inv.IsPaid, true).Where().Equal(&inv.Id, "4")
     .Less(&inv.Created, 2)]. *)
Definition updateChain : list BuilderCall :=
  [ CallAssign pMemo (IString "m"); CallAssign pIsPaid (IBool true); CallWhere [];
    CallFilter [Filters.Equal pId (IString "4")];
    CallFilter [Filters.Less pCreated (IInt 2)] ].

Definition updatePlan : JoinPlan.QueryPlan :=
  match builderCalls updateChain invoicePlan with
  | Returns plan => plan
  | Panics => invoicePlan
  end.

(** [Where().Equal(&inv.IsPaid, false).OrderBy(&inv.Created, "desc")
     .GroupBy(&inv.PersonId).Offset(20).Limit(10)]. *)
Definition pageChain : list BuilderCall :=
  [ CallWhere []; CallFilter [Filters.Equal pIsPaid (IBool false)];
    CallOrderBy pCreated "desc"; CallGroupBy pPersonId; CallOffset 20; CallLimit 10 ].

Definition pagePlan : JoinPlan.QueryPlan :=
  match builderCalls pageChain invoicePlan with
  | Returns plan => plan
  | Panics => invoicePlan
  end.

(** [Where().Equal(&inv.Id, "4")], and the plan a first [Delete] leaves. *)
Definition deletePlan : JoinPlan.QueryPlan :=
  match JoinPlan.Where invoicePlan [Filters.Equal pId (IString "4")] with
  | Returns plan => plan
  | Panics => invoicePlan
  end.

(** [Join(draft).On(Equal(&draft.Id, 1)).Where()] on the invoice plan. *)
Definition joinChain : list BuilderCall :=
  [ CallJoin (StructPointer draft); CallOn [Filters.Equal pDraftId (IInt 1)]; CallWhere [] ].

Definition joinedPlan : JoinPlan.QueryPlan :=
  match builderCalls joinChain invoicePlan with
  | Returns plan => plan
  | Panics => invoicePlan
  end.


(** [Assign(&inv.Memo, "m").Where().Equal(&inv.Id, "4")] on the plan of
    the first document of [query.go]. *)
Definition sharedChain : list SharedCall :=
  [ SharedAssign pMemo (IString "m"); SharedFilter (Filters.Equal pId (IString "4")) ].

Definition filterRunPlan : FilterPlan.QueryPlan :=
  match filterPlanCalls sharedChain filterPlan with
  | Returns plan => plan
  | Panics => filterPlan
  end.

(** [Set(&inv.Memo, "m").Where().Equal(&inv.Id, "4").Limit(5)] on the
    plan of the third document. *)
Definition listChain : list ListCall :=
  [ ListSet pMemo (IString "m"); ListCompare pId "=" (IString "4"); ListLimit 5 ].

Definition listRunPlan : ListPlan.QueryPlan :=
  match listCalls listChain listPlan with
  | Returns plan => plan
  | Panics => listPlan
  end.

(** [Where().Equal(&inv.IsPaid, false).Less(&inv.Created, 2)
     .OrderBy(&inv.Created, "desc").Limit(10).Offset(20)] on the plan of
    the third document. *)
Definition listPagePlan : ListPlan.QueryPlan :=
  match (plan <~ ListPlan.Equal listPlan pIsPaid (IBool false) ;;
         plan <~ ListPlan.Less plan pCreated (IInt 2) ;;
         Returns (ListPlan.Offset
                    (ListPlan.Limit (ListPlan.OrderBy plan pCreated "desc") 10) 20)) with
  | Returns plan => plan
  | Panics => listPlan
  end.

(** [Where().Equal(&inv.IsPaid, false).OrderBy(&inv.Created, "desc")
     .GroupBy(&inv.PersonId).Limit(10)] on the plan of the second
    document. *)
Definition scanPagePlan : ScanPlan.QueryPlan :=
  match ScanPlan.Equal scanPlan pIsPaid (IBool false) with
  | Returns plan =>
      ScanPlan.Limit (ScanPlan.GroupBy (ScanPlan.OrderBy plan pCreated "desc") pPersonId) 10
  | Panics => scanPlan
  end.

End Sample.

(** * Properties *)

Unset Implicit Arguments.

(** ** Strings and pointers *)

Lemma append_assoc (a b c : string) : (a ++ b) ++ c = a ++ (b ++ c).
Proof.
  induction a as [|ch a IH]; simpl.
  - reflexivity.
  - now rewrite IH.
Qed.

Lemma append_nil_r (a : string) : a ++ "" = a.
Proof.
  induction a as [|ch a IH]; simpl; [reflexivity | now rewrite IH].
Qed.

Lemma Pointer_eqb_eq (p q : Pointer) : Pointer_eqb p q = true <-> p = q.
Proof.
  destruct p as [pt pa], q as [qt qa]; unfold Pointer_eqb; simpl.
  rewrite andb_true_iff, String.eqb_eq, Z.eqb_eq.
  split.
  - intros [-> ->]; reflexivity.
  - intros H; inversion H; auto.
Qed.

Lemma Pointer_eqb_refl (p : Pointer) : Pointer_eqb p p = true.
Proof. now apply Pointer_eqb_eq. Qed.

Lemma Pointer_eqb_neq (p q : Pointer) : Pointer_eqb p q = false <-> p <> q.
Proof.
  split.
  - intros H E. apply Pointer_eqb_eq in E. congruence.
  - intros H. destruct (Pointer_eqb p q) eqn:E; [|reflexivity].
    apply Pointer_eqb_eq in E. contradiction.
Qed.

(** ** Terminal calls on a plan with a recorded error *)

(** C1. On a plan of [query_plans.go] whose [Errors] is not empty, each
    of [Select], [Insert], [Update] and [Delete] returns the first
    recorded error, calls the executor not once and leaves the plan as
    it was. *)
Theorem terminal_returns_first_error :
  forall (jw jc : JoinPlan.joinFilter -> JoinPlan.structColumnMap -> Dialect -> Z ->
                  result (string * list iface))
         (plan : JoinPlan.QueryPlan) (first : error) (later : list error),
    JoinPlan.Errors plan = first :: later ->
    JoinPlan.Select jw jc plan = Returns (mkRan plan [] [] (Some first)) /\
    JoinPlan.Insert plan = Returns (mkRan plan [] tt (Some first)) /\
    JoinPlan.Update jw plan = Returns (mkRan plan [] (-1) (Some first)) /\
    JoinPlan.Delete jw plan = Returns (mkRan plan [] (-1) (Some first)).
Proof.
  intros jw jc plan first later H.
  unfold JoinPlan.Select, JoinPlan.selectQuery, JoinPlan.Insert, JoinPlan.Update,
    JoinPlan.Delete.
  rewrite H. simpl. repeat split; reflexivity.
Qed.

(** The same holds in the three revisions of [query.go]. *)
Lemma ListPlan_terminal_returns_first_error :
  forall (plan : ListPlan.QueryPlan) (first : error) (later : list error),
    ListPlan.Errors plan = first :: later ->
    ListPlan.Select plan = Returns (mkRan plan [] [] (Some first)) /\
    ListPlan.Insert plan = Returns (mkRan plan [] tt (Some first)) /\
    ListPlan.Update plan = Returns (mkRan plan [] (-1) (Some first)) /\
    ListPlan.Delete plan = Returns (mkRan plan [] (-1) (Some first)).
Proof.
  intros plan first later H.
  unfold ListPlan.Select, ListPlan.Insert, ListPlan.Update, ListPlan.Delete.
  rewrite H. repeat split; reflexivity.
Qed.

Lemma FilterPlan_terminal_returns_first_error :
  forall (plan : FilterPlan.QueryPlan) (first : error) (later : list error),
    FilterPlan.Errors plan = first :: later ->
    FilterPlan.Select plan = Returns (mkRan plan [] [] (Some first)) /\
    FilterPlan.Insert plan = Returns (mkRan plan [] tt (Some first)) /\
    FilterPlan.Update plan = Returns (mkRan plan [] (-1) (Some first)) /\
    FilterPlan.Delete plan = Returns (mkRan plan [] (-1) (Some first)).
Proof.
  intros plan first later H.
  unfold FilterPlan.Select, FilterPlan.Insert, FilterPlan.Update, FilterPlan.Delete.
  rewrite H. repeat split; reflexivity.
Qed.

Lemma ScanPlan_terminal_returns_first_error :
  forall (plan : ScanPlan.QueryPlan) (first : error) (later : list error),
    ScanPlan.Errors plan = first :: later ->
    ScanPlan.Select plan = Returns (mkRan plan [] [] (Some first)) /\
    ScanPlan.Insert plan = Returns (mkRan plan [] tt (Some first)) /\
    ScanPlan.Update plan = Returns (mkRan plan [] (-1) (Some first)) /\
    ScanPlan.Delete plan = Returns (mkRan plan [] (-1) (Some first)).
Proof.
  intros plan first later H.
  unfold ScanPlan.Select, ScanPlan.Insert, ScanPlan.Update, ScanPlan.Delete.
  rewrite H. repeat split; reflexivity.
Qed.

Lemma terminal_returns_first_error_witness :
  JoinPlan.Errors Sample.failedPlan = [errNotFound; errDirection] /\
  JoinPlan.Select Sample.joinWhere Sample.joinClause Sample.failedPlan
    = Returns (mkRan Sample.failedPlan [] [] (Some errNotFound)).
Proof.
  split.
  - reflexivity.
  - apply (terminal_returns_first_error Sample.joinWhere Sample.joinClause
             Sample.failedPlan errNotFound [errDirection]).
    reflexivity.
Defined.

(** ** The comparison constructors *)

(** C2. The filter that [Greater] builds renders the [=] operator, and
    so does the filter of [GreaterOrEqual]: both are the filter of
    [Equal], not a [>] or [>=] comparison. *)
Theorem Greater_renders_equality :
  forall (colMapT : Type) (lookup : colMapT -> Pointer -> result string)
         (structMap : colMapT) (dialect : Dialect) (startBindIdx : Z)
         (fieldPtr : Pointer) (value : iface) (column : string),
    lookup structMap fieldPtr = Ok column ->
    Filters.Where lookup (Filters.Greater fieldPtr value) structMap dialect startBindIdx
      = Ok (column ++ "=" ++ BindVar dialect startBindIdx, [value]) /\
    Filters.Where lookup (Filters.GreaterOrEqual fieldPtr value) structMap dialect startBindIdx
      = Ok (column ++ "=" ++ BindVar dialect startBindIdx, [value]) /\
    Filters.Greater fieldPtr value = Filters.Equal fieldPtr value /\
    Filters.GreaterOrEqual fieldPtr value = Filters.Equal fieldPtr value.
Proof.
  intros colMapT lookup structMap dialect startBindIdx fieldPtr value column H.
  simpl. rewrite H. repeat split; reflexivity.
Qed.

Lemma Greater_renders_equality_witness :
  columnForPointer (FilterPlan.targetColMap Sample.filterPlan) Sample.pUpdated = Ok "`Updated`" /\
  Filters.Where columnForPointer (Filters.Greater Sample.pUpdated (IInt 1))
    (FilterPlan.targetColMap Sample.filterPlan) Sample.dialect 0
    = Ok ("`Updated`=$1", [IInt 1]).
Proof.
  split.
  - reflexivity.
  - apply (Greater_renders_equality structColumnMap columnForPointer
             (FilterPlan.targetColMap Sample.filterPlan) Sample.dialect 0
             Sample.pUpdated (IInt 1) "`Updated`").
    reflexivity.
Defined.

(** The whole statement that [Select] hands to the executor after
    [Greater(&inv.Updated, 1)]. *)
Lemma FilterPlan_Greater_select :
  FilterPlan.Select (FilterPlan.Greater Sample.filterPlan Sample.pUpdated (IInt 1))
  = Returns (mkRan
      (FilterPlan.setArgs [IInt 1]
         (FilterPlan.Greater Sample.filterPlan Sample.pUpdated (IInt 1)))
      [SelectCall
         "select `Id`,`Created`,`Updated`,`Memo`,`PersonId`,`IsPaid` from `overriddeninvoice` where `Updated`=$1"
         [IInt 1]]
      [] None).
Proof. reflexivity. Qed.

(** The plans of the second and third documents of [query.go] write the
    operator themselves, and write [>] and [>=]. *)
Lemma ListPlan_Greater_renders_greater :
  forall (plan : ListPlan.QueryPlan) (t : TableMap) (fieldPtr : Pointer) (value : iface)
         (column : string),
    ListPlan.ColumnForPointer plan fieldPtr = Ok column ->
    ListPlan.table plan = Some t ->
    let bindVar := BindVar (tableDialect t) (Z.of_nat (length (ListPlan.args plan))) in
    ListPlan.Greater plan fieldPtr value
      = Returns (ListPlan.setArgs (ListPlan.args plan ++ [value])
                   (ListPlan.setWhere (ListPlan.where_ plan ++ [column ++ ">" ++ bindVar]) plan))
    /\
    ListPlan.GreaterOrEqual plan fieldPtr value
      = Returns (ListPlan.setArgs (ListPlan.args plan ++ [value])
                   (ListPlan.setWhere (ListPlan.where_ plan ++ [column ++ ">=" ++ bindVar]) plan)).
Proof.
  intros plan t fieldPtr value column Hc Ht bindVar.
  unfold ListPlan.Greater, ListPlan.GreaterOrEqual, ListPlan.addWhere.
  rewrite Hc, Ht. split; reflexivity.
Qed.

(** ** Bind indices of a conjunction of comparisons *)

Lemma strings_Join_cons (t : string) (rest : list string) (sep : string) :
  strings_Join (t :: rest) sep = t ++ separated sep rest.
Proof.
  revert t. induction rest as [|u rest IH]; intros t.
  - simpl. now rewrite append_nil_r.
  - change (strings_Join (t :: u :: rest) sep) with (t ++ sep ++ strings_Join (u :: rest) sep).
    rewrite IH. reflexivity.
Qed.

Lemma bindIndices_length (k : Z) (n : nat) : length (bindIndices k n) = n.
Proof. unfold bindIndices. now rewrite length_map, length_seq. Qed.

Lemma bindIndices_S (k : Z) (n : nat) :
  bindIndices k (S n) = k :: bindIndices (k + 1) n.
Proof.
  unfold bindIndices. simpl. rewrite Z.add_0_r. f_equal.
  rewrite <- seq_shift, map_map. apply map_ext. intros i. lia.
Qed.

Lemma bindIndices_nth (k : Z) (n i : nat) :
  (i < n)%nat -> nth_error (bindIndices k n) i = Some (k + Z.of_nat i).
Proof.
  intros H. unfold bindIndices. rewrite nth_error_map.
  rewrite nth_error_seq. destruct (Nat.ltb_spec i n); [reflexivity | lia].
Qed.

Section ComparisonLoop.

Variable colMapT : Type.
Variable lookup : colMapT -> Pointer -> result string.
Variable structMap : colMapT.
Variable dialect : Dialect.
Variable separator : string.
Variable startBindIdx : Z.

Let whereOf (sub : Filters.Filter) (idx : Z) := Filters.Where lookup sub structMap dialect idx.

(** From the second sub-filter on, the loop writes the separator, then
    the comparison with the next free index, and appends its value. *)
Lemma joinLoop_comparisons_later :
  forall (cs : list Comparison) (columns : list string) (index : nat) (buffer : string)
         (args : list iface),
    Forall2 (fun c column => lookup structMap (cmpAddr c) = Ok column) cs columns ->
    index <> 0%nat ->
    Filters.joinLoop whereOf separator startBindIdx (map comparisonOf cs) index buffer args
      = Ok (buffer ++ separated separator
                        (comparisonTexts dialect columns cs
                           (bindIndices (startBindIdx + Z.of_nat (length args)) (length cs))),
            (args ++ map cmpValue cs)%list).
Proof.
  induction cs as [|c cs IH]; intros columns index buffer args HF Hi.
  - inversion HF; subst. simpl. now rewrite append_nil_r, app_nil_r.
  - inversion HF as [|c' column cs' columns' Hc HF']; subst.
    simpl map. cbn [Filters.joinLoop].
    unfold whereOf at 1. cbn [comparisonOf Filters.Where]. rewrite Hc.
    destruct index as [|index]; [contradiction|].
    cbn [Nat.eqb negb].
    rewrite (IH columns' (S (S index))); [|assumption|discriminate].
    rewrite length_app. cbn [length]. rewrite bindIndices_S.
    cbn [comparisonTexts separated].
    replace (startBindIdx + Z.of_nat (length args + 1)) with
        (startBindIdx + Z.of_nat (length args) + 1) by lia.
    rewrite <- app_assoc. cbn [app].
    rewrite !append_assoc. reflexivity.
Qed.

Lemma joinLoop_comparisons_first :
  forall (cs : list Comparison) (columns : list string) (buffer : string),
    Forall2 (fun c column => lookup structMap (cmpAddr c) = Ok column) cs columns ->
    Filters.joinLoop whereOf separator startBindIdx (map comparisonOf cs) 0 buffer []
      = Ok (buffer ++ strings_Join
                        (comparisonTexts dialect columns cs
                           (bindIndices startBindIdx (length cs))) separator,
            map cmpValue cs).
Proof.
  intros cs columns buffer HF.
  destruct HF as [|c column cs columns Hc HF].
  - simpl. now rewrite append_nil_r.
  - simpl map. cbn [Filters.joinLoop].
    unfold whereOf at 1. cbn [comparisonOf Filters.Where]. rewrite Hc.
    cbn [Nat.eqb negb app].
    rewrite (joinLoop_comparisons_later cs columns 1 _ _ HF); [|discriminate].
    cbn [length]. rewrite bindIndices_S. cbn [comparisonTexts].
    rewrite strings_Join_cons.
    replace (startBindIdx + Z.of_nat 1) with (startBindIdx + 1) by lia.
    rewrite Z.add_0_r. rewrite !append_assoc. reflexivity.
Qed.

End ComparisonLoop.

(** The rendering of an [And] of comparisons whose columns resolve. *)
Lemma and_of_comparisons_rendering :
  forall (colMapT : Type) (lookup : colMapT -> Pointer -> result string)
         (structMap : colMapT) (dialect : Dialect) (k : Z)
         (cs : list Comparison) (columns : list string),
    Forall2 (fun c column => lookup structMap (cmpAddr c) = Ok column) cs columns ->
    Filters.Where lookup (Filters.andFilter (map comparisonOf cs)) structMap dialect k
      = Ok (parenthesized (length cs)
              (strings_Join
                 (comparisonTexts dialect columns cs (bindIndices k (length cs))) " and "),
            map cmpValue cs).
Proof.
  intros colMapT lookup structMap dialect k cs columns HF.
  cbn [Filters.Where]. unfold Filters.joinFilters.
  rewrite (joinLoop_comparisons_first _ lookup structMap dialect " and " k cs columns _ HF).
  rewrite length_map. unfold parenthesized.
  destruct (Nat.ltb 1 (length cs)); [|reflexivity].
  now rewrite append_assoc.
Qed.

(** C3. A filter that ANDs N comparisons whose columns resolve, rendered
    from start index k, is the N comparisons joined by [" and "] (in
    parentheses when N > 1), the i-th written with the placeholder of
    index k+i, so the placeholders are those of k, k+1, ..., k+N-1 in
    this order; and the returned arguments are the N values in the same
    order. *)
Theorem and_of_comparisons_bind_indices :
  forall (colMapT : Type) (lookup : colMapT -> Pointer -> result string)
         (structMap : colMapT) (dialect : Dialect) (k : Z)
         (cs : list Comparison) (columns : list string),
    Forall2 (fun c column => lookup structMap (cmpAddr c) = Ok column) cs columns ->
    Filters.Where lookup (Filters.And (map comparisonOf cs)) structMap dialect k
      = Ok (parenthesized (length cs)
              (strings_Join
                 (comparisonTexts dialect columns cs (bindIndices k (length cs))) " and "),
            map cmpValue cs)
    /\ length (comparisonTexts dialect columns cs (bindIndices k (length cs))) = length cs
    /\ length (map cmpValue cs) = length cs
    /\ (forall i, (i < length cs)%nat ->
          nth_error (bindIndices k (length cs)) i = Some (k + Z.of_nat i)).
Proof.
  intros colMapT lookup structMap dialect k cs columns HF.
  split; [|split; [|split]].
  - unfold Filters.And. now apply and_of_comparisons_rendering.
  - clear - HF. generalize k. induction HF as [|c column cs columns Hc HF IH]; intros k0.
    + reflexivity.
    + cbn [length]. rewrite bindIndices_S. cbn [comparisonTexts length]. now rewrite IH.
  - apply length_map.
  - intros i Hi. now apply bindIndices_nth.
Qed.

Lemma and_of_comparisons_bind_indices_witness :
  Filters.Where JoinPlan.columnForPointer (Filters.And (map comparisonOf Sample.twoComparisons))
    (JoinPlan.colMap Sample.invoicePlan) Sample.dialect 1
  = Ok ("(`IsPaid`=$2 and `Created`<$3)", [IBool false; IInt 2]).
Proof.
  refine (proj1 (and_of_comparisons_bind_indices _ JoinPlan.columnForPointer
                   (JoinPlan.colMap Sample.invoicePlan) Sample.dialect 1
                   Sample.twoComparisons ["`IsPaid`"; "`Created`"] _)).
  repeat constructor.
Defined.

(** ** References to transient columns *)

Lemma Filter_nested_ind :
  forall P : Filters.Filter -> Prop,
    (forall subFilters, Forall P subFilters -> P (Filters.andFilter subFilters)) ->
    (forall subFilters, Forall P subFilters -> P (Filters.orFilter subFilters)) ->
    (forall addr comparison value, P (Filters.comparisonFilter addr comparison value)) ->
    (forall inner, P inner -> P (Filters.notFilter inner)) ->
    (forall addr, P (Filters.nullFilter addr)) ->
    (forall addr, P (Filters.notNullFilter addr)) ->
    forall filter, P filter.
Proof.
  intros P Hand Hor Hcmp Hnot Hnull Hnotnull.
  fix IH 1.
  intros [subs|subs|a c v|inner|a|a].
  - apply Hand. induction subs as [|sub subs IHsubs]; constructor; [apply IH | exact IHsubs].
  - apply Hor. induction subs as [|sub subs IHsubs]; constructor; [apply IH | exact IHsubs].
  - apply Hcmp.
  - apply Hnot, IH.
  - apply Hnull.
  - apply Hnotnull.
Qed.

Section FilterFailures.

Variable colMapT : Type.
Variable lookup : colMapT -> Pointer -> result string.
Variable structMap : colMapT.
Variable dialect : Dialect.

Let whereOf (sub : Filters.Filter) (idx : Z) := Filters.Where lookup sub structMap dialect idx.

(** An error of the loop is the error of one of its sub-filters. *)
Lemma joinLoop_error_origin :
  forall (separator : string) (startBindIdx : Z) (subFilters : list Filters.Filter)
         (index : nat) (buffer : string) (args : list iface) (e : error),
    Filters.joinLoop whereOf separator startBindIdx subFilters index buffer args = Err e ->
    exists sub idx, In sub subFilters /\ whereOf sub idx = Err e.
Proof.
  intros separator startBindIdx subFilters.
  induction subFilters as [|sub rest IH]; intros index buffer args e H.
  - discriminate.
  - cbn [Filters.joinLoop] in H.
    destruct (whereOf sub (startBindIdx + Z.of_nat (length args))) as [[nextWhere nextArgs]|e'] eqn:E.
    + apply IH in H. destruct H as (sub' & idx & Hin & He).
      exists sub', idx. split; [now right | exact He].
    + inversion H; subst. exists sub, (startBindIdx + Z.of_nat (length args)).
      split; [now left | exact E].
Qed.

(** A sub-filter that fails at every index makes the loop fail. *)
Lemma joinLoop_fails :
  forall (separator : string) (startBindIdx : Z) (subFilters : list Filters.Filter)
         (index : nat) (buffer : string) (args : list iface) (sub : Filters.Filter),
    In sub subFilters ->
    (forall idx, exists e, whereOf sub idx = Err e) ->
    exists e, Filters.joinLoop whereOf separator startBindIdx subFilters index buffer args = Err e.
Proof.
  intros separator startBindIdx subFilters.
  induction subFilters as [|hd rest IH]; intros index buffer args sub Hin Hfail.
  - contradiction.
  - cbn [Filters.joinLoop].
    destruct (whereOf hd (startBindIdx + Z.of_nat (length args))) as [[nextWhere nextArgs]|e'] eqn:E.
    + destruct Hin as [->|Hin].
      * destruct (Hfail (startBindIdx + Z.of_nat (length args))) as [e He]. congruence.
      * eapply IH; eassumption.
    + now exists e'.
Qed.

Lemma joinFilters_error_origin :
  forall (separator : string) (startBindIdx : Z) (subFilters : list Filters.Filter) (e : error),
    Filters.joinFilters whereOf separator startBindIdx subFilters = Err e ->
    exists sub idx, In sub subFilters /\ whereOf sub idx = Err e.
Proof.
  intros separator startBindIdx subFilters e H. unfold Filters.joinFilters in H.
  destruct (Filters.joinLoop whereOf separator startBindIdx subFilters 0 _ [])
    as [[buffer args]|e'] eqn:E; [discriminate|].
  inversion H; subst. eapply joinLoop_error_origin; eassumption.
Qed.

Lemma joinFilters_fails :
  forall (separator : string) (startBindIdx : Z) (subFilters : list Filters.Filter)
         (sub : Filters.Filter),
    In sub subFilters ->
    (forall idx, exists e, whereOf sub idx = Err e) ->
    exists e, Filters.joinFilters whereOf separator startBindIdx subFilters = Err e.
Proof.
  intros separator startBindIdx subFilters sub Hin Hfail. unfold Filters.joinFilters.
  destruct (joinLoop_fails separator startBindIdx subFilters 0
              (if Nat.ltb 1 (length subFilters) then "(" else "") [] sub Hin Hfail) as [e He].
  rewrite He. now exists e.
Qed.

(** An error of a rendering is the error of the lookup of one of the
    filter's field addresses. *)
Lemma Where_error_origin :
  forall (filter : Filters.Filter) (startBindIdx : Z) (e : error),
    Filters.Where lookup filter structMap dialect startBindIdx = Err e ->
    exists fieldPtr, In fieldPtr (filterPointers filter) /\ lookup structMap fieldPtr = Err e.
Proof.
  induction filter as [subs IH|subs IH|a c v|inner IH|a|a] using Filter_nested_ind;
    intros startBindIdx e H; cbn [Filters.Where] in H.
  - apply joinFilters_error_origin in H. destruct H as (sub & idx & Hin & He).
    rewrite Forall_forall in IH. destruct (IH sub Hin idx e He) as (p & Hp & Hl).
    exists p. split; [|exact Hl]. cbn [filterPointers]. apply in_flat_map. now exists sub.
  - apply joinFilters_error_origin in H. destruct H as (sub & idx & Hin & He).
    rewrite Forall_forall in IH. destruct (IH sub Hin idx e He) as (p & Hp & Hl).
    exists p. split; [|exact Hl]. cbn [filterPointers]. apply in_flat_map. now exists sub.
  - destruct (lookup structMap a) as [column|e'] eqn:E; [discriminate|].
    inversion H; subst. exists a. split; [now left | exact E].
  - destruct (Filters.Where lookup inner structMap dialect startBindIdx)
      as [[whereStr args]|e'] eqn:E; [discriminate|].
    inversion H; subst. exact (IH startBindIdx e E).
  - destruct (lookup structMap a) as [column|e'] eqn:E; [discriminate|].
    inversion H; subst. exists a. split; [now left | exact E].
  - destruct (lookup structMap a) as [column|e'] eqn:E; [discriminate|].
    inversion H; subst. exists a. split; [now left | exact E].
Qed.

(** A filter that mentions a field address whose lookup fails does not
    render, whatever the start index. *)
Lemma Where_fails :
  forall (filter : Filters.Filter) (fieldPtr : Pointer) (e : error),
    In fieldPtr (filterPointers filter) ->
    lookup structMap fieldPtr = Err e ->
    forall startBindIdx, exists e', Filters.Where lookup filter structMap dialect startBindIdx = Err e'.
Proof.
  induction filter as [subs IH|subs IH|a c v|inner IH|a|a] using Filter_nested_ind;
    intros fieldPtr e Hin Hl startBindIdx; cbn [filterPointers] in Hin; cbn [Filters.Where].
  - apply in_flat_map in Hin. destruct Hin as (sub & Hsub & Hp).
    rewrite Forall_forall in IH.
    apply (joinFilters_fails " and " startBindIdx subs sub Hsub).
    intros idx. exact (IH sub Hsub fieldPtr e Hp Hl idx).
  - apply in_flat_map in Hin. destruct Hin as (sub & Hsub & Hp).
    rewrite Forall_forall in IH.
    apply (joinFilters_fails " or " startBindIdx subs sub Hsub).
    intros idx. exact (IH sub Hsub fieldPtr e Hp Hl idx).
  - destruct Hin as [->|[]]. rewrite Hl. now exists e.
  - destruct (IH fieldPtr e Hin Hl startBindIdx) as [e' He']. rewrite He'. now exists e'.
  - destruct Hin as [->|[]]. rewrite Hl. now exists e.
  - destruct Hin as [->|[]]. rewrite Hl. now exists e.
Qed.

End FilterFailures.

Lemma fieldMapForPointer_bindingOf :
  forall (structMap : JoinPlan.structColumnMap) (fieldPtr : Pointer),
    JoinPlan.fieldMapForPointer structMap fieldPtr =
    match bindingOf structMap fieldPtr with
    | None => Err errNotFound
    | Some fieldMap =>
        if Transient (JoinPlan.column fieldMap) then Err errTransient else Ok fieldMap
    end.
Proof.
  intros structMap fieldPtr. unfold bindingOf.
  induction structMap as [|fieldMap rest IH]; simpl.
  - reflexivity.
  - destruct (Pointer_eqb (JoinPlan.addr fieldMap) fieldPtr); [reflexivity | exact IH].
Qed.

Lemma resolvesToTransient_lookup :
  forall (structMap : JoinPlan.structColumnMap) (fieldPtr : Pointer),
    resolvesToTransient structMap fieldPtr ->
    JoinPlan.fieldMapForPointer structMap fieldPtr = Err errTransient /\
    JoinPlan.columnForPointer structMap fieldPtr = Err errTransient /\
    JoinPlan.tableColumnForPointer structMap fieldPtr = Err errTransient.
Proof.
  intros structMap fieldPtr (fieldMap & Hb & Ht).
  unfold JoinPlan.columnForPointer, JoinPlan.tableColumnForPointer.
  rewrite fieldMapForPointer_bindingOf, Hb, Ht. repeat split; reflexivity.
Qed.

(** The lookup of a bound field address fails with the transient-column
    error or not at all. *)
Lemma bound_lookup_error :
  forall (structMap : JoinPlan.structColumnMap) (fieldPtr : Pointer) (e : error),
    bindingOf structMap fieldPtr <> None ->
    JoinPlan.columnForPointer structMap fieldPtr = Err e ->
    e = errTransient.
Proof.
  intros structMap fieldPtr e Hb H. unfold JoinPlan.columnForPointer in H.
  rewrite fieldMapForPointer_bindingOf in H.
  destruct (bindingOf structMap fieldPtr) as [fieldMap|]; [|contradiction].
  destruct (Transient (JoinPlan.column fieldMap)); [|discriminate].
  now inversion H.
Qed.

(** A filter all of whose field addresses are bound, one of them to a
    transient column, renders to the transient-column error. *)
Lemma Where_transient :
  forall (structMap : JoinPlan.structColumnMap) (dialect : Dialect) (filter : Filters.Filter)
         (fieldPtr : Pointer) (startBindIdx : Z),
    In fieldPtr (filterPointers filter) ->
    resolvesToTransient structMap fieldPtr ->
    (forall p, In p (filterPointers filter) -> bindingOf structMap p <> None) ->
    Filters.Where JoinPlan.columnForPointer filter structMap dialect startBindIdx
      = Err errTransient.
Proof.
  intros structMap dialect filter fieldPtr startBindIdx Hin Ht Hbound.
  destruct (resolvesToTransient_lookup structMap fieldPtr Ht) as (_ & Hl & _).
  destruct (Where_fails _ JoinPlan.columnForPointer structMap dialect filter fieldPtr
              errTransient Hin Hl startBindIdx) as [e He].
  rewrite He. f_equal.
  destruct (Where_error_origin _ JoinPlan.columnForPointer structMap dialect filter
              startBindIdx e He) as (p & Hp & Hpl).
  exact (bound_lookup_error structMap p e (Hbound p Hp) Hpl).
Qed.

Lemma writeAssignments_returns :
  forall (assignCols assignBindVars : list string) (i : nat) (buffer : string),
    (i + length assignCols <= length assignBindVars)%nat ->
    exists written, writeAssignments assignCols assignBindVars i buffer = Returns written.
Proof.
  induction assignCols as [|col rest IH]; intros assignBindVars i buffer H.
  - now exists buffer.
  - cbn [writeAssignments length] in *.
    destruct (nth_error assignBindVars i) as [bindVar|] eqn:E.
    + apply IH. lia.
    + apply nth_error_None in E. lia.
Qed.

(** C4. In [query_plans.go], for a field address that resolves to a
    transient column: the resolver fails with the transient-column
    error; [Assign], [OrderBy] and [GroupBy] record that error and add
    nothing to the argument list nor to their own lists; a comparison or
    null filter on the address renders to that error; adding a filter
    leaves the argument list alone; and when the where filter mentions
    the address (all its addresses being bound), [whereClause] returns
    the error with the plan unchanged and [Select], [Delete] and
    [Update] return it without calling the executor. *)
Theorem transient_reference_fails :
  forall (jw jc : JoinPlan.joinFilter -> JoinPlan.structColumnMap -> Dialect -> Z ->
                  result (string * list iface))
         (plan : JoinPlan.QueryPlan) (fieldPtr : Pointer),
    resolvesToTransient (JoinPlan.colMap plan) fieldPtr ->
    JoinPlan.fieldMapForPointer (JoinPlan.colMap plan) fieldPtr = Err errTransient
    /\ (forall value,
          JoinPlan.Assign plan fieldPtr value = Returns (JoinPlan.appendError errTransient plan))
    /\ (forall direction,
          JoinPlan.OrderBy plan fieldPtr direction = JoinPlan.appendError errTransient plan)
    /\ JoinPlan.GroupBy plan fieldPtr = JoinPlan.appendError errTransient plan
    /\ (JoinPlan.args (JoinPlan.appendError errTransient plan) = JoinPlan.args plan
        /\ JoinPlan.assignCols (JoinPlan.appendError errTransient plan) = JoinPlan.assignCols plan
        /\ JoinPlan.orderBy (JoinPlan.appendError errTransient plan) = JoinPlan.orderBy plan
        /\ JoinPlan.groupBy (JoinPlan.appendError errTransient plan) = JoinPlan.groupBy plan)
    /\ (forall filter dialect startBindIdx,
          leafOn fieldPtr filter ->
          Filters.Where JoinPlan.columnForPointer filter (JoinPlan.colMap plan) dialect
            startBindIdx = Err errTransient)
    /\ (forall filters_ plan',
          JoinPlan.Filter plan filters_ = Returns plan' ->
          JoinPlan.args plan' = JoinPlan.args plan /\
          JoinPlan.Errors plan' = JoinPlan.Errors plan)
    /\ (forall subFilters,
          JoinPlan.filters plan = Some (JoinPlan.andMulti subFilters) ->
          In fieldPtr (flat_map filterPointers subFilters) ->
          (forall p, In p (flat_map filterPointers subFilters) ->
                     bindingOf (JoinPlan.colMap plan) p <> None) ->
          JoinPlan.table plan <> None ->
          JoinPlan.whereClause jw plan = Returns (plan, Err errTransient) /\
          (JoinPlan.Errors plan = [] ->
           JoinPlan.joins plan = [] ->
           JoinPlan.Select jw jc plan = Returns (mkRan plan [] [] (Some errTransient)) /\
           JoinPlan.Delete jw plan = Returns (mkRan plan [] (-1) (Some errTransient)) /\
           (length (JoinPlan.assignCols plan) = length (JoinPlan.assignBindVars plan) ->
            JoinPlan.Update jw plan = Returns (mkRan plan [] (-1) (Some errTransient))))).
Proof.
  intros jw jc plan fieldPtr Ht.
  destruct (resolvesToTransient_lookup _ _ Ht) as (Hf & Hc & Htc).
  split; [exact Hf|].
  split; [intros value; unfold JoinPlan.Assign; now rewrite Hc|].
  split; [intros direction; unfold JoinPlan.OrderBy; now rewrite Htc|].
  split; [unfold JoinPlan.GroupBy; now rewrite Htc|].
  split; [repeat split; reflexivity|].
  split.
  { intros filter dialect startBindIdx Hleaf.
    destruct filter as [subs|subs|a c v|inner|a|a]; simpl in Hleaf; try contradiction;
      subst a; cbn [Filters.Where]; now rewrite Hc. }
  split.
  { intros filters_ plan' H. unfold JoinPlan.Filter in H.
    destruct (JoinPlan.filters plan); [|discriminate].
    inversion H; subst. split; reflexivity. }
  intros subFilters Hfilters Hin Hbound Htable.
  destruct (JoinPlan.table plan) as [t|] eqn:Et; [|contradiction].
  assert (Hw : JoinPlan.whereClause jw plan = Returns (plan, Err errTransient)).
  { unfold JoinPlan.whereClause. rewrite Hfilters, Et. cbn [JoinPlan.multiWhere].
    rewrite (Where_transient (JoinPlan.colMap plan) (tableDialect t)
               (Filters.andFilter subFilters) fieldPtr _ Hin Ht Hbound).
    reflexivity. }
  split; [exact Hw|].
  intros Herrors Hjoins.
  split; [|split].
  - unfold JoinPlan.Select, JoinPlan.selectQuery, JoinPlan.selectJoinClause.
    rewrite Herrors, Et, Hjoins. cbn [obind]. rewrite Hw. reflexivity.
  - unfold JoinPlan.Delete, JoinPlan.joinFromAndWhereClause.
    rewrite Herrors, Et, Hjoins. cbn [obind]. rewrite Hw. reflexivity.
  - intros Hlen. unfold JoinPlan.Update, JoinPlan.joinFromAndWhereClause.
    rewrite Herrors, Et, Hjoins.
    destruct (writeAssignments_returns (JoinPlan.assignCols plan) (JoinPlan.assignBindVars plan) 0
                ("update " ++ QuotedTableForQuery (tableDialect t) (SchemaName t) (TableName t)
                   ++ " set ")) as [written Hwr]; [simpl; lia|].
    rewrite Hwr. cbn [obind]. rewrite Hw. reflexivity.
Qed.

Lemma transient_reference_fails_witness :
  resolvesToTransient (JoinPlan.colMap Sample.draftWherePlan) Sample.pScratch /\
  JoinPlan.Assign Sample.draftWherePlan Sample.pScratch (IInt 7)
    = Returns (JoinPlan.appendError errTransient Sample.draftWherePlan) /\
  JoinPlan.Select Sample.joinWhere Sample.joinClause Sample.draftWherePlan
    = Returns (mkRan Sample.draftWherePlan [] [] (Some errTransient)).
Proof.
  assert (Ht : resolvesToTransient (JoinPlan.colMap Sample.draftWherePlan) Sample.pScratch).
  { eexists. split; reflexivity. }
  destruct (transient_reference_fails Sample.joinWhere Sample.joinClause
              Sample.draftWherePlan Sample.pScratch Ht)
    as (_ & Hassign & _ & _ & _ & _ & _ & Hterminal).
  split; [exact Ht|]. split; [apply Hassign|].
  refine (proj1 (proj2 (Hterminal
            [Filters.Equal Sample.pDraftId (IInt 1); Filters.Null Sample.pScratch]
            eq_refl _ _ _) eq_refl eq_refl)).
  - simpl. tauto.
  - intros p Hin. simpl in Hin. destruct Hin as [<-|[<-|[]]]; discriminate.
  - discriminate.
Defined.

(** ** Column resolution by field address *)

Lemma Value_nested_ind :
  forall P : Value -> Prop,
    P Scalar ->
    (forall typeName fields,
        Forall (fun field => P (fieldValueOf field)) fields -> P (Struct typeName fields)) ->
    forall value, P value.
Proof.
  intros P Hscalar Hstruct.
  fix IH 1.
  intros [|typeName fields].
  - exact Hscalar.
  - apply Hstruct.
    induction fields as [|[fieldType addr fieldVal] fields IHfields]; constructor.
    + apply IH.
    + exact IHfields.
Qed.

(** [mapColumns] appends to the map it is given, one binding per bound
    field name, with the column [ColMap] gives for that name. *)
Lemma JoinPlan_mapColumns_appends :
  forall (table : TableMap) (value : Value) (colMap colMap' : JoinPlan.structColumnMap),
    JoinPlan.mapColumns table value colMap = Returns colMap' ->
    exists bound,
      colMap' = (colMap ++ bound)%list /\
      map (fun fieldMap => Some (JoinPlan.column fieldMap)) bound
        = columnsOf table (boundFieldNames value).
Proof.
  intros table value.
  induction value as [|typeName fields IH] using Value_nested_ind; intros colMap colMap' H.
  - discriminate.
  - cbn [JoinPlan.mapColumns] in H. cbn [boundFieldNames].
    revert colMap colMap' H.
    induction fields as [|[fieldType addr fieldVal] fields IHfields]; intros colMap colMap' H.
    + inversion H; subst. exists []. split; [now rewrite app_nil_r | reflexivity].
    + inversion IH as [|f fs Hhead Htail]; subst. cbn [fieldValueOf] in Hhead.
      specialize (IHfields Htail).
      cbn [flat_map].
      destruct (Anonymous fieldType) eqn:Hanon.
      * destruct (JoinPlan.mapColumns table fieldVal colMap) as [inner|] eqn:Einner;
          [|discriminate].
        destruct (Hhead _ _ Einner) as (bound1 & -> & Hcols1).
        destruct (IHfields _ _ H) as (bound2 & -> & Hcols2).
        exists (bound1 ++ bound2)%list. split; [now rewrite app_assoc|].
        unfold columnsOf in *. rewrite !map_app. now rewrite Hcols1, Hcols2.
      * destruct (String.eqb (PkgPath fieldType) "") eqn:Hpkg.
        -- destruct (ColMap table (Name fieldType)) as [col|] eqn:Ecol; [|discriminate].
           destruct (IHfields _ _ H) as (bound2 & -> & Hcols2).
           eexists (_ :: bound2). split; [now rewrite <- app_assoc|].
           unfold columnsOf in *. cbn [map app JoinPlan.column]. now rewrite Hcols2, Ecol.
        -- destruct (IHfields _ _ H) as (bound2 & -> & Hcols2).
           exists bound2. split; [reflexivity | exact Hcols2].
Qed.

(** A binding found in a map is found in every extension of the map. *)
Lemma fieldMapForPointer_app :
  forall (structMap more : JoinPlan.structColumnMap) (fieldPtr : Pointer)
         (fieldMap : JoinPlan.fieldColumnMap),
    JoinPlan.fieldMapForPointer structMap fieldPtr = Ok fieldMap ->
    JoinPlan.fieldMapForPointer (structMap ++ more)%list fieldPtr = Ok fieldMap.
Proof.
  induction structMap as [|hd rest IH]; intros more fieldPtr fieldMap H; simpl in *.
  - discriminate.
  - destruct (Pointer_eqb (JoinPlan.addr hd) fieldPtr); [exact H | now apply IH].
Qed.

Lemma fieldMapForPointer_found :
  forall (structMap : JoinPlan.structColumnMap) (fieldPtr : Pointer)
         (fieldMap : JoinPlan.fieldColumnMap),
    JoinPlan.fieldMapForPointer structMap fieldPtr = Ok fieldMap ->
    In fieldMap structMap /\ JoinPlan.addr fieldMap = fieldPtr.
Proof.
  induction structMap as [|hd rest IH]; intros fieldPtr fieldMap H; simpl in *.
  - discriminate.
  - destruct (Pointer_eqb (JoinPlan.addr hd) fieldPtr) eqn:E.
    + destruct (Transient (JoinPlan.column hd)); [discriminate|].
      inversion H; subst. split; [now left | now apply Pointer_eqb_eq].
    + destruct (IH _ _ H) as [Hin Haddr]. split; [now right | exact Haddr].
Qed.

Lemma NoDup_map_injective :
  forall (A B : Type) (f : A -> B) (l : list A) (x y : A),
    NoDup (map f l) -> In x l -> In y l -> f x = f y -> x = y.
Proof.
  intros A B f l x y. induction l as [|a l IH]; intros Hnd Hx Hy Hf.
  - contradiction.
  - cbn [map] in Hnd. inversion Hnd as [|b bs Hnotin Hnd']; subst.
    destruct Hx as [->|Hx], Hy as [->|Hy].
    + reflexivity.
    + exfalso. apply Hnotin. rewrite Hf. now apply in_map.
    + exfalso. apply Hnotin. rewrite <- Hf. now apply in_map.
    + now apply IH.
Qed.

Lemma builderCall_extends_colMap :
  forall (call : BuilderCall) (plan plan' : JoinPlan.QueryPlan),
    builderCall call plan = Returns plan' ->
    exists more, JoinPlan.colMap plan' = (JoinPlan.colMap plan ++ more)%list.
Proof.
  intros call plan plan' H.
  assert (Hsame : forall q, JoinPlan.colMap q = JoinPlan.colMap plan ->
                    exists more, JoinPlan.colMap q = (JoinPlan.colMap plan ++ more)%list).
  { intros q ->. exists []. now rewrite app_nil_r. }
  assert (HstoreJoin : JoinPlan.colMap (JoinPlan.storeJoin plan) = JoinPlan.colMap plan).
  { unfold JoinPlan.storeJoin. destruct (JoinPlan.filters plan) as [[subs|join]|]; reflexivity. }
  assert (HFilter : forall q fs q', JoinPlan.Filter q fs = Returns q' ->
                      JoinPlan.colMap q' = JoinPlan.colMap q).
  { intros q fs q' Hq. unfold JoinPlan.Filter in Hq.
    destruct (JoinPlan.filters q); [|discriminate]. now inversion Hq. }
  destruct call as [fieldPtr value|target|fs|fs|fs|fieldPtr direction|fieldPtr|n|n];
    cbn [builderCall] in H.
  - unfold JoinPlan.Assign in H.
    destruct (JoinPlan.columnForPointer (JoinPlan.colMap plan) fieldPtr).
    + destruct (JoinPlan.table plan); [|discriminate]. inversion H; subst. now apply Hsame.
    + inversion H; subst. now apply Hsame.
  - unfold JoinPlan.Join, JoinPlan.mapTable in H.
    destruct target as [|[|typeName fields]]; cbn [obind] in H; try discriminate.
    destruct (tableFor (JoinPlan.dbMap (JoinPlan.storeJoin plan)) typeName) as [t|e];
      cbn [obind] in H; [|discriminate].
    destruct (JoinPlan.mapColumns t (Struct typeName fields)
                (JoinPlan.colMap (JoinPlan.storeJoin plan))) as [colMap'|] eqn:E;
      cbn [obind] in H; [|discriminate].
    inversion H; subst. cbn [JoinPlan.setFilters JoinPlan.setColMap JoinPlan.colMap].
    destruct (JoinPlan_mapColumns_appends _ _ _ _ E) as (bound & -> & _).
    rewrite HstoreJoin. now exists bound.
  - apply Hsame. exact (HFilter _ _ _ H).
  - unfold JoinPlan.Where in H. apply Hsame. rewrite (HFilter _ _ _ H).
    cbn [JoinPlan.setFilters JoinPlan.colMap]. exact HstoreJoin.
  - apply Hsame. exact (HFilter _ _ _ H).
  - inversion H; subst. apply Hsame. unfold JoinPlan.OrderBy.
    destruct (JoinPlan.tableColumnForPointer (JoinPlan.colMap plan) fieldPtr); [|reflexivity].
    destruct (_ || _)%bool; [reflexivity|]. destruct (String.eqb _ ""); reflexivity.
  - inversion H; subst. apply Hsame. unfold JoinPlan.GroupBy.
    destruct (JoinPlan.tableColumnForPointer (JoinPlan.colMap plan) fieldPtr); reflexivity.
  - inversion H; subst. now apply Hsame.
  - inversion H; subst. now apply Hsame.
Qed.

Lemma builderCalls_extend_colMap :
  forall (chain : list BuilderCall) (plan plan' : JoinPlan.QueryPlan),
    builderCalls chain plan = Returns plan' ->
    exists more, JoinPlan.colMap plan' = (JoinPlan.colMap plan ++ more)%list.
Proof.
  induction chain as [|call rest IH]; intros plan plan' H; cbn [builderCalls] in H.
  - inversion H; subst. exists []. now rewrite app_nil_r.
  - destruct (builderCall call plan) as [mid|] eqn:E; cbn [obind] in H; [|discriminate].
    destruct (builderCall_extends_colMap call plan mid E) as [more1 H1].
    destruct (IH mid plan' H) as [more2 H2].
    exists (more1 ++ more2)%list. now rewrite H2, H1, app_assoc.
Qed.

(** C5 as stated fails on the struct of the test suite: the address of
    the embedded [Invoice.Id] and the address of the overriding [Id] are
    distinct and resolve to the same column. *)
Lemma overridden_field_shares_column :
  JoinPlan.query Sample.dbmap Sample.executor (StructPointer Sample.overriddenInvoice)
    = Returns Sample.invoicePlan /\
  ~ (forall (p1 p2 : Pointer) (fm1 fm2 : JoinPlan.fieldColumnMap),
       p1 <> p2 ->
       JoinPlan.fieldMapForPointer (JoinPlan.colMap Sample.invoicePlan) p1 = Ok fm1 ->
       JoinPlan.fieldMapForPointer (JoinPlan.colMap Sample.invoicePlan) p2 = Ok fm2 ->
       JoinPlan.column fm1 <> JoinPlan.column fm2).
Proof.
  split; [reflexivity|].
  intros H.
  refine (H Sample.pInvoiceId Sample.pId _ _ _ eq_refl eq_refl eq_refl).
  discriminate.
Qed.

(** C5, amended. Within one plan of [query_plans.go], a field address
    that resolved to a binding resolves to the same binding after any
    chain of further builder calls; and two distinct field addresses
    resolve to distinct columns whenever no two bindings of the plan
    share a column. *)
Theorem resolution_stable_and_injective_on_distinct_columns :
  forall plan : JoinPlan.QueryPlan,
    (forall (chain : list BuilderCall) (plan' : JoinPlan.QueryPlan) (fieldPtr : Pointer)
            (fieldMap : JoinPlan.fieldColumnMap),
        builderCalls chain plan = Returns plan' ->
        JoinPlan.fieldMapForPointer (JoinPlan.colMap plan) fieldPtr = Ok fieldMap ->
        JoinPlan.fieldMapForPointer (JoinPlan.colMap plan') fieldPtr = Ok fieldMap)
    /\
    (NoDup (map JoinPlan.column (JoinPlan.colMap plan)) ->
     forall (p1 p2 : Pointer) (fm1 fm2 : JoinPlan.fieldColumnMap),
       p1 <> p2 ->
       JoinPlan.fieldMapForPointer (JoinPlan.colMap plan) p1 = Ok fm1 ->
       JoinPlan.fieldMapForPointer (JoinPlan.colMap plan) p2 = Ok fm2 ->
       JoinPlan.column fm1 <> JoinPlan.column fm2).
Proof.
  intros plan. split.
  - intros chain plan' fieldPtr fieldMap Hchain Hfound.
    destruct (builderCalls_extend_colMap chain plan plan' Hchain) as [more ->].
    now apply fieldMapForPointer_app.
  - intros Hnodup p1 p2 fm1 fm2 Hneq H1 H2 Hcol.
    destruct (fieldMapForPointer_found _ _ _ H1) as [Hin1 Haddr1].
    destruct (fieldMapForPointer_found _ _ _ H2) as [Hin2 Haddr2].
    assert (fm1 = fm2) by (eapply NoDup_map_injective; eassumption).
    subst fm2. congruence.
Qed.

Lemma resolution_stable_and_injective_on_distinct_columns_witness :
  NoDup (map JoinPlan.column (JoinPlan.colMap Sample.draftPlan)) /\
  JoinPlan.fieldMapForPointer (JoinPlan.colMap Sample.draftPlan) Sample.pDraftId
    = Ok (JoinPlan.mkFieldColumnMap Sample.pDraftId (mkColumnMap "Id" false "Id")
            "`draft`" "`Id`") /\
  JoinPlan.column (JoinPlan.mkFieldColumnMap Sample.pDraftId (mkColumnMap "Id" false "Id")
                     "`draft`" "`Id`")
    <> JoinPlan.column (JoinPlan.mkFieldColumnMap Sample.pDraftMemo
                          (mkColumnMap "Memo" false "Memo") "`draft`" "`Memo`").
Proof.
  assert (Hnodup : NoDup (map JoinPlan.column (JoinPlan.colMap Sample.draftPlan))).
  { repeat constructor; simpl; intuition discriminate. }
  split; [exact Hnodup|]. split; [reflexivity|].
  refine (proj2 (resolution_stable_and_injective_on_distinct_columns Sample.draftPlan)
            Hnodup Sample.pDraftId Sample.pDraftMemo _ _ _ eq_refl eq_refl).
  discriminate.
Defined.

(** The bindings of a fresh plan have pairwise distinct columns when the
    bound field names are given pairwise distinct columns by the table. *)
Lemma query_binds_distinct_columns :
  forall (m : DbMap) (exec : SqlExecutor) (typeName : string) (fields : list Field)
         (t : TableMap) (plan : JoinPlan.QueryPlan),
    tableFor m typeName = Ok t ->
    NoDup (columnsOf t (boundFieldNames (Struct typeName fields))) ->
    JoinPlan.query m exec (StructPointer (Struct typeName fields)) = Returns plan ->
    NoDup (map JoinPlan.column (JoinPlan.colMap plan)).
Proof.
  intros m exec typeName fields t plan Ht Hnodup H.
  unfold JoinPlan.query, JoinPlan.mapTable in H.
  cbn [JoinPlan.emptyPlan JoinPlan.dbMap JoinPlan.colMap] in H. rewrite Ht in H.
  destruct (JoinPlan.mapColumns t (Struct typeName fields) []) as [colMap'|] eqn:E;
    cbn [obind] in H; [|discriminate].
  inversion H; subst. cbn.
  destruct (JoinPlan_mapColumns_appends _ _ _ _ E) as (bound & -> & Hcols).
  cbn [app]. rewrite <- Hcols in Hnodup.
  rewrite <- (map_map JoinPlan.column Some) in Hnodup.
  exact (NoDup_map_inv _ _ Hnodup).
Qed.

(** ** Builder calls after an error *)

(** C6. In the second document of [query.go], [addWhere] does not stop
    when the column lookup fails: besides the error it appends an empty
    where entry and the value, an argument that no placeholder binds. *)
Theorem ScanPlan_addWhere_goes_on_after_error :
  forall (plan : ScanPlan.QueryPlan) (fieldPtr : Pointer) (operator : string) (value : iface)
         (e : error),
    ScanPlan.columnOperatorString plan fieldPtr operator = Returns (Err e) ->
    ScanPlan.addWhere plan fieldPtr operator value
      = Returns (ScanPlan.setArgs (ScanPlan.args plan ++ [value])
                   (ScanPlan.setWhere (ScanPlan.where_ plan ++ [""])
                      (ScanPlan.appendError e plan))).
Proof.
  intros plan fieldPtr operator value e H.
  unfold ScanPlan.addWhere. rewrite H. reflexivity.
Qed.

Lemma ScanPlan_addWhere_goes_on_after_error_witness :
  ScanPlan.Errors Sample.failedScanPlan = [ScanPlan.errNoField] /\
  ScanPlan.columnOperatorString Sample.failedScanPlan Sample.pElsewhere "="
    = Returns (Err ScanPlan.errNoField) /\
  ScanPlan.addWhere Sample.failedScanPlan Sample.pElsewhere "=" (IInt 5)
    = Returns (ScanPlan.setArgs [IInt 5]
                 (ScanPlan.setWhere [""]
                    (ScanPlan.setErrors [ScanPlan.errNoField; ScanPlan.errNoField]
                       Sample.failedScanPlan))).
Proof.
  split; [reflexivity|]. split; [reflexivity|].
  apply (ScanPlan_addWhere_goes_on_after_error Sample.failedScanPlan Sample.pElsewhere "="
           (IInt 5) ScanPlan.errNoField).
  reflexivity.
Defined.

(** The third document of [query.go] returns at the error: only the
    error is recorded. *)
Lemma ListPlan_addWhere_stops_at_error :
  forall (plan : ListPlan.QueryPlan) (fieldPtr : Pointer) (operator : string) (value : iface)
         (e : error),
    ListPlan.ColumnForPointer plan fieldPtr = Err e ->
    ListPlan.addWhere plan fieldPtr operator value = Returns (ListPlan.appendError e plan) /\
    ListPlan.where_ (ListPlan.appendError e plan) = ListPlan.where_ plan /\
    ListPlan.args (ListPlan.appendError e plan) = ListPlan.args plan.
Proof.
  intros plan fieldPtr operator value e H.
  unfold ListPlan.addWhere. rewrite H. repeat split; reflexivity.
Qed.

(** There every where entry comes with its argument, and the entry
    names the placeholder of the argument's position. *)
Lemma ListPlan_addWhere_aligned :
  forall (plan plan' : ListPlan.QueryPlan) (fieldPtr : Pointer) (operator : string)
         (value : iface),
    ListPlan.addWhere plan fieldPtr operator value = Returns plan' ->
    (ListPlan.where_ plan' = ListPlan.where_ plan /\ ListPlan.args plan' = ListPlan.args plan)
    \/
    (exists column t,
        ListPlan.table plan = Some t /\
        ListPlan.where_ plan'
          = (ListPlan.where_ plan
               ++ [(column ++ operator
                      ++ BindVar (tableDialect t) (Z.of_nat (length (ListPlan.args plan))))%string])%list /\
        ListPlan.args plan' = (ListPlan.args plan ++ [value])%list /\
        ListPlan.Errors plan' = ListPlan.Errors plan).
Proof.
  intros plan plan' fieldPtr operator value H. unfold ListPlan.addWhere in H.
  destruct (ListPlan.ColumnForPointer plan fieldPtr) as [column|e].
  - destruct (ListPlan.table plan) as [t|] eqn:Et; [|discriminate].
    inversion H; subst. right. exists column, t. repeat split; reflexivity.
  - inversion H; subst. left. split; reflexivity.
Qed.

(** ** The column list of [Select] *)

(** C7. For the table of [Draft], whose first column is transient,
    [Select] writes a column list that starts with a comma, in
    [query_plans.go] and in the first document of [query.go]. *)
Theorem Select_column_list_leading_comma :
  JoinPlan.selectQuery Sample.joinWhere Sample.joinClause Sample.draftSelectPlan
    = Returns (Sample.draftSelectPlan, Ok "select ,`draft`.`Id`,`draft`.`Memo` from `draft`")
  /\
  FilterPlan.Select (FilterPlan.Equal Sample.draftFilterPlan Sample.pDraftId (IInt 1))
    = Returns (mkRan
        (FilterPlan.setArgs [IInt 1]
           (FilterPlan.Equal Sample.draftFilterPlan Sample.pDraftId (IInt 1)))
        [SelectCall "select ,`Id`,`Memo` from `draft` where `Id`=$1" [IInt 1]]
        [] None).
Proof. split; reflexivity. Qed.

(** The comma is written for every kept column whose index is not 0,
    so a kept column after a transient first column gets one. *)
Lemma writeColumns_after_transient_first :
  forall (dialect : Dialect) (prefix : string) (first second : ColumnMap)
         (rest : list ColumnMap) (buffer : string),
    Transient first = true ->
    Transient second = false ->
    writeColumns dialect prefix (first :: second :: rest) 0 buffer
      = writeColumns dialect prefix rest 2
          ((buffer ++ ",") ++ prefix ++ QuoteField dialect (ColumnName second)).
Proof.
  intros dialect prefix first second rest buffer H1 H2.
  cbn [writeColumns]. rewrite H1, H2. reflexivity.
Qed.

Lemma writeColumns_later :
  forall (dialect : Dialect) (prefix : string) (cols : list ColumnMap) (index : nat)
         (buffer : string),
    index <> 0%nat ->
    writeColumns dialect prefix cols index buffer
      = buffer ++ separated ","
                    (map (fun col => prefix ++ QuoteField dialect (ColumnName col))
                       (filter (fun col => negb (Transient col)) cols)).
Proof.
  intros dialect prefix cols.
  induction cols as [|col cols IH]; intros index buffer Hi.
  - simpl. now rewrite append_nil_r.
  - cbn [writeColumns filter]. rewrite IH by discriminate.
    destruct (Transient col); cbn [negb map separated].
    + reflexivity.
    + destruct index; [contradiction|]. cbn [Nat.eqb negb].
      now rewrite !append_assoc.
Qed.

(** When the first column is not transient the list is the kept columns,
    quoted, with a comma between them. *)
Lemma writeColumns_first_kept :
  forall (dialect : Dialect) (prefix : string) (first : ColumnMap) (rest : list ColumnMap)
         (buffer : string),
    Transient first = false ->
    writeColumns dialect prefix (first :: rest) 0 buffer
      = buffer ++ strings_Join
                    (map (fun col => prefix ++ QuoteField dialect (ColumnName col))
                       (filter (fun col => negb (Transient col)) (first :: rest))) ",".
Proof.
  intros dialect prefix first rest buffer H.
  cbn [writeColumns filter]. rewrite H. cbn [negb Nat.eqb map].
  rewrite writeColumns_later by discriminate.
  rewrite strings_Join_cons. now rewrite !append_assoc.
Qed.

(** ** Joins in [Update] *)

(** C9. In [query_plans.go], when [joinFromAndWhereClause] fails inside
    [Update], [Update] returns -1 and a nil error, and the executor is
    not called. *)
Theorem Update_drops_join_error :
  forall (jw : JoinPlan.joinFilter -> JoinPlan.structColumnMap -> Dialect -> Z ->
               result (string * list iface))
         (plan plan' : JoinPlan.QueryPlan) (err : error),
    JoinPlan.Errors plan = [] ->
    length (JoinPlan.assignCols plan) = length (JoinPlan.assignBindVars plan) ->
    JoinPlan.joinFromAndWhereClause jw plan = Returns (plan', Err err) ->
    JoinPlan.Update jw plan = Returns (mkRan plan' [] (-1) None).
Proof.
  intros jw plan plan' err Herrors Hlen Hjoin.
  unfold JoinPlan.Update. rewrite Herrors.
  destruct (JoinPlan.table plan) as [t|] eqn:Et.
  - destruct (writeAssignments_returns (JoinPlan.assignCols plan) (JoinPlan.assignBindVars plan) 0
                ("update " ++ QuotedTableForQuery (tableDialect t) (SchemaName t) (TableName t)
                   ++ " set ")) as [written Hwr]; [simpl; lia|].
    rewrite Hwr. cbn [obind]. rewrite Hjoin. reflexivity.
  - unfold JoinPlan.joinFromAndWhereClause in Hjoin. rewrite Et in Hjoin.
    destruct (JoinPlan.joins plan); discriminate.
Qed.

Lemma Update_drops_join_error_witness :
  JoinPlan.joinFromAndWhereClause Sample.joinWhere Sample.badJoinPlan
    = Returns (Sample.badJoinPlan, Err errNotFound) /\
  JoinPlan.Update Sample.joinWhere Sample.badJoinPlan
    = Returns (mkRan Sample.badJoinPlan [] (-1) None).
Proof.
  split; [reflexivity|].
  apply (Update_drops_join_error Sample.joinWhere Sample.badJoinPlan Sample.badJoinPlan
           errNotFound); reflexivity.
Defined.

(** [Delete] hands the same error to its caller. *)
Lemma Delete_returns_join_error :
  forall (jw : JoinPlan.joinFilter -> JoinPlan.structColumnMap -> Dialect -> Z ->
               result (string * list iface))
         (plan plan' : JoinPlan.QueryPlan) (err : error),
    JoinPlan.Errors plan = [] ->
    JoinPlan.joinFromAndWhereClause jw plan = Returns (plan', Err err) ->
    JoinPlan.Delete jw plan = Returns (mkRan plan' [] (-1) (Some err)).
Proof.
  intros jw plan plan' err Herrors Hjoin.
  unfold JoinPlan.Delete. rewrite Herrors.
  destruct (JoinPlan.table plan) as [t|] eqn:Et.
  - rewrite Hjoin. reflexivity.
  - unfold JoinPlan.joinFromAndWhereClause in Hjoin. rewrite Et in Hjoin.
    destruct (JoinPlan.joins plan); discriminate.
Qed.

(** ** Order-by directions *)

(** The switch on the lower-cased direction accepts exactly the
    directions of [orderDirections]. *)
Lemma direction_switch :
  forall lower : string,
    (if (String.eqb lower "asc" || String.eqb lower "desc")%bool then true
     else if String.eqb lower "" then true else false) = true
    <-> In lower orderDirections.
Proof.
  intros lower. unfold orderDirections. simpl.
  destruct (String.eqb_spec lower "asc") as [->|Hasc]; [simpl; intuition|].
  destruct (String.eqb_spec lower "desc") as [->|Hdesc]; [simpl; intuition|].
  destruct (String.eqb_spec lower "") as [->|Hempty]; [simpl; intuition|].
  simpl. split; [discriminate|]. intros [H|[H|[H|[]]]]; congruence.
Qed.

(** The three outcomes of the direction switch of [OrderBy], against
    [direction_switch] as [Hs]: accepted by the first case, accepted by
    the second, refused. *)
Ltac direction_cases Hs :=
  match goal with
  | |- context [(String.eqb ?lower "asc" || String.eqb ?lower "desc")%bool] =>
      destruct (String.eqb lower "asc" || String.eqb lower "desc")%bool;
      [ split; [reflexivity | intros Hn; exfalso; apply Hn, Hs; reflexivity]
      | destruct (String.eqb lower "");
        [ split; [reflexivity | intros Hn; exfalso; apply Hn, Hs; reflexivity]
        | split; [intros Hin; apply Hs in Hin; discriminate | reflexivity] ] ]
  end.

Lemma JoinPlan_OrderBy_cases :
  forall (plan : JoinPlan.QueryPlan) (fieldPtr : Pointer) (direction column : string),
    JoinPlan.tableColumnForPointer (JoinPlan.colMap plan) fieldPtr = Ok column ->
    (In (ToLower direction) orderDirections ->
     JoinPlan.OrderBy plan fieldPtr direction
       = JoinPlan.setOrderBy (JoinPlan.orderBy plan ++ [column]) plan) /\
    (~ In (ToLower direction) orderDirections ->
     JoinPlan.OrderBy plan fieldPtr direction = JoinPlan.appendError errDirection plan).
Proof.
  intros plan fieldPtr direction column Hc.
  pose proof (direction_switch (ToLower direction)) as Hs.
  unfold JoinPlan.OrderBy. rewrite Hc. cbv zeta.
  direction_cases Hs.
Qed.

(** C8 as stated fails in the second document of [query.go]: [OrderBy]
    with the direction "sideways" records no error and overwrites the
    ordering column and direction.  In [query_plans.go] it fails for an
    address that is no field of the target: the error recorded for
    "sideways" is the resolver's, and "asc" is not accepted without
    error. *)
Lemma OrderBy_direction_not_always_checked :
  ~ In (ToLower "sideways") orderDirections /\
  (ScanPlan.Errors Sample.scanPlan = [] /\
   ScanPlan.orderBy Sample.scanPlan = "" /\
   ScanPlan.Errors (ScanPlan.OrderBy Sample.scanPlan Sample.pCreated "sideways") = [] /\
   ScanPlan.orderBy (ScanPlan.OrderBy Sample.scanPlan Sample.pCreated "sideways") = "Created" /\
   ScanPlan.orderByDirection (ScanPlan.OrderBy Sample.scanPlan Sample.pCreated "sideways")
     = "sideways") /\
  (JoinPlan.Errors Sample.invoicePlan = [] /\
   JoinPlan.Errors (JoinPlan.OrderBy Sample.invoicePlan Sample.pElsewhere "sideways")
     = [errNotFound] /\
   errNotFound <> errDirection /\
   JoinPlan.Errors (JoinPlan.OrderBy Sample.invoicePlan Sample.pElsewhere "asc")
     = [errNotFound]).
Proof.
  split; [|split].
  - unfold orderDirections. simpl. intros [H|[H|[H|[]]]]; discriminate.
  - repeat split; reflexivity.
  - repeat split; try reflexivity. discriminate.
Qed.

(** C8, amended. In [query_plans.go], when the field address resolves
    to a column, [OrderBy] with a direction that is, lower-cased, none
    of "", "asc", "desc" records the direction error and leaves the
    ordering list as it was, and with a direction that is one of them it
    appends the column and records no error; when the address does not
    resolve, the resolver's error is recorded whatever the direction.
    In the second document of [query.go], [OrderBy] stores column and
    direction unchecked, and [Select] reports a direction that is none
    of the three without calling the executor. *)
Theorem OrderBy_direction_validation :
  forall (direction : string),
    (forall (plan : JoinPlan.QueryPlan) (fieldPtr : Pointer) (column : string),
        JoinPlan.tableColumnForPointer (JoinPlan.colMap plan) fieldPtr = Ok column ->
        (~ In (ToLower direction) orderDirections ->
         JoinPlan.OrderBy plan fieldPtr direction = JoinPlan.appendError errDirection plan /\
         JoinPlan.orderBy (JoinPlan.OrderBy plan fieldPtr direction) = JoinPlan.orderBy plan /\
         JoinPlan.Errors (JoinPlan.OrderBy plan fieldPtr direction)
           = (JoinPlan.Errors plan ++ [errDirection])%list) /\
        (In (ToLower direction) orderDirections ->
         JoinPlan.OrderBy plan fieldPtr direction
           = JoinPlan.setOrderBy (JoinPlan.orderBy plan ++ [column]) plan /\
         JoinPlan.Errors (JoinPlan.OrderBy plan fieldPtr direction) = JoinPlan.Errors plan))
    /\
    (forall (plan : JoinPlan.QueryPlan) (fieldPtr : Pointer) (e : error),
        JoinPlan.tableColumnForPointer (JoinPlan.colMap plan) fieldPtr = Err e ->
        JoinPlan.OrderBy plan fieldPtr direction = JoinPlan.appendError e plan)
    /\
    (forall (plan : ScanPlan.QueryPlan) (fieldPtr : Pointer) (column : ColumnMap),
        ScanPlan.ColumnForPointer plan fieldPtr = Ok column ->
        ScanPlan.OrderBy plan fieldPtr direction
          = ScanPlan.setOrderBy (ColumnName column) direction plan)
    /\
    (forall (plan : ScanPlan.QueryPlan),
        ScanPlan.Errors plan = [] ->
        ScanPlan.table plan <> None ->
        ScanPlan.orderBy plan <> "" ->
        ScanPlan.orderByDirection plan = direction ->
        ~ In (ToLower direction) orderDirections ->
        ScanPlan.Select plan
          = Returns (mkRan (ScanPlan.appendError ScanPlan.errDirectionInvalid plan) [] []
                       (Some ScanPlan.errDirectionInvalid))).
Proof.
  intros direction. split; [|split; [|split]].
  - intros plan fieldPtr column Hc.
    destruct (JoinPlan_OrderBy_cases plan fieldPtr direction column Hc) as [Hin Hout].
    split.
    + intros Hn. rewrite (Hout Hn). repeat split; reflexivity.
    + intros Hi. rewrite (Hin Hi). split; reflexivity.
  - intros plan fieldPtr e He. unfold JoinPlan.OrderBy. now rewrite He.
  - intros plan fieldPtr column Hc. unfold ScanPlan.OrderBy. now rewrite Hc.
  - intros plan Herrors Htable Horder Hdir Hn.
    unfold ScanPlan.Select. rewrite Herrors.
    destruct (ScanPlan.table plan) as [t|]; [|contradiction].
    cbv zeta.
    destruct (String.eqb_spec (ScanPlan.orderBy plan) "") as [E|_]; [contradiction|].
    cbn [negb]. rewrite Hdir.
    pose proof (direction_switch (ToLower direction)) as Hs.
    destruct (String.eqb (ToLower direction) "desc");
      destruct (String.eqb (ToLower direction) "asc");
      destruct (String.eqb (ToLower direction) "");
      try (exfalso; apply Hn, Hs; reflexivity).
    cbn [orb]. unfold ScanPlan.appendError at 1. rewrite Herrors. reflexivity.
Qed.

Lemma OrderBy_direction_validation_witness :
  JoinPlan.tableColumnForPointer (JoinPlan.colMap Sample.invoicePlan) Sample.pCreated
    = Ok "`overriddeninvoice`.`Created`" /\
  ~ In (ToLower "Sideways") orderDirections /\
  JoinPlan.OrderBy Sample.invoicePlan Sample.pCreated "Sideways"
    = JoinPlan.appendError errDirection Sample.invoicePlan /\
  In (ToLower "DESC") orderDirections /\
  JoinPlan.OrderBy Sample.invoicePlan Sample.pCreated "DESC"
    = JoinPlan.setOrderBy ["`overriddeninvoice`.`Created`"] Sample.invoicePlan.
Proof.
  assert (Hc : JoinPlan.tableColumnForPointer (JoinPlan.colMap Sample.invoicePlan)
                 Sample.pCreated = Ok "`overriddeninvoice`.`Created`") by reflexivity.
  assert (Hn : ~ In (ToLower "Sideways") orderDirections).
  { unfold orderDirections. simpl. intros [H|[H|[H|[]]]]; discriminate. }
  assert (Hi : In (ToLower "DESC") orderDirections).
  { unfold orderDirections. simpl. tauto. }
  split; [exact Hc|]. split; [exact Hn|]. split; [|split; [exact Hi|]].
  - exact (proj1 (proj1 (proj1 (OrderBy_direction_validation "Sideways")
                           Sample.invoicePlan Sample.pCreated _ Hc) Hn)).
  - exact (proj1 (proj2 (proj1 (OrderBy_direction_validation "DESC")
                           Sample.invoicePlan Sample.pCreated _ Hc) Hi)).
Defined.

(** The first and third documents of [query.go] check the direction in
    [OrderBy] as [query_plans.go] does. *)
Lemma ListPlan_OrderBy_cases :
  forall (plan : ListPlan.QueryPlan) (fieldPtr : Pointer) (direction column : string),
    ListPlan.ColumnForPointer plan fieldPtr = Ok column ->
    (In (ToLower direction) orderDirections ->
     ListPlan.OrderBy plan fieldPtr direction
       = ListPlan.setOrderBy (ListPlan.orderBy plan ++ [column]) plan) /\
    (~ In (ToLower direction) orderDirections ->
     ListPlan.OrderBy plan fieldPtr direction = ListPlan.appendError errDirection plan).
Proof.
  intros plan fieldPtr direction column Hc.
  pose proof (direction_switch (ToLower direction)) as Hs.
  unfold ListPlan.OrderBy. rewrite Hc. cbv zeta.
  direction_cases Hs.
Qed.

Lemma FilterPlan_OrderBy_cases :
  forall (plan : FilterPlan.QueryPlan) (fieldPtr : Pointer) (direction column : string),
    columnForPointer (FilterPlan.targetColMap plan) fieldPtr = Ok column ->
    (In (ToLower direction) orderDirections ->
     FilterPlan.OrderBy plan fieldPtr direction
       = FilterPlan.setOrderBy (FilterPlan.orderBy plan ++ [column]) plan) /\
    (~ In (ToLower direction) orderDirections ->
     FilterPlan.OrderBy plan fieldPtr direction = FilterPlan.appendError errDirection plan).
Proof.
  intros plan fieldPtr direction column Hc.
  pose proof (direction_switch (ToLower direction)) as Hs.
  unfold FilterPlan.OrderBy. rewrite Hc. cbv zeta.
  direction_cases Hs.
Qed.

(** C10. In [query_plans.go], [OrderBy] with "", "asc" or "desc" does
    the same to the plan: when the field address resolves it appends the
    column alone to the ordering list, the direction is kept nowhere,
    and the statement [Select] renders is the same for the three. *)
Theorem OrderBy_drops_direction :
  forall (jw jc : JoinPlan.joinFilter -> JoinPlan.structColumnMap -> Dialect -> Z ->
                  result (string * list iface))
         (plan : JoinPlan.QueryPlan) (fieldPtr : Pointer) (direction : string),
    In direction orderDirections ->
    JoinPlan.OrderBy plan fieldPtr direction = JoinPlan.OrderBy plan fieldPtr ""
    /\ (forall column,
          JoinPlan.tableColumnForPointer (JoinPlan.colMap plan) fieldPtr = Ok column ->
          JoinPlan.OrderBy plan fieldPtr direction
            = JoinPlan.setOrderBy (JoinPlan.orderBy plan ++ [column]) plan)
    /\ JoinPlan.selectQuery jw jc (JoinPlan.OrderBy plan fieldPtr direction)
         = JoinPlan.selectQuery jw jc (JoinPlan.OrderBy plan fieldPtr "")
    /\ JoinPlan.Select jw jc (JoinPlan.OrderBy plan fieldPtr direction)
         = JoinPlan.Select jw jc (JoinPlan.OrderBy plan fieldPtr "").
Proof.
  intros jw jc plan fieldPtr direction Hin.
  assert (Hsame : JoinPlan.OrderBy plan fieldPtr direction = JoinPlan.OrderBy plan fieldPtr "").
  { unfold orderDirections in Hin.
    destruct Hin as [<-|[<-|[<-|[]]]]; unfold JoinPlan.OrderBy;
      destruct (JoinPlan.tableColumnForPointer (JoinPlan.colMap plan) fieldPtr); reflexivity. }
  split; [exact Hsame|]. split; [|split; now rewrite Hsame].
  intros column Hc. rewrite Hsame. unfold JoinPlan.OrderBy. rewrite Hc. reflexivity.
Qed.

Lemma OrderBy_drops_direction_witness :
  In "desc" orderDirections /\
  JoinPlan.selectQuery Sample.joinWhere Sample.joinClause
    (JoinPlan.OrderBy Sample.invoiceSelectPlan Sample.pCreated "desc")
  = JoinPlan.selectQuery Sample.joinWhere Sample.joinClause
      (JoinPlan.OrderBy Sample.invoiceSelectPlan Sample.pCreated "").
Proof.
  assert (Hin : In "desc" orderDirections) by (unfold orderDirections; simpl; tauto).
  split; [exact Hin|].
  exact (proj1 (proj2 (proj2 (OrderBy_drops_direction Sample.joinWhere Sample.joinClause
                                Sample.invoiceSelectPlan Sample.pCreated "desc" Hin)))).
Defined.

(** The statement rendered after [OrderBy(&inv.Created, "desc")] names
    no direction. *)
Lemma OrderBy_desc_statement :
  JoinPlan.selectQuery Sample.joinWhere Sample.joinClause
    (JoinPlan.OrderBy Sample.invoiceSelectPlan Sample.pCreated "desc")
  = Returns
      (JoinPlan.OrderBy Sample.invoiceSelectPlan Sample.pCreated "desc",
       Ok "select `overriddeninvoice`.`Id`,`overriddeninvoice`.`Created`,`overriddeninvoice`.`Updated`,`overriddeninvoice`.`Memo`,`overriddeninvoice`.`PersonId`,`overriddeninvoice`.`IsPaid` from `overriddeninvoice` order by `overriddeninvoice`.`Created`").
Proof. reflexivity. Qed.

(** ** The where clause of a plan *)

(** The where clause of a plan whose filter is N comparisons starts its
    placeholders at the number of arguments already bound and appends
    the N values to them. *)
Lemma JoinPlan_whereClause_binds_after_args :
  forall (jw : JoinPlan.joinFilter -> JoinPlan.structColumnMap -> Dialect -> Z ->
               result (string * list iface))
         (plan : JoinPlan.QueryPlan) (t : TableMap) (cs : list Comparison)
         (columns : list string),
    JoinPlan.filters plan = Some (JoinPlan.andMulti (map comparisonOf cs)) ->
    JoinPlan.table plan = Some t ->
    Forall2 (fun c column =>
               JoinPlan.columnForPointer (JoinPlan.colMap plan) (cmpAddr c) = Ok column)
            cs columns ->
    let k := Z.of_nat (length (JoinPlan.args plan)) in
    let fragment :=
      parenthesized (length cs)
        (strings_Join
           (comparisonTexts (tableDialect t) columns cs (bindIndices k (length cs))) " and ") in
    fragment <> "" ->
    JoinPlan.whereClause jw plan
      = Returns (JoinPlan.setArgs (JoinPlan.args plan ++ map cmpValue cs) plan,
                 Ok (" where " ++ fragment)).
Proof.
  intros jw plan t cs columns Hf Ht HF k fragment Hne. subst fragment k.
  unfold JoinPlan.whereClause. rewrite Hf, Ht. cbn [JoinPlan.multiWhere].
  rewrite (and_of_comparisons_rendering _ JoinPlan.columnForPointer (JoinPlan.colMap plan)
             (tableDialect t) _ cs columns HF).
  match goal with
  | |- context [String.eqb ?f ""] => destruct (String.eqb_spec f "") as [E|_]
  end; [contradiction|]. reflexivity.
Qed.

(** ** Assignments come in pairs *)

Lemma query_assignments_empty :
  forall (m : DbMap) (exec : SqlExecutor) (target : Target) (plan : JoinPlan.QueryPlan),
    JoinPlan.query m exec target = Returns plan ->
    JoinPlan.assignCols plan = [] /\ JoinPlan.assignBindVars plan = [].
Proof.
  intros m exec target plan H. unfold JoinPlan.query, JoinPlan.mapTable in H.
  destruct target as [|[|typeName fields]]; cbn [obind] in H.
  - inversion H; subst. split; reflexivity.
  - inversion H; subst. split; reflexivity.
  - cbn [JoinPlan.emptyPlan JoinPlan.dbMap JoinPlan.colMap] in H.
    destruct (tableFor m typeName) as [t|e]; cbn [obind] in H.
    + destruct (JoinPlan.mapColumns t (Struct typeName fields) []) as [colMap'|];
        cbn [obind] in H; [|discriminate].
      inversion H; subst. split; reflexivity.
    + inversion H; subst. split; reflexivity.
Qed.

Lemma builderCall_keeps_assignments_paired :
  forall (call : BuilderCall) (plan plan' : JoinPlan.QueryPlan),
    builderCall call plan = Returns plan' ->
    length (JoinPlan.assignCols plan) = length (JoinPlan.assignBindVars plan) ->
    length (JoinPlan.assignCols plan') = length (JoinPlan.assignBindVars plan').
Proof.
  intros call plan plan' H Hlen.
  assert (HstoreJoin : JoinPlan.assignCols (JoinPlan.storeJoin plan) = JoinPlan.assignCols plan
                       /\ JoinPlan.assignBindVars (JoinPlan.storeJoin plan)
                          = JoinPlan.assignBindVars plan).
  { unfold JoinPlan.storeJoin.
    destruct (JoinPlan.filters plan) as [[subs|join]|]; split; reflexivity. }
  assert (HFilter : forall q fs q', JoinPlan.Filter q fs = Returns q' ->
                      JoinPlan.assignCols q' = JoinPlan.assignCols q /\
                      JoinPlan.assignBindVars q' = JoinPlan.assignBindVars q).
  { intros q fs q' Hq. unfold JoinPlan.Filter in Hq.
    destruct (JoinPlan.filters q); [|discriminate]. inversion Hq. split; reflexivity. }
  destruct call as [fieldPtr value|target|fs|fs|fs|fieldPtr direction|fieldPtr|n|n];
    cbn [builderCall] in H.
  - unfold JoinPlan.Assign in H.
    destruct (JoinPlan.columnForPointer (JoinPlan.colMap plan) fieldPtr).
    + destruct (JoinPlan.table plan); [|discriminate]. inversion H; subst.
      cbn. rewrite !length_app. cbn [length]. lia.
    + inversion H; subst. exact Hlen.
  - unfold JoinPlan.Join, JoinPlan.mapTable in H.
    destruct target as [|[|typeName fields]]; cbn [obind] in H; try discriminate.
    destruct (tableFor (JoinPlan.dbMap (JoinPlan.storeJoin plan)) typeName) as [t|e];
      cbn [obind] in H; [|discriminate].
    destruct (JoinPlan.mapColumns t (Struct typeName fields)
                (JoinPlan.colMap (JoinPlan.storeJoin plan))) as [colMap'|];
      cbn [obind] in H; [|discriminate].
    inversion H; subst. cbn. destruct HstoreJoin as [-> ->]. exact Hlen.
  - destruct (HFilter _ _ _ H) as [-> ->]. exact Hlen.
  - unfold JoinPlan.Where in H. destruct (HFilter _ _ _ H) as [-> ->].
    cbn. destruct HstoreJoin as [-> ->]. exact Hlen.
  - destruct (HFilter _ _ _ H) as [-> ->]. exact Hlen.
  - inversion H; subst. unfold JoinPlan.OrderBy.
    destruct (JoinPlan.tableColumnForPointer (JoinPlan.colMap plan) fieldPtr); [|exact Hlen].
    cbv zeta. destruct (_ || _)%bool; [exact Hlen|].
    destruct (String.eqb _ ""); exact Hlen.
  - inversion H; subst. unfold JoinPlan.GroupBy.
    destruct (JoinPlan.tableColumnForPointer (JoinPlan.colMap plan) fieldPtr); exact Hlen.
  - inversion H; subst. exact Hlen.
  - inversion H; subst. exact Hlen.
Qed.

(** ** The earlier revisions and transient columns *)

(** The second document of [query.go] tests [Transient] in
    [columnOperatorString] only: [Set_], [OrderBy] and [GroupBy] take the
    column whether it is transient or not. *)
Lemma ScanPlan_Set_takes_any_column :
  forall (plan : ScanPlan.QueryPlan) (t : TableMap) (fieldPtr : Pointer) (value : iface)
         (column : ColumnMap),
    ScanPlan.ColumnForPointer plan fieldPtr = Ok column ->
    ScanPlan.table plan = Some t ->
    ScanPlan.Set_ plan fieldPtr value
      = Returns (ScanPlan.setArgs (ScanPlan.args plan ++ [value])
                   (ScanPlan.setAssign
                      (ScanPlan.assignCols plan
                         ++ [QuoteField (tableDialect t) (ColumnName column)])
                      (ScanPlan.assignBindVars plan
                         ++ [BindVar (tableDialect t)
                               (Z.of_nat (length (ScanPlan.args plan)))])
                      plan)) /\
    ScanPlan.GroupBy plan fieldPtr = ScanPlan.setGroupBy (ColumnName column) plan.
Proof.
  intros plan t fieldPtr value column Hc Ht.
  unfold ScanPlan.Set_, ScanPlan.GroupBy. rewrite Hc, Ht. split; reflexivity.
Qed.

(** The third document resolves through the column map, where the
    transient test is part of the lookup. *)
Lemma ListPlan_transient_reference_fails :
  forall (plan : ListPlan.QueryPlan) (fieldPtr : Pointer),
    ListPlan.ColumnForPointer plan fieldPtr = Err errTransient ->
    (forall value, ListPlan.Set_ plan fieldPtr value
                   = Returns (ListPlan.appendError errTransient plan)) /\
    (forall operator value, ListPlan.addWhere plan fieldPtr operator value
                            = Returns (ListPlan.appendError errTransient plan)) /\
    (forall direction, ListPlan.OrderBy plan fieldPtr direction
                       = ListPlan.appendError errTransient plan) /\
    ListPlan.GroupBy plan fieldPtr = ListPlan.appendError errTransient plan /\
    ListPlan.args (ListPlan.appendError errTransient plan) = ListPlan.args plan.
Proof.
  intros plan fieldPtr H.
  unfold ListPlan.Set_, ListPlan.addWhere, ListPlan.OrderBy, ListPlan.GroupBy.
  rewrite H. repeat split; reflexivity.
Qed.

(** * Further properties of the filter algebra *)

Section GroupRendering.

Variable whereOf : Filters.Filter -> Z -> result (string * list iface).
Variable separator : string.
Variable startBindIdx : Z.

Lemma joinLoop_renderEach_later :
  forall (subFilters : list Filters.Filter) (index : nat) (buffer : string)
         (args : list iface),
    index <> 0%nat ->
    Filters.joinLoop whereOf separator startBindIdx subFilters index buffer args
      = match renderEach whereOf (startBindIdx + Z.of_nat (length args)) subFilters with
        | Err err => Err err
        | Ok (texts, moreArgs) =>
            Ok (buffer ++ separated separator texts, (args ++ moreArgs)%list)
        end.
Proof.
  induction subFilters as [|sub rest IH]; intros index buffer args Hi.
  - simpl. now rewrite append_nil_r, app_nil_r.
  - cbn [Filters.joinLoop renderEach].
    destruct (whereOf sub (startBindIdx + Z.of_nat (length args))) as [[text subArgs]|err];
      [|reflexivity].
    rewrite IH by discriminate.
    rewrite length_app, Nat2Z.inj_add, Z.add_assoc.
    destruct (renderEach whereOf (startBindIdx + Z.of_nat (length args)
                                  + Z.of_nat (length subArgs)) rest)
      as [[texts moreArgs]|err]; [|reflexivity].
    destruct index; [contradiction|]. cbn [Nat.eqb negb separated].
    now rewrite !append_assoc, <- app_assoc.
Qed.

Lemma joinFilters_renderEach :
  forall subFilters : list Filters.Filter,
    Filters.joinFilters whereOf separator startBindIdx subFilters
      = groupOf separator subFilters (renderEach whereOf startBindIdx subFilters).
Proof.
  intros subFilters. unfold Filters.joinFilters, groupOf, parenthesized.
  destruct subFilters as [|sub rest].
  - reflexivity.
  - cbn [Filters.joinLoop renderEach length app].
    rewrite Z.add_0_r.
    destruct (whereOf sub startBindIdx) as [[text subArgs]|err]; [|reflexivity].
    rewrite joinLoop_renderEach_later by discriminate.
    destruct (renderEach whereOf (startBindIdx + Z.of_nat (length subArgs)) rest)
      as [[texts moreArgs]|err]; [|reflexivity].
    cbn [Nat.eqb negb]. rewrite strings_Join_cons.
    destruct (Nat.ltb 1 (S (length rest))); now rewrite ?append_assoc.
Qed.

End GroupRendering.

(** X1. An [And] or [Or] group renders as its children joined by
    [" and "] or [" or "], in parentheses when it has more than one
    child; each child is rendered from the index that follows the
    arguments of the children before it, the arguments are those of the
    children in order, and the error of the first child that fails is
    the group's.  [Not] puts ["NOT "] before its child. *)
Theorem group_renders_children_in_sequence :
  forall (colMapT : Type) (lookup : colMapT -> Pointer -> result string)
         (structMap : colMapT) (dialect : Dialect) (subFilters : list Filters.Filter)
         (inner : Filters.Filter) (k : Z),
    let whereOf := fun sub idx => Filters.Where lookup sub structMap dialect idx in
    Filters.Where lookup (Filters.And subFilters) structMap dialect k
      = groupOf " and " subFilters (renderEach whereOf k subFilters)
    /\ Filters.Where lookup (Filters.Or subFilters) structMap dialect k
       = groupOf " or " subFilters (renderEach whereOf k subFilters)
    /\ Filters.Where lookup (Filters.Not inner) structMap dialect k
       = match whereOf inner k with
         | Err err => Err err
         | Ok (text, args) => Ok ("NOT " ++ text, args)
         end.
Proof.
  intros colMapT lookup structMap dialect subFilters inner k whereOf.
  split; [|split].
  - apply joinFilters_renderEach.
  - apply joinFilters_renderEach.
  - reflexivity.
Qed.

Section FilterArguments.

Variable colMapT : Type.
Variable lookup : colMapT -> Pointer -> result string.
Variable structMap : colMapT.
Variable dialect : Dialect.

Let whereOf (sub : Filters.Filter) (idx : Z) := Filters.Where lookup sub structMap dialect idx.

Lemma renderEach_values :
  forall (subFilters : list Filters.Filter),
    Forall (fun sub => forall idx text args,
                whereOf sub idx = Ok (text, args) -> args = filterValues sub) subFilters ->
    forall (k : Z) (texts : list string) (args : list iface),
      renderEach whereOf k subFilters = Ok (texts, args) ->
      args = flat_map filterValues subFilters /\ length texts = length subFilters.
Proof.
  induction subFilters as [|sub rest IH]; intros HF k texts args H.
  - inversion H; subst. split; reflexivity.
  - inversion HF as [|s r Hsub Hrest]; subst. cbn [renderEach] in H.
    destruct (whereOf sub k) as [[text subArgs]|err] eqn:E; [|discriminate].
    destruct (renderEach whereOf (k + Z.of_nat (length subArgs)) rest)
      as [[texts' moreArgs]|err] eqn:E'; [|discriminate].
    inversion H; subst.
    destruct (IH Hrest _ _ _ E') as [-> Hlen].
    rewrite (Hsub _ _ _ E). split; [reflexivity | simpl; now rewrite Hlen].
Qed.

Lemma Where_values :
  forall (filter : Filters.Filter) (k : Z) (text : string) (args : list iface),
    Filters.Where lookup filter structMap dialect k = Ok (text, args) ->
    args = filterValues filter.
Proof.
  induction filter as [subs IH|subs IH|a c v|inner IH|a|a] using Filter_nested_ind;
    intros k text args H.
  - change (Filters.andFilter subs) with (Filters.And subs) in H.
    unfold Filters.And in H. cbn [Filters.Where] in H.
    rewrite joinFilters_renderEach in H. unfold groupOf in H.
    destruct (renderEach _ k subs) as [[texts args']|err] eqn:E; [|discriminate].
    inversion H; subst. exact (proj1 (renderEach_values subs IH k texts args E)).
  - cbn [Filters.Where] in H.
    rewrite joinFilters_renderEach in H. unfold groupOf in H.
    destruct (renderEach _ k subs) as [[texts args']|err] eqn:E; [|discriminate].
    inversion H; subst. exact (proj1 (renderEach_values subs IH k texts args E)).
  - cbn [Filters.Where] in H. destruct (lookup structMap a); [|discriminate].
    now inversion H.
  - cbn [Filters.Where] in H.
    destruct (Filters.Where lookup inner structMap dialect k) as [[t a']|err] eqn:E;
      [|discriminate].
    inversion H; subst. exact (IH _ _ _ E).
  - cbn [Filters.Where] in H. destruct (lookup structMap a); [|discriminate].
    now inversion H.
  - cbn [Filters.Where] in H. destruct (lookup structMap a); [|discriminate].
    now inversion H.
Qed.

Lemma renderEach_succeeds :
  forall (subFilters : list Filters.Filter),
    Forall (fun sub => forall idx, exists text args, whereOf sub idx = Ok (text, args))
           subFilters ->
    forall k, exists texts args, renderEach whereOf k subFilters = Ok (texts, args).
Proof.
  induction subFilters as [|sub rest IH]; intros HF k.
  - now exists [], [].
  - inversion HF as [|s r Hsub Hrest]; subst. cbn [renderEach].
    destruct (Hsub k) as (text & subArgs & ->).
    destruct (IH Hrest (k + Z.of_nat (length subArgs))) as (texts & moreArgs & ->).
    now eexists _, _.
Qed.

Lemma Where_succeeds :
  forall (filter : Filters.Filter),
    (forall fieldPtr, In fieldPtr (filterPointers filter) ->
                      exists column, lookup structMap fieldPtr = Ok column) ->
    forall k, exists text args, Filters.Where lookup filter structMap dialect k = Ok (text, args).
Proof.
  induction filter as [subs IH|subs IH|a c v|inner IH|a|a] using Filter_nested_ind;
    intros Hres k; cbn [filterPointers] in Hres.
  - cbn [Filters.Where]. rewrite joinFilters_renderEach.
    destruct (renderEach_succeeds subs) with (k := k) as (texts & args & E).
    { rewrite Forall_forall in *. intros sub Hin idx. apply (IH sub Hin).
      intros p Hp. apply Hres. apply in_flat_map. now exists sub. }
    fold whereOf. rewrite E. now eexists _, _.
  - cbn [Filters.Where]. rewrite joinFilters_renderEach.
    destruct (renderEach_succeeds subs) with (k := k) as (texts & args & E).
    { rewrite Forall_forall in *. intros sub Hin idx. apply (IH sub Hin).
      intros p Hp. apply Hres. apply in_flat_map. now exists sub. }
    fold whereOf. rewrite E. now eexists _, _.
  - cbn [Filters.Where]. destruct (Hres a) as [column ->]; [now left|]. now eexists _, _.
  - cbn [Filters.Where]. destruct (IH Hres k) as (text & args & ->). now eexists _, _.
  - cbn [Filters.Where]. destruct (Hres a) as [column ->]; [now left|]. now eexists _, _.
  - cbn [Filters.Where]. destruct (Hres a) as [column ->]; [now left|]. now eexists _, _.
Qed.

End FilterArguments.



(** X3. A filter renders, from any start index, exactly when every field
    address it mentions resolves to a column; one address that does not
    resolve makes the whole rendering fail. *)
Theorem filter_renders_iff_addresses_resolve :
  forall (colMapT : Type) (lookup : colMapT -> Pointer -> result string)
         (structMap : colMapT) (dialect : Dialect) (filter : Filters.Filter) (k : Z),
    (forall fieldPtr, In fieldPtr (filterPointers filter) ->
                      exists column, lookup structMap fieldPtr = Ok column)
    <->
    (exists text args, Filters.Where lookup filter structMap dialect k = Ok (text, args)).
Proof.
  intros colMapT lookup structMap dialect filter k. split.
  - intros Hres. now apply Where_succeeds.
  - intros (text & args & H) fieldPtr Hin.
    destruct (lookup structMap fieldPtr) as [column|e] eqn:E; [now exists column|].
    destruct (Where_fails colMapT lookup structMap dialect filter fieldPtr e Hin E k)
      as [e' He'].
    congruence.
Qed.

(** * Further properties of the plan of [query_plans.go] *)

Lemma storeJoin_frame :
  forall plan : JoinPlan.QueryPlan,
    JoinPlan.Errors (JoinPlan.storeJoin plan) = JoinPlan.Errors plan /\
    JoinPlan.table (JoinPlan.storeJoin plan) = JoinPlan.table plan /\
    JoinPlan.dbMap (JoinPlan.storeJoin plan) = JoinPlan.dbMap plan /\
    JoinPlan.colMap (JoinPlan.storeJoin plan) = JoinPlan.colMap plan /\
    JoinPlan.assignCols (JoinPlan.storeJoin plan) = JoinPlan.assignCols plan /\
    JoinPlan.assignBindVars (JoinPlan.storeJoin plan) = JoinPlan.assignBindVars plan /\
    JoinPlan.orderBy (JoinPlan.storeJoin plan) = JoinPlan.orderBy plan /\
    JoinPlan.groupBy (JoinPlan.storeJoin plan) = JoinPlan.groupBy plan /\
    JoinPlan.args (JoinPlan.storeJoin plan) = JoinPlan.args plan.
Proof.
  intros plan. unfold JoinPlan.storeJoin.
  destruct (JoinPlan.filters plan) as [[subs|join]|]; repeat split; reflexivity.
Qed.

(** What a builder call that returns did to the plan: it recorded an
    error and nothing else; or it appended one assignment with the next
    bind variable; or it appended a column to the ordering or to the
    grouping; or it touched the filters, the joins, the limit, the
    offset and, by appending, the column map, and nothing else. *)
Lemma builderCall_effect :
  forall (call : BuilderCall) (plan plan' : JoinPlan.QueryPlan),
    builderCall call plan = Returns plan' ->
    (exists e, plan' = JoinPlan.appendError e plan)
    \/ (exists t fieldMap value,
          JoinPlan.table plan = Some t /\
          In fieldMap (JoinPlan.colMap plan) /\
          Transient (JoinPlan.column fieldMap) = false /\
          plan' = JoinPlan.setArgs (JoinPlan.args plan ++ [value])
                    (JoinPlan.setAssign
                       (JoinPlan.assignCols plan ++ [JoinPlan.quotedColumn fieldMap])
                       (JoinPlan.assignBindVars plan
                          ++ [BindVar (tableDialect t)
                                (Z.of_nat (length (JoinPlan.args plan)))])
                       plan))
    \/ (exists fieldMap,
          In fieldMap (JoinPlan.colMap plan) /\
          Transient (JoinPlan.column fieldMap) = false /\
          (plan' = JoinPlan.setOrderBy
                     (JoinPlan.orderBy plan
                        ++ [JoinPlan.quotedTable fieldMap ++ "."
                              ++ JoinPlan.quotedColumn fieldMap]) plan
           \/ plan' = JoinPlan.setGroupBy
                        (JoinPlan.groupBy plan
                           ++ [JoinPlan.quotedTable fieldMap ++ "."
                                 ++ JoinPlan.quotedColumn fieldMap]) plan))
    \/ (JoinPlan.Errors plan' = JoinPlan.Errors plan /\
        JoinPlan.table plan' = JoinPlan.table plan /\
        (exists more, JoinPlan.colMap plan' = (JoinPlan.colMap plan ++ more)%list) /\
        JoinPlan.assignCols plan' = JoinPlan.assignCols plan /\
        JoinPlan.assignBindVars plan' = JoinPlan.assignBindVars plan /\
        JoinPlan.orderBy plan' = JoinPlan.orderBy plan /\
        JoinPlan.groupBy plan' = JoinPlan.groupBy plan /\
        JoinPlan.args plan' = JoinPlan.args plan).
Proof.
  intros call plan plan' H.
  destruct (storeJoin_frame plan) as (SE & ST & SD & SC & SA & SB & SO & SG & SR).
  assert (Hnil : exists more, JoinPlan.colMap plan = (JoinPlan.colMap plan ++ more)%list).
  { exists []. now rewrite app_nil_r. }
  assert (HFilter : forall q fs q', JoinPlan.Filter q fs = Returns q' ->
                      q' = JoinPlan.setFilters (JoinPlan.filters q') q).
  { intros q fs q' Hq. unfold JoinPlan.Filter in Hq.
    destruct (JoinPlan.filters q); [|discriminate]. now inversion Hq. }
  destruct call as [fieldPtr value|target|fs|fs|fs|fieldPtr direction|fieldPtr|n|n];
    cbn [builderCall] in H.
  - unfold JoinPlan.Assign, JoinPlan.columnForPointer in H.
    destruct (JoinPlan.fieldMapForPointer (JoinPlan.colMap plan) fieldPtr)
      as [fieldMap|e] eqn:E.
    + destruct (JoinPlan.table plan) as [t|] eqn:Et; [|discriminate].
      inversion H; subst plan'. right; left.
      destruct (fieldMapForPointer_found _ _ _ E) as [Hin _].
      exists t, fieldMap, value. repeat split; try assumption.
      rewrite fieldMapForPointer_bindingOf in E.
      destruct (bindingOf (JoinPlan.colMap plan) fieldPtr) as [fm|]; [|discriminate].
      destruct (Transient (JoinPlan.column fm)) eqn:Etr; [discriminate|].
      now inversion E; subst.
    + inversion H. left. now exists e.
  - do 3 right.
    unfold JoinPlan.Join, JoinPlan.mapTable in H.
    destruct target as [|[|typeName fields]]; cbn [obind] in H; try discriminate.
    destruct (tableFor (JoinPlan.dbMap (JoinPlan.storeJoin plan)) typeName) as [t|e];
      cbn [obind] in H; [|discriminate].
    destruct (JoinPlan.mapColumns t (Struct typeName fields)
                (JoinPlan.colMap (JoinPlan.storeJoin plan))) as [colMap'|] eqn:E;
      cbn [obind] in H; [|discriminate].
    inversion H; subst plan'. cbn.
    destruct (JoinPlan_mapColumns_appends _ _ _ _ E) as (bound & -> & _).
    rewrite SC.
    refine (conj SE (conj ST (conj (ex_intro _ bound eq_refl) _))).
    repeat split; assumption.
  - do 3 right. unfold JoinPlan.On in H. rewrite (HFilter _ _ _ H). cbn.
    refine (conj eq_refl (conj eq_refl (conj Hnil _))). repeat split; reflexivity.
  - do 3 right. unfold JoinPlan.Where in H. rewrite (HFilter _ _ _ H). cbn.
    rewrite SC. refine (conj SE (conj ST (conj Hnil _))). repeat split; assumption.
  - do 3 right. rewrite (HFilter _ _ _ H). cbn.
    refine (conj eq_refl (conj eq_refl (conj Hnil _))). repeat split; reflexivity.
  - inversion H; subst plan'. unfold JoinPlan.OrderBy, JoinPlan.tableColumnForPointer.
    destruct (JoinPlan.fieldMapForPointer (JoinPlan.colMap plan) fieldPtr)
      as [fieldMap|e] eqn:E; [|left; now exists e].
    assert (Hkept : In fieldMap (JoinPlan.colMap plan)
                    /\ Transient (JoinPlan.column fieldMap) = false).
    { destruct (fieldMapForPointer_found _ _ _ E) as [Hin _]. split; [exact Hin|].
      rewrite fieldMapForPointer_bindingOf in E.
      destruct (bindingOf (JoinPlan.colMap plan) fieldPtr) as [fm|]; [|discriminate].
      destruct (Transient (JoinPlan.column fm)) eqn:Etr; [discriminate|].
      now inversion E; subst. }
    cbv zeta. destruct (_ || _)%bool.
    + right; right; left. exists fieldMap. destruct Hkept. repeat split; auto.
    + destruct (String.eqb _ "").
      * right; right; left. exists fieldMap. destruct Hkept. repeat split; auto.
      * left. now exists errDirection.
  - inversion H; subst plan'. unfold JoinPlan.GroupBy, JoinPlan.tableColumnForPointer.
    destruct (JoinPlan.fieldMapForPointer (JoinPlan.colMap plan) fieldPtr)
      as [fieldMap|e] eqn:E; [|left; now exists e].
    right; right; left. exists fieldMap.
    destruct (fieldMapForPointer_found _ _ _ E) as [Hin _]. split; [exact Hin|].
    split; [|now right].
    rewrite fieldMapForPointer_bindingOf in E.
    destruct (bindingOf (JoinPlan.colMap plan) fieldPtr) as [fm|]; [|discriminate].
    destruct (Transient (JoinPlan.column fm)) eqn:Etr; [discriminate|].
    now inversion E; subst.
  - inversion H; subst plan'. do 3 right. cbn.
    refine (conj eq_refl (conj eq_refl (conj Hnil _))). repeat split; reflexivity.
  - inversion H; subst plan'. do 3 right. cbn.
    refine (conj eq_refl (conj eq_refl (conj Hnil _))). repeat split; reflexivity.
Qed.

Lemma builderCalls_invariant :
  forall P : JoinPlan.QueryPlan -> Prop,
    (forall call plan plan', builderCall call plan = Returns plan' -> P plan -> P plan') ->
    forall chain plan plan', builderCalls chain plan = Returns plan' -> P plan -> P plan'.
Proof.
  intros P Hstep. induction chain as [|call rest IH]; intros plan plan' H HP;
    cbn [builderCalls] in H.
  - now inversion H; subst.
  - destruct (builderCall call plan) as [mid|] eqn:E; cbn [obind] in H; [|discriminate].
    exact (IH mid plan' H (Hstep call plan mid E HP)).
Qed.

Lemma builderCalls_errors_grow :
  forall (chain : list BuilderCall) (plan plan' : JoinPlan.QueryPlan),
    builderCalls chain plan = Returns plan' ->
    exists more, JoinPlan.Errors plan' = (JoinPlan.Errors plan ++ more)%list.
Proof.
  induction chain as [|call rest IH]; intros plan plan' H; cbn [builderCalls] in H.
  - inversion H; subst. exists []. now rewrite app_nil_r.
  - destruct (builderCall call plan) as [mid|] eqn:E; cbn [obind] in H; [|discriminate].
    destruct (IH mid plan' H) as [more2 H2].
    destruct (builderCall_effect call plan mid E)
      as [[e ->]|[(t & fm & v & _ & _ & _ & ->)|[(fm & _ & _ & [->| ->])|(HE & _)]]].
    + exists (e :: more2). rewrite H2. cbn. now rewrite <- app_assoc.
    + exists more2. exact H2.
    + exists more2. exact H2.
    + exists more2. exact H2.
    + exists more2. now rewrite H2, HE.
Qed.

(** X4. Builder calls only append to the error list: whatever is called
    after the first error was recorded, that error stays first, and
    [Select], [Insert], [Update] and [Delete] on the resulting plan
    return it without calling the executor. *)
Theorem first_error_survives_the_chain :
  forall (jw jc : JoinPlan.joinFilter -> JoinPlan.structColumnMap -> Dialect -> Z ->
                  result (string * list iface))
         (chain : list BuilderCall) (plan plan' : JoinPlan.QueryPlan)
         (first : error) (later : list error),
    JoinPlan.Errors plan = first :: later ->
    builderCalls chain plan = Returns plan' ->
    (exists more, JoinPlan.Errors plan' = (first :: later ++ more)%list) /\
    JoinPlan.Select jw jc plan' = Returns (mkRan plan' [] [] (Some first)) /\
    JoinPlan.Insert plan' = Returns (mkRan plan' [] tt (Some first)) /\
    JoinPlan.Update jw plan' = Returns (mkRan plan' [] (-1) (Some first)) /\
    JoinPlan.Delete jw plan' = Returns (mkRan plan' [] (-1) (Some first)).
Proof.
  intros jw jc chain plan plan' first later Herrors Hchain.
  destruct (builderCalls_errors_grow chain plan plan' Hchain) as [more Hmore].
  rewrite Herrors in Hmore. cbn [app] in Hmore.
  split; [now exists more|].
  unfold JoinPlan.Select, JoinPlan.selectQuery, JoinPlan.Insert, JoinPlan.Update,
    JoinPlan.Delete.
  rewrite Hmore. cbn [obind]. repeat split; reflexivity.
Qed.

Lemma first_error_survives_the_chain_witness :
  JoinPlan.Errors Sample.failedPlan = [errNotFound; errDirection] /\
  builderCalls Sample.failedChain Sample.failedPlan = Returns Sample.failedChainPlan /\
  JoinPlan.Errors Sample.failedChainPlan = [errNotFound; errDirection; errNotFound] /\
  JoinPlan.Delete Sample.joinWhere Sample.failedChainPlan
    = Returns (mkRan Sample.failedChainPlan [] (-1) (Some errNotFound)).
Proof.
  split; [reflexivity|]. split; [reflexivity|]. split; [reflexivity|].
  exact (proj2 (proj2 (proj2 (proj2
           (first_error_survives_the_chain Sample.joinWhere Sample.joinClause
              Sample.failedChain Sample.failedPlan Sample.failedChainPlan
              errNotFound [errDirection] eq_refl eq_refl))))).
Defined.

Lemma bindIndices_snoc (k : Z) (n : nat) :
  bindIndices k (S n) = (bindIndices k n ++ [k + Z.of_nat n])%list.
Proof.
  unfold bindIndices. rewrite seq_S, map_app. reflexivity.
Qed.

Lemma query_fresh :
  forall (m : DbMap) (exec : SqlExecutor) (target : Target) (plan : JoinPlan.QueryPlan),
    JoinPlan.query m exec target = Returns plan ->
    JoinPlan.assignCols plan = [] /\ JoinPlan.assignBindVars plan = [] /\
    JoinPlan.args plan = [] /\ JoinPlan.orderBy plan = [] /\ JoinPlan.groupBy plan = [] /\
    JoinPlan.filters plan = None /\ JoinPlan.joins plan = [] /\
    JoinPlan.executor plan = exec /\
    (JoinPlan.table plan = None -> JoinPlan.Errors plan <> []) /\
    (JoinPlan.table plan <> None -> JoinPlan.Errors plan = []).
Proof.
  intros m exec target plan H. unfold JoinPlan.query, JoinPlan.mapTable in H.
  destruct target as [|[|typeName fields]]; cbn [obind] in H.
  - inversion H; subst. cbn. repeat split; try reflexivity; try discriminate.
    intros Hn. now contradiction Hn.
  - inversion H; subst. cbn. repeat split; try reflexivity; try discriminate.
    intros Hn. now contradiction Hn.
  - cbn [JoinPlan.emptyPlan JoinPlan.dbMap JoinPlan.colMap] in H.
    destruct (tableFor m typeName) as [t|e]; cbn [obind] in H.
    + destruct (JoinPlan.mapColumns t (Struct typeName fields) []) as [colMap'|];
        cbn [obind] in H; [|discriminate].
      inversion H; subst. cbn. repeat split; try reflexivity; try discriminate.
    + inversion H; subst. cbn. repeat split; try reflexivity; try discriminate.
      intros Hn. now contradiction Hn.
Qed.

Lemma builderCall_keeps_aligned :
  forall (call : BuilderCall) (plan plan' : JoinPlan.QueryPlan),
    builderCall call plan = Returns plan' ->
    assignmentsAligned plan -> assignmentsAligned plan'.
Proof.
  intros call plan plan' H (Hcols & Hvars & Hbind). unfold assignmentsAligned.
  destruct (builderCall_effect call plan plan' H)
    as [[e ->]|[(t & fm & v & Ht & _ & _ & ->)|[(fm & _ & _ & [->| ->])
       |(_ & HT & _ & HC & HB & _ & _ & HA)]]]; cbn.
  - auto.
  - rewrite !length_app. cbn [length]. split; [lia|]. split; [lia|].
    intros t' Ht'. rewrite Ht in Ht'. inversion Ht'; subst t'.
    change (map (fun i : nat => Z.of_nat i) (seq 0 (length (JoinPlan.args plan) + 1)))
      with (bindIndices 0 (length (JoinPlan.args plan) + 1)).
    rewrite Nat.add_1_r, bindIndices_snoc, map_app, <- (Hbind t Ht). reflexivity.
  - auto.
  - auto.
  - rewrite HC, HB, HA, HT. auto.
Qed.

(** X5. On every plan that [query] and a chain of builder calls build,
    the assignments are aligned: there are as many arguments as assigned
    columns and bind variables, and the i-th assignment carries the bind
    variable of index i, the position of its value in the arguments. *)
Theorem assignments_stay_aligned :
  forall (m : DbMap) (exec : SqlExecutor) (target : Target) (chain : list BuilderCall)
         (fresh plan : JoinPlan.QueryPlan),
    JoinPlan.query m exec target = Returns fresh ->
    builderCalls chain fresh = Returns plan ->
    assignmentsAligned plan.
Proof.
  intros m exec target chain fresh plan Hq Hchain.
  apply (builderCalls_invariant assignmentsAligned builderCall_keeps_aligned chain fresh plan
           Hchain).
  destruct (query_fresh m exec target fresh Hq) as (Hc & Hb & Ha & _).
  unfold assignmentsAligned. rewrite Hc, Hb, Ha. repeat split.
Qed.

Lemma assignments_stay_aligned_witness :
  JoinPlan.query Sample.dbmap Sample.executor (StructPointer Sample.overriddenInvoice)
    = Returns Sample.invoicePlan /\
  builderCalls Sample.assignChain Sample.invoicePlan = Returns Sample.assignPlan /\
  JoinPlan.assignBindVars Sample.assignPlan = ["$1"; "$2"; "$3"] /\
  assignmentsAligned Sample.assignPlan.
Proof.
  split; [reflexivity|]. split; [reflexivity|]. split; [reflexivity|].
  exact (assignments_stay_aligned Sample.dbmap Sample.executor
           (StructPointer Sample.overriddenInvoice) Sample.assignChain
           Sample.invoicePlan Sample.assignPlan eq_refl eq_refl).
Defined.

Lemma namesKeptColumn_app :
  forall (qualified : bool) (structMap more : JoinPlan.structColumnMap) (text : string),
    namesKeptColumn qualified structMap text ->
    namesKeptColumn qualified (structMap ++ more)%list text.
Proof.
  intros qualified structMap more text (fm & Hin & Ht & Htext).
  exists fm. split; [apply in_or_app; now left|]. now split.
Qed.

Lemma builderCall_keeps_kept_columns :
  forall (call : BuilderCall) (plan plan' : JoinPlan.QueryPlan),
    builderCall call plan = Returns plan' ->
    onlyKeptColumns plan -> onlyKeptColumns plan'.
Proof.
  intros call plan plan' H (Ha & Ho & Hg). unfold onlyKeptColumns.
  destruct (builderCall_effect call plan plan' H)
    as [[e ->]|[(t & fm & v & Ht & Hin & Htr & ->)|[(fm & Hin & Htr & [->| ->])
       |(_ & _ & (more & HM) & HC & _ & HO & HG & _)]]]; cbn.
  - auto.
  - split; [|auto]. apply Forall_app. split; [exact Ha|].
    constructor; [|constructor]. now exists fm.
  - split; [exact Ha|]. split; [|exact Hg]. apply Forall_app. split; [exact Ho|].
    constructor; [|constructor]. now exists fm.
  - split; [exact Ha|]. split; [exact Ho|]. apply Forall_app. split; [exact Hg|].
    constructor; [|constructor]. now exists fm.
  - rewrite HC, HO, HG, HM.
    repeat split; eapply Forall_impl; try eassumption; intros text;
      apply namesKeptColumn_app.
Qed.

(** X6. On every plan that [query] and a chain of builder calls build,
    each assigned column, each ordering column and each grouping column
    is the quoted name of a binding of the plan that is not transient:
    no builder call puts a transient column into a statement. *)
Theorem no_transient_column_enters_the_plan :
  forall (m : DbMap) (exec : SqlExecutor) (target : Target) (chain : list BuilderCall)
         (fresh plan : JoinPlan.QueryPlan),
    JoinPlan.query m exec target = Returns fresh ->
    builderCalls chain fresh = Returns plan ->
    onlyKeptColumns plan.
Proof.
  intros m exec target chain fresh plan Hq Hchain.
  apply (builderCalls_invariant onlyKeptColumns builderCall_keeps_kept_columns chain fresh
           plan Hchain).
  destruct (query_fresh m exec target fresh Hq) as (Hc & _ & _ & Ho & Hg & _).
  unfold onlyKeptColumns. rewrite Hc, Ho, Hg. repeat split; constructor.
Qed.

Lemma no_transient_column_enters_the_plan_witness :
  builderCalls Sample.orderChain Sample.invoicePlan = Returns Sample.orderPlan /\
  JoinPlan.orderBy Sample.orderPlan = ["`overriddeninvoice`.`Created`"] /\
  onlyKeptColumns Sample.orderPlan.
Proof.
  split; [reflexivity|]. split; [reflexivity|].
  exact (no_transient_column_enters_the_plan Sample.dbmap Sample.executor
           (StructPointer Sample.overriddenInvoice) Sample.orderChain
           Sample.invoicePlan Sample.orderPlan eq_refl eq_refl).
Defined.

(** ** The statements of [Insert], [Select], [Update] and [Delete] *)

Lemma writeCommaList_later :
  forall (elems : list string) (i : nat) (buffer : string),
    i <> 0%nat -> writeCommaList elems i buffer = buffer ++ separated ", " elems.
Proof.
  induction elems as [|e rest IH]; intros i buffer Hi; cbn [writeCommaList separated].
  - now rewrite append_nil_r.
  - destruct i; [contradiction|]. cbn [Nat.ltb Nat.leb].
    rewrite IH by discriminate. now rewrite !append_assoc.
Qed.

Lemma writeCommaList_joined :
  forall (elems : list string) (buffer : string),
    writeCommaList elems 0 buffer = buffer ++ strings_Join elems ", ".
Proof.
  intros [|e rest] buffer.
  - cbn. now rewrite append_nil_r.
  - cbn [writeCommaList Nat.ltb Nat.leb]. rewrite writeCommaList_later by discriminate.
    rewrite strings_Join_cons. now rewrite append_assoc.
Qed.

Lemma writeClauseList_later :
  forall (first : string) (elems : list string) (index : nat) (buffer : string),
    index <> 0%nat ->
    writeClauseList first elems index buffer = buffer ++ separated ", " elems.
Proof.
  induction elems as [|e rest IH]; intros index buffer Hi; cbn [writeClauseList separated].
  - now rewrite append_nil_r.
  - destruct index; [contradiction|]. cbn [Nat.eqb].
    rewrite IH by discriminate. now rewrite !append_assoc.
Qed.

Lemma writeClauseList_clause :
  forall (first : string) (elems : list string) (buffer : string),
    writeClauseList first elems 0 buffer = buffer ++ clauseOf first ", " elems.
Proof.
  intros first [|e rest] buffer.
  - cbn. now rewrite append_nil_r.
  - cbn [writeClauseList Nat.eqb clauseOf]. rewrite writeClauseList_later by discriminate.
    rewrite strings_Join_cons. now rewrite !append_assoc.
Qed.

Lemma writeAssignments_later :
  forall (assignCols done assignBindVars : list string) (buffer : string),
    done <> [] ->
    (length assignCols <= length assignBindVars)%nat ->
    writeAssignments assignCols (done ++ assignBindVars) (length done) buffer
      = Returns (buffer ++ separated ", " (assignmentTexts assignCols assignBindVars)).
Proof.
  induction assignCols as [|col rest IH]; intros done vars buffer Hdone Hlen.
  - cbn. now rewrite append_nil_r.
  - destruct vars as [|var vars]; [cbn in Hlen; lia|].
    cbn [writeAssignments]. rewrite nth_error_app2 by lia. rewrite Nat.sub_diag.
    cbn [nth_error]. destruct done as [|d done]; [contradiction|].
    cbn [length Nat.ltb Nat.leb].
    replace ((d :: done) ++ var :: vars)%list with (((d :: done) ++ [var]) ++ vars)%list
      by now rewrite <- app_assoc.
    replace (S (length done)) with (length (d :: done)) by reflexivity.
    replace (S (length (d :: done))) with (length ((d :: done) ++ [var])%list)
      by (rewrite length_app; cbn; lia).
    rewrite IH; [|discriminate|cbn in Hlen; lia].
    unfold assignmentTexts. cbn [combine map separated fst snd].
    now rewrite !append_assoc.
Qed.

Lemma writeAssignments_joined :
  forall (assignCols assignBindVars : list string) (buffer : string),
    (length assignCols <= length assignBindVars)%nat ->
    writeAssignments assignCols assignBindVars 0 buffer
      = Returns (buffer ++ strings_Join (assignmentTexts assignCols assignBindVars) ", ").
Proof.
  intros [|col rest] vars buffer Hlen.
  - cbn. now rewrite append_nil_r.
  - destruct vars as [|var vars]; [cbn in Hlen; lia|].
    cbn [writeAssignments nth_error Nat.ltb Nat.leb].
    change (var :: vars) with ([var] ++ vars)%list.
    change 1%nat with (length [var]).
    rewrite writeAssignments_later; [|discriminate|cbn in Hlen; lia].
    unfold assignmentTexts. cbn [combine map fst snd app]. rewrite strings_Join_cons.
    now rewrite !append_assoc.
Qed.

Lemma builderCall_keeps_table_known :
  forall (call : BuilderCall) (plan plan' : JoinPlan.QueryPlan),
    builderCall call plan = Returns plan' ->
    (JoinPlan.table plan = None -> JoinPlan.Errors plan <> []) ->
    (JoinPlan.table plan' = None -> JoinPlan.Errors plan' <> []).
Proof.
  intros call plan plan' H Hknown.
  destruct (builderCall_effect call plan plan' H)
    as [[e ->]|[(t & fm & v & Ht & _ & _ & ->)|[(fm & _ & _ & [->| ->])
       |(HE & HT & _)]]]; cbn.
  - intros _ Hnil. now apply app_eq_nil in Hnil as [_ Hnil].
  - exact Hknown.
  - exact Hknown.
  - exact Hknown.
  - now rewrite HE, HT.
Qed.

(** X7. On a plan that [query] and a chain of builder calls built
    without recording an error, [Insert] makes exactly one [Exec] call:
    the statement is [insert into T (c1, ..., cn) values (b0, ..., bn-1)]
    with the assigned columns in the order of the calls and the bind
    variables of indices 0 to n-1, and the arguments are the plan's, one
    per assigned column. *)
Theorem Insert_statement_after_chain :
  forall (m : DbMap) (exec : SqlExecutor) (target : Target) (chain : list BuilderCall)
         (fresh plan : JoinPlan.QueryPlan),
    JoinPlan.query m exec target = Returns fresh ->
    builderCalls chain fresh = Returns plan ->
    JoinPlan.Errors plan = [] ->
    exists t,
      JoinPlan.table plan = Some t /\
      length (JoinPlan.args plan) = length (JoinPlan.assignCols plan) /\
      JoinPlan.Insert plan
        = Returns (execInsert plan (JoinPlan.executor plan)
                     ("insert into " ++ quotedName t ++ " ("
                        ++ strings_Join (JoinPlan.assignCols plan) ", "
                        ++ ") values ("
                        ++ strings_Join
                             (map (BindVar (tableDialect t))
                                (bindIndices 0 (length (JoinPlan.assignCols plan)))) ", "
                        ++ ")")
                     (JoinPlan.args plan)).
Proof.
  intros m exec target chain fresh plan Hq Hchain Herrors.
  destruct (query_fresh m exec target fresh Hq)
    as (Hc & Hb & Ha & _ & _ & _ & _ & _ & Hknown & _).
  assert (Haligned : assignmentsAligned plan).
  { apply (builderCalls_invariant assignmentsAligned builderCall_keeps_aligned chain fresh
             plan Hchain).
    unfold assignmentsAligned. rewrite Hc, Hb, Ha. repeat split. }
  assert (Htable : JoinPlan.table plan = None -> JoinPlan.Errors plan <> []).
  { exact (builderCalls_invariant
             (fun p => JoinPlan.table p = None -> JoinPlan.Errors p <> [])
             builderCall_keeps_table_known chain fresh plan Hchain Hknown). }
  destruct (JoinPlan.table plan) as [t|] eqn:Et;
    [|exfalso; now apply Htable].
  destruct Haligned as (Hcols & Hvars & Hbind).
  exists t. split; [reflexivity|]. split; [congruence|].
  unfold JoinPlan.Insert. rewrite Herrors, Et.
  rewrite !writeCommaList_joined. rewrite (Hbind t Et), Hcols, Hvars.
  unfold quotedName. now rewrite !append_assoc.
Qed.

Lemma Insert_statement_after_chain_witness :
  calls (match JoinPlan.Insert Sample.assignPlan with
         | Returns ran => ran
         | Panics => mkRan Sample.assignPlan [] tt None
         end)
    = [ExecCall "insert into `overriddeninvoice` (`Id`, `Created`, `Memo`) values ($1, $2, $3)"
         [IString "4"; IInt 2; IString "m"]] /\
  exists t,
    JoinPlan.table Sample.assignPlan = Some t /\
    length (JoinPlan.args Sample.assignPlan) = length (JoinPlan.assignCols Sample.assignPlan) /\
    JoinPlan.Insert Sample.assignPlan
      = Returns (execInsert Sample.assignPlan (JoinPlan.executor Sample.assignPlan)
                   ("insert into " ++ quotedName t ++ " ("
                      ++ strings_Join (JoinPlan.assignCols Sample.assignPlan) ", "
                      ++ ") values ("
                      ++ strings_Join
                           (map (BindVar (tableDialect t))
                              (bindIndices 0 (length (JoinPlan.assignCols Sample.assignPlan))))
                           ", "
                      ++ ")")
                   (JoinPlan.args Sample.assignPlan)).
Proof.
  split; [reflexivity|].
  exact (Insert_statement_after_chain Sample.dbmap Sample.executor
           (StructPointer Sample.overriddenInvoice) Sample.assignChain
           Sample.invoicePlan Sample.assignPlan eq_refl eq_refl eq_refl).
Defined.

(** ** Plans without a filter, and the targets a plan can map *)

Lemma builderCall_without_filter :
  forall (call : BuilderCall) (plan plan' : JoinPlan.QueryPlan),
    startsFilter call = false ->
    builderCall call plan = Returns plan' ->
    JoinPlan.filters plan = None -> JoinPlan.joins plan = [] ->
    JoinPlan.filters plan' = None /\ JoinPlan.joins plan' = [].
Proof.
  intros call plan plan' Hs H Hf Hj.
  destruct call as [fieldPtr value|target|fs|fs|fs|fieldPtr direction|fieldPtr|n|n];
    cbn [startsFilter] in Hs; try discriminate; cbn [builderCall] in H.
  - unfold JoinPlan.Assign in H.
    destruct (JoinPlan.columnForPointer (JoinPlan.colMap plan) fieldPtr);
      [destruct (JoinPlan.table plan); [|discriminate]|];
      inversion H; subst; cbn; auto.
  - unfold JoinPlan.On, JoinPlan.Filter in H. rewrite Hf in H. discriminate.
  - unfold JoinPlan.Filter in H. rewrite Hf in H. discriminate.
  - inversion H; subst. unfold JoinPlan.OrderBy.
    destruct (JoinPlan.tableColumnForPointer (JoinPlan.colMap plan) fieldPtr);
      [|cbn; auto].
    destruct (String.eqb (ToLower direction) "asc" || String.eqb (ToLower direction) "desc")%bool;
      [cbn; auto|].
    destruct (String.eqb (ToLower direction) ""); cbn; auto.
  - inversion H; subst. unfold JoinPlan.GroupBy.
    destruct (JoinPlan.tableColumnForPointer (JoinPlan.colMap plan) fieldPtr); cbn; auto.
  - inversion H; subst. cbn; auto.
  - inversion H; subst. cbn; auto.
Qed.

Lemma builderCalls_without_filter :
  forall (chain : list BuilderCall) (plan plan' : JoinPlan.QueryPlan),
    forallb (fun call => negb (startsFilter call)) chain = true ->
    builderCalls chain plan = Returns plan' ->
    JoinPlan.filters plan = None -> JoinPlan.joins plan = [] ->
    JoinPlan.filters plan' = None /\ JoinPlan.joins plan' = [].
Proof.
  induction chain as [|call rest IH]; intros plan plan' Hall H Hf Hj;
    cbn [builderCalls forallb] in *.
  - inversion H; subst. auto.
  - apply andb_prop in Hall as [Hcall Hrest].
    destruct (builderCall call plan) as [mid|] eqn:E; cbn [obind] in H; [|discriminate].
    apply negb_true_iff in Hcall.
    destruct (builderCall_without_filter call plan mid Hcall E Hf Hj) as [Hf' Hj'].
    exact (IH mid plan' Hrest H Hf' Hj').
Qed.

(** X8. A plan that [query] built and on which neither [Where] nor
    [Join] was called has no filter: when no error was recorded,
    [Select], [Update] and [Delete] call [Where] on the nil filter and
    panic instead of running a statement without a where clause. *)
Theorem terminal_without_Where_panics :
  forall (jw jc : JoinPlan.joinFilter -> JoinPlan.structColumnMap -> Dialect -> Z ->
                  result (string * list iface))
         (m : DbMap) (exec : SqlExecutor) (target : Target) (chain : list BuilderCall)
         (fresh plan : JoinPlan.QueryPlan),
    JoinPlan.query m exec target = Returns fresh ->
    forallb (fun call => negb (startsFilter call)) chain = true ->
    builderCalls chain fresh = Returns plan ->
    JoinPlan.Errors plan = [] ->
    JoinPlan.Select jw jc plan = Panics /\
    JoinPlan.Update jw plan = Panics /\
    JoinPlan.Delete jw plan = Panics.
Proof.
  intros jw jc m exec target chain fresh plan Hq Hall Hchain Herrors.
  destruct (query_fresh m exec target fresh Hq)
    as (Hc & Hb & Ha & _ & _ & Hf0 & Hj0 & _ & Hknown & _).
  destruct (builderCalls_without_filter chain fresh plan Hall Hchain Hf0 Hj0) as [Hf Hj].
  assert (Haligned : assignmentsAligned plan).
  { apply (builderCalls_invariant assignmentsAligned builderCall_keeps_aligned chain fresh
             plan Hchain).
    unfold assignmentsAligned. rewrite Hc, Hb, Ha. repeat split. }
  assert (Htable : JoinPlan.table plan = None -> JoinPlan.Errors plan <> []).
  { exact (builderCalls_invariant
             (fun p => JoinPlan.table p = None -> JoinPlan.Errors p <> [])
             builderCall_keeps_table_known chain fresh plan Hchain Hknown). }
  destruct (JoinPlan.table plan) as [t|] eqn:Et; [|exfalso; now apply Htable].
  destruct Haligned as (Hcols & _).
  split; [|split].
  - unfold JoinPlan.Select, JoinPlan.selectQuery, JoinPlan.selectJoinClause,
      JoinPlan.whereClause.
    rewrite Herrors, Et, Hj. cbn [obind]. now rewrite Hf.
  - unfold JoinPlan.Update, JoinPlan.joinFromAndWhereClause, JoinPlan.whereClause.
    rewrite Herrors, Et, Hj.
    rewrite writeAssignments_joined by (rewrite Hcols; apply Nat.le_refl).
    cbn [obind]. now rewrite Hf.
  - unfold JoinPlan.Delete, JoinPlan.joinFromAndWhereClause, JoinPlan.whereClause.
    rewrite Herrors, Et, Hj. cbn [obind]. now rewrite Hf.
Qed.

Lemma terminal_without_Where_panics_witness :
  JoinPlan.Select Sample.joinWhere Sample.joinClause Sample.orderPlan = Panics /\
  JoinPlan.Update Sample.joinWhere Sample.orderPlan = Panics /\
  JoinPlan.Delete Sample.joinWhere Sample.orderPlan = Panics.
Proof.
  exact (terminal_without_Where_panics Sample.joinWhere Sample.joinClause Sample.dbmap
           Sample.executor (StructPointer Sample.overriddenInvoice) Sample.orderChain
           Sample.invoicePlan Sample.orderPlan eq_refl eq_refl eq_refl eq_refl).
Defined.

Lemma mapColumns_mappable :
  forall (table : TableMap) (value : Value) (colMap : JoinPlan.structColumnMap),
    match JoinPlan.mapColumns table value colMap with
    | Returns _ => mappable table value = true
    | Panics => mappable table value = false
    end.
Proof.
  intros table value.
  induction value as [|typeName fields IH] using Value_nested_ind; intros colMap.
  - reflexivity.
  - cbn [JoinPlan.mapColumns mappable]. revert colMap.
    induction fields as [|[fieldType addr fieldVal] fields IHfields]; intros colMap.
    + reflexivity.
    + inversion IH as [|f fs Hhead Htail]; subst. cbn [fieldValueOf] in Hhead.
      specialize (IHfields Htail).
      destruct (Anonymous fieldType).
      * specialize (Hhead colMap).
        destruct (JoinPlan.mapColumns table fieldVal colMap) as [inner|].
        -- rewrite Hhead. cbn [andb]. apply IHfields.
        -- rewrite Hhead. reflexivity.
      * destruct (String.eqb (PkgPath fieldType) "").
        -- destruct (ColMap table (Name fieldType)) as [col|]; [|reflexivity].
           cbn [andb]. apply IHfields.
        -- cbn [andb]. apply IHfields.
Qed.

(** X9. [query] panics exactly when the target is a pointer to a struct
    whose table is registered but which [mapColumns] cannot walk: an
    exported field without a column in the table, or an embedded field
    that is not a struct. In every other case it returns a plan: with
    the target's table, or with the one error recorded. *)
Theorem query_panics_iff_unmapped_field :
  forall (m : DbMap) (exec : SqlExecutor) (target : Target),
    JoinPlan.query m exec target = Panics <->
    exists typeName fields t,
      target = StructPointer (Struct typeName fields) /\
      tableFor m typeName = Ok t /\
      mappable t (Struct typeName fields) = false.
Proof.
  intros m exec target. unfold JoinPlan.query, JoinPlan.mapTable.
  destruct target as [|[|typeName fields]]; cbn [obind].
  - split; [discriminate|]. intros (tn & fs & t & H & _). discriminate.
  - split; [discriminate|]. intros (tn & fs & t & H & _). discriminate.
  - cbn [JoinPlan.emptyPlan JoinPlan.dbMap JoinPlan.colMap].
    destruct (tableFor m typeName) as [t|e] eqn:Et; cbn [obind].
    + pose proof (mapColumns_mappable t (Struct typeName fields) []) as Hm.
      destruct (JoinPlan.mapColumns t (Struct typeName fields) []) as [colMap'|];
        cbn [obind].
      * split; [discriminate|]. intros (tn & fs & t' & H & Ht' & Hno).
        inversion H; subst. rewrite Et in Ht'. inversion Ht'; subst. congruence.
      * split; [|reflexivity]. intros _. now exists typeName, fields, t.
    + split; [discriminate|]. intros (tn & fs & t & H & Ht & _).
      inversion H; subst. congruence.
Qed.

(** X10. [Join] never returns with a newly recorded error: when
    [mapTable] fails, the error is appended and the nil table is
    dereferenced on the next line. [Join] returns exactly when the
    target is a pointer to a struct with a registered table that
    [mapColumns] can walk, and then the error list is as before, the
    plan's filter is a join filter on the quoted table without
    ON-filters, and the bindings of the plan are kept in front of the
    new ones. *)
Theorem Join_returns_iff_target_maps :
  forall (plan : JoinPlan.QueryPlan) (target : Target),
    ((exists plan', JoinPlan.Join plan target = Returns plan') <->
     (exists typeName fields t,
        target = StructPointer (Struct typeName fields) /\
        tableFor (JoinPlan.dbMap plan) typeName = Ok t /\
        mappable t (Struct typeName fields) = true)) /\
    (forall plan',
        JoinPlan.Join plan target = Returns plan' ->
        JoinPlan.Errors plan' = JoinPlan.Errors plan /\
        (exists typeName fields t,
           target = StructPointer (Struct typeName fields) /\
           tableFor (JoinPlan.dbMap plan) typeName = Ok t /\
           JoinPlan.filters plan'
             = Some (JoinPlan.joinMulti (JoinPlan.mkJoinFilter (quotedName t) []))) /\
        (exists bound, JoinPlan.colMap plan' = (JoinPlan.colMap plan ++ bound)%list)).
Proof.
  intros plan target.
  destruct (storeJoin_frame plan) as (SE & ST & SD & SC & _).
  unfold JoinPlan.Join, JoinPlan.mapTable. rewrite SD, SC.
  destruct target as [|[|typeName fields]]; cbn [obind].
  - split; [split|discriminate].
    + intros [plan' H]. discriminate.
    + intros (tn & fs & t & H & _). discriminate.
  - split; [split|discriminate].
    + intros [plan' H]. discriminate.
    + intros (tn & fs & t & H & _). discriminate.
  - destruct (tableFor (JoinPlan.dbMap plan) typeName) as [t|e] eqn:Et; cbn [obind].
    + pose proof (mapColumns_mappable t (Struct typeName fields) (JoinPlan.colMap plan))
        as Hm.
      destruct (JoinPlan.mapColumns t (Struct typeName fields) (JoinPlan.colMap plan))
        as [colMap'|] eqn:Emap; cbn [obind].
      * split; [split|].
        -- intros _. now exists typeName, fields, t.
        -- intros _. eexists. reflexivity.
        -- intros plan' H. inversion H; subst plan'. cbn.
           split; [exact SE|]. split.
           ++ now exists typeName, fields, t.
           ++ destruct (JoinPlan_mapColumns_appends _ _ _ _ Emap) as (bound & -> & _).
              now exists bound.
      * split; [split|discriminate].
        -- intros [plan' H]. discriminate.
        -- intros (tn & fs & t' & H & Ht' & Hyes).
           inversion H; subst. rewrite Et in Ht'. inversion Ht'; subst. congruence.
    + split; [split|discriminate].
      * intros [plan' H]. discriminate.
      * intros (tn & fs & t & H & Ht & _). inversion H; subst. congruence.
Qed.

(** ** Statements with a where clause, and the filter bookkeeping *)

Lemma whereClause_of_and :
  forall (jw : JoinPlan.joinFilter -> JoinPlan.structColumnMap -> Dialect -> Z ->
               result (string * list iface))
         (plan : JoinPlan.QueryPlan) (t : TableMap) (fs : list Filters.Filter)
         (w : string) (wargs : list iface),
    JoinPlan.table plan = Some t ->
    JoinPlan.filters plan = Some (JoinPlan.andMulti fs) ->
    Filters.Where JoinPlan.columnForPointer (Filters.andFilter fs) (JoinPlan.colMap plan)
      (tableDialect t) (Z.of_nat (length (JoinPlan.args plan))) = Ok (w, wargs) ->
    exists plan',
      JoinPlan.whereClause jw plan = Returns (plan', Ok (whereText w)) /\
      JoinPlan.args plan' = (JoinPlan.args plan ++ whereArgsKept w wargs)%list /\
      plan' = JoinPlan.setArgs (JoinPlan.args plan') plan.
Proof.
  intros jw plan t fs w wargs Ht Hf Hw.
  unfold JoinPlan.whereClause, JoinPlan.multiWhere, whereText, whereArgsKept.
  rewrite Hf, Ht, Hw.
  destruct (String.eqb w ""); cbn [negb].
  - exists plan. split; [reflexivity|]. split; [now rewrite app_nil_r|].
    now destruct plan.
  - eexists. split; [reflexivity|]. split; reflexivity.
Qed.

(** X11. [Update] end to end, on a plan without joins whose
    assignments are aligned: the SET list pairs the i-th assigned column
    with the bind variable of index i, the where filter is rendered from
    bind index n, the number of assignments, and the one [Exec] call
    receives the assigned values followed by the where arguments, which
    also stay on the plan. *)
Theorem Update_statement_binds_in_order :
  forall (jw : JoinPlan.joinFilter -> JoinPlan.structColumnMap -> Dialect -> Z ->
               result (string * list iface))
         (plan : JoinPlan.QueryPlan) (t : TableMap) (fs : list Filters.Filter)
         (w : string) (wargs : list iface),
    JoinPlan.Errors plan = [] ->
    JoinPlan.table plan = Some t ->
    JoinPlan.joins plan = [] ->
    JoinPlan.filters plan = Some (JoinPlan.andMulti fs) ->
    assignmentsAligned plan ->
    Filters.Where JoinPlan.columnForPointer (Filters.andFilter fs) (JoinPlan.colMap plan)
      (tableDialect t) (Z.of_nat (length (JoinPlan.assignCols plan))) = Ok (w, wargs) ->
    exists plan',
      JoinPlan.args plan' = (JoinPlan.args plan ++ whereArgsKept w wargs)%list /\
      JoinPlan.Update jw plan
        = Returns (execRows plan' (JoinPlan.executor plan)
                     ("update " ++ quotedName t ++ " set "
                        ++ strings_Join
                             (assignmentTexts (JoinPlan.assignCols plan)
                                (map (BindVar (tableDialect t))
                                   (bindIndices 0 (length (JoinPlan.assignCols plan)))))
                             ", "
                        ++ whereText w)
                     (JoinPlan.args plan ++ whereArgsKept w wargs)).
Proof.
  intros jw plan t fs w wargs Herrors Ht Hj Hf (Hcols & Hvars & Hbind) Hw.
  rewrite Hcols, Hvars in Hw.
  destruct (whereClause_of_and jw plan t fs w wargs Ht Hf Hw) as (plan' & Hwc & Hargs & Hplan').
  exists plan'. split; [exact Hargs|].
  unfold JoinPlan.Update, JoinPlan.joinFromAndWhereClause.
  rewrite Herrors, Ht, Hj.
  rewrite writeAssignments_joined by (rewrite Hcols; apply Nat.le_refl).
  cbn [obind String.eqb negb]. rewrite Hwc. cbn [obind].
  unfold JoinPlan.withJoinWhere. cbn [String.eqb negb].
  rewrite (Hbind t Ht), Hcols, Hvars, <- Hargs.
  replace (JoinPlan.executor plan') with (JoinPlan.executor plan) by (now rewrite Hplan').
  unfold quotedName. now rewrite !append_assoc.
Qed.

Lemma Update_statement_binds_in_order_witness :
  exists plan',
    JoinPlan.args plan' = [IString "m"; IBool true; IString "4"; IInt 2] /\
    JoinPlan.Update Sample.joinWhere Sample.updatePlan
      = Returns (execRows plan' Sample.executor
                   "update `overriddeninvoice` set `Memo`=$1, `IsPaid`=$2 where (`Id`=$3 and `Created`<$4)"
                   [IString "m"; IBool true; IString "4"; IInt 2]).
Proof.
  assert (Haligned : assignmentsAligned Sample.updatePlan).
  { split; [reflexivity|]. split; [reflexivity|].
    intros t Ht. vm_compute in Ht. injection Ht as <-. reflexivity. }
  exact (Update_statement_binds_in_order Sample.joinWhere Sample.updatePlan
           Sample.invoiceTable
           [Filters.Equal Sample.pId (IString "4"); Filters.Less Sample.pCreated (IInt 2)]
           "(`Id`=$3 and `Created`<$4)" [IString "4"; IInt 2]
           eq_refl eq_refl eq_refl eq_refl Haligned eq_refl).
Defined.

(** X12. [Select] end to end, on a plan without joins: the statement
    is the column list, [from] the table, the where clause, the
    order-by list, then the group-by list, then the offset and the
    limit; a positive offset takes the first bind index after the where
    arguments and a positive limit the next one, non-positive ones are
    left out; the one executor call receives the plan's arguments, the
    where arguments, the offset and the limit in this order, and they
    stay on the plan. *)
Theorem Select_statement_binds_in_order :
  forall (jw jc : JoinPlan.joinFilter -> JoinPlan.structColumnMap -> Dialect -> Z ->
                  result (string * list iface))
         (plan : JoinPlan.QueryPlan) (t : TableMap) (v : Value) (fs : list Filters.Filter)
         (w : string) (wargs : list iface),
    JoinPlan.Errors plan = [] ->
    JoinPlan.table plan = Some t ->
    JoinPlan.target plan = Some v ->
    JoinPlan.joins plan = [] ->
    JoinPlan.filters plan = Some (JoinPlan.andMulti fs) ->
    Filters.Where JoinPlan.columnForPointer (Filters.andFilter fs) (JoinPlan.colMap plan)
      (tableDialect t) (Z.of_nat (length (JoinPlan.args plan))) = Ok (w, wargs) ->
    let bound := length (JoinPlan.args plan ++ whereArgsKept w wargs) in
    let sent := (JoinPlan.args plan ++ whereArgsKept w wargs
                   ++ offsetArgs plan ++ limitArgs plan)%list in
    exists plan',
      JoinPlan.args plan' = sent /\
      JoinPlan.Select jw jc plan
        = Returns (execSelect plan' (JoinPlan.executor plan)
                     (writeColumns (tableDialect t) (quotedName t ++ ".") (columns t) 0
                        "select "
                        ++ " from " ++ quotedName t
                        ++ whereText w
                        ++ clauseOf " order by " ", " (JoinPlan.orderBy plan)
                        ++ clauseOf " group by " ", " (JoinPlan.groupBy plan)
                        ++ offsetText (tableDialect t) plan bound
                        ++ limitText (tableDialect t) plan bound)
                     sent).
Proof.
  intros jw jc plan t v fs w wargs Herrors Ht Hv Hj Hf Hw bound sent.
  destruct (whereClause_of_and jw plan t fs w wargs Ht Hf Hw) as (plan1 & Hwc & Hargs & Hplan1).
  unfold JoinPlan.Select, JoinPlan.selectQuery, JoinPlan.selectJoinClause.
  rewrite Herrors, Ht, Hj. cbn [obind]. rewrite Hwc. cbn [obind].
  rewrite !writeClauseList_clause.
  assert (Ho : JoinPlan.orderBy plan1 = JoinPlan.orderBy plan) by (now rewrite Hplan1).
  assert (Hg : JoinPlan.groupBy plan1 = JoinPlan.groupBy plan) by (now rewrite Hplan1).
  assert (Hoff : JoinPlan.offset plan1 = JoinPlan.offset plan) by (now rewrite Hplan1).
  assert (Hlim : JoinPlan.limit plan1 = JoinPlan.limit plan) by (now rewrite Hplan1).
  assert (Htar : JoinPlan.target plan1 = JoinPlan.target plan) by (now rewrite Hplan1).
  assert (Hex : JoinPlan.executor plan1 = JoinPlan.executor plan) by (now rewrite Hplan1).
  rewrite Ho, Hg.
  unfold JoinPlan.offsetLimit, offsetText, limitText, offsetArgs, limitArgs in *.
  subst sent bound. rewrite Hoff.
  destruct (0 <? JoinPlan.offset plan); cbn [JoinPlan.limit JoinPlan.args JoinPlan.setArgs];
    rewrite Hlim; destruct (0 <? JoinPlan.limit plan);
    cbn [obind JoinPlan.target JoinPlan.setArgs JoinPlan.executor JoinPlan.args];
    rewrite Htar, Hv, Hex; unfold quotedName;
    rewrite ?Hargs, ?length_app, <- ?app_assoc, ?append_assoc, ?append_nil_r, ?app_nil_r;
    cbn [length app append]; rewrite ?Nat.add_0_r, ?append_nil_r;
    eexists; (split; [|reflexivity]);
    cbn [JoinPlan.args]; rewrite ?Hargs, <- ?app_assoc, ?app_nil_r; reflexivity.
Qed.

Lemma Select_statement_binds_in_order_witness :
  exists plan',
    JoinPlan.args plan' = [IBool false; IInt 20; IInt 10] /\
    JoinPlan.Select Sample.joinWhere Sample.joinClause Sample.pagePlan
      = Returns (execSelect plan' Sample.executor
                   ("select `overriddeninvoice`.`Id`,`overriddeninvoice`.`Created`,"
                      ++ "`overriddeninvoice`.`Updated`,`overriddeninvoice`.`Memo`,"
                      ++ "`overriddeninvoice`.`PersonId`,`overriddeninvoice`.`IsPaid`"
                      ++ " from `overriddeninvoice` where `IsPaid`=$1"
                      ++ " order by `overriddeninvoice`.`Created`"
                      ++ " group by `overriddeninvoice`.`PersonId`"
                      ++ " offset $2 fetch next ($3) rows only")
                   [IBool false; IInt 20; IInt 10]).
Proof.
  exact (Select_statement_binds_in_order Sample.joinWhere Sample.joinClause Sample.pagePlan
           Sample.invoiceTable Sample.overriddenInvoice
           [Filters.Equal Sample.pIsPaid (IBool false)] "`IsPaid`=$1" [IBool false]
           eq_refl eq_refl eq_refl eq_refl eq_refl eq_refl).
Defined.

(** X13. A plan is used up by its terminal call: [Delete] leaves the
    where arguments on the plan, so a second [Delete] on the same plan
    renders the where filter from the bind index after them and sends
    the where arguments twice. *)
Theorem Delete_again_rebinds :
  forall (jw : JoinPlan.joinFilter -> JoinPlan.structColumnMap -> Dialect -> Z ->
               result (string * list iface))
         (plan : JoinPlan.QueryPlan) (t : TableMap) (fs : list Filters.Filter)
         (w1 w2 : string) (wargs wargs2 : list iface),
    JoinPlan.Errors plan = [] ->
    JoinPlan.table plan = Some t ->
    JoinPlan.joins plan = [] ->
    JoinPlan.filters plan = Some (JoinPlan.andMulti fs) ->
    Filters.Where JoinPlan.columnForPointer (Filters.andFilter fs) (JoinPlan.colMap plan)
      (tableDialect t) (Z.of_nat (length (JoinPlan.args plan))) = Ok (w1, wargs) ->
    Filters.Where JoinPlan.columnForPointer (Filters.andFilter fs) (JoinPlan.colMap plan)
      (tableDialect t)
      (Z.of_nat (length (JoinPlan.args plan ++ whereArgsKept w1 wargs))) = Ok (w2, wargs2) ->
    exists plan1 plan2,
      JoinPlan.Delete jw plan
        = Returns (execRows plan1 (JoinPlan.executor plan)
                     ("delete from " ++ quotedName t ++ whereText w1)
                     (JoinPlan.args plan ++ whereArgsKept w1 wargs)) /\
      JoinPlan.Delete jw plan1
        = Returns (execRows plan2 (JoinPlan.executor plan)
                     ("delete from " ++ quotedName t ++ whereText w2)
                     (JoinPlan.args plan ++ whereArgsKept w1 wargs
                        ++ whereArgsKept w2 wargs)).
Proof.
  intros jw plan t fs w1 w2 wargs wargs2 Herrors Ht Hj Hf Hw1 Hw2.
  assert (wargs2 = wargs) as ->.
  { rewrite (Where_values _ _ _ _ _ _ _ _ Hw2). now rewrite (Where_values _ _ _ _ _ _ _ _ Hw1). }
  destruct (whereClause_of_and jw plan t fs w1 wargs Ht Hf Hw1)
    as (plan1 & Hwc1 & Hargs1 & Hplan1).
  assert (Ht1 : JoinPlan.table plan1 = Some t) by (now rewrite Hplan1).
  assert (Hf1 : JoinPlan.filters plan1 = Some (JoinPlan.andMulti fs)) by (now rewrite Hplan1).
  assert (Hc1 : JoinPlan.colMap plan1 = JoinPlan.colMap plan) by (now rewrite Hplan1).
  assert (He1 : JoinPlan.Errors plan1 = []) by (now rewrite Hplan1).
  assert (Hj1 : JoinPlan.joins plan1 = []) by (now rewrite Hplan1).
  assert (Hx1 : JoinPlan.executor plan1 = JoinPlan.executor plan) by (now rewrite Hplan1).
  rewrite <- Hargs1, <- Hc1 in Hw2.
  destruct (whereClause_of_and jw plan1 t fs w2 wargs Ht1 Hf1 Hw2)
    as (plan2 & Hwc2 & Hargs2 & Hplan2).
  assert (Hx2 : JoinPlan.executor plan2 = JoinPlan.executor plan)
    by (now rewrite Hplan2, <- Hx1).
  exists plan1, plan2.
  unfold JoinPlan.Delete, JoinPlan.joinFromAndWhereClause, JoinPlan.withJoinWhere.
  rewrite Herrors, Ht, Hj, He1, Ht1, Hj1. cbn [obind String.eqb negb].
  rewrite Hwc1, Hwc2. cbn [obind].
  rewrite Hx1, Hx2, Hargs2, Hargs1. unfold quotedName.
  now rewrite <- !app_assoc, !append_assoc.
Qed.


Lemma Delete_again_rebinds_witness :
  exists plan1 plan2,
    JoinPlan.Delete Sample.joinWhere Sample.deletePlan
      = Returns (execRows plan1 Sample.executor
                   "delete from `overriddeninvoice` where `Id`=$1" [IString "4"]) /\
    JoinPlan.Delete Sample.joinWhere plan1
      = Returns (execRows plan2 Sample.executor
                   "delete from `overriddeninvoice` where `Id`=$2"
                   [IString "4"; IString "4"]).
Proof.
  exact (Delete_again_rebinds Sample.joinWhere Sample.deletePlan Sample.invoiceTable
           [Filters.Equal Sample.pId (IString "4")] "`Id`=$1" "`Id`=$2"
           [IString "4"] [IString "4"] eq_refl eq_refl eq_refl eq_refl eq_refl eq_refl).
Defined.

(** X14. [Where] starts the where filter over and [Filter] adds to
    it: a second [Where] drops the filters given to the first, while
    [Where] followed by [Filter] is [Where] with both lists. *)
Theorem Where_starts_over :
  forall (plan : JoinPlan.QueryPlan) (fs gs : list Filters.Filter),
    (plan <~ JoinPlan.Where plan fs ;; JoinPlan.Where plan gs) = JoinPlan.Where plan gs /\
    (plan <~ JoinPlan.Where plan fs ;; JoinPlan.Filter plan gs)
      = JoinPlan.Where plan (fs ++ gs).
Proof.
  intros plan fs gs. unfold JoinPlan.Where, JoinPlan.Filter, JoinPlan.storeJoin.
  destruct (JoinPlan.filters plan) as [[subs|join]|]; split; reflexivity.
Qed.

(** X15. [Join(target).On(fs).Where(gs)]: the join is kept in the
    plan's filter while its ON-filters are added, and [Where] stores it
    as the last join of the plan, with the quoted table and these
    ON-filters, before it starts the where filter with [gs]; errors and
    arguments are as before the three calls. *)
Theorem Join_is_stored_by_Where :
  forall (plan plan' : JoinPlan.QueryPlan) (target : Target) (fs gs : list Filters.Filter),
    builderCalls [CallJoin target; CallOn fs; CallWhere gs] plan = Returns plan' ->
    exists typeName fields t,
      target = StructPointer (Struct typeName fields) /\
      tableFor (JoinPlan.dbMap plan) typeName = Ok t /\
      JoinPlan.joins plan'
        = (JoinPlan.joins (JoinPlan.storeJoin plan)
             ++ [JoinPlan.mkJoinFilter (quotedName t) fs])%list /\
      JoinPlan.filters plan' = Some (JoinPlan.andMulti gs) /\
      JoinPlan.Errors plan' = JoinPlan.Errors plan /\
      JoinPlan.args plan' = JoinPlan.args plan.
Proof.
  intros plan plan' target fs gs H.
  destruct (storeJoin_frame plan) as (SE & ST & SD & SC & SA & SB & SO & SG & SR).
  cbn [builderCalls builderCall] in H.
  unfold JoinPlan.Join, JoinPlan.mapTable in H. rewrite SD, SC in H.
  destruct target as [|[|typeName fields]]; cbn [obind] in H; try discriminate.
  destruct (tableFor (JoinPlan.dbMap plan) typeName) as [t|e] eqn:Et; cbn [obind] in H;
    [|discriminate].
  destruct (JoinPlan.mapColumns t (Struct typeName fields) (JoinPlan.colMap plan))
    as [colMap'|]; cbn [obind] in H; [|discriminate].
  unfold JoinPlan.On, JoinPlan.Filter, JoinPlan.Where, JoinPlan.Filter, JoinPlan.storeJoin in H.
  cbn in H. inversion H; subst plan'. cbn.
  exists typeName, fields, t. unfold quotedName, JoinPlan.storeJoin.
  destruct (JoinPlan.filters plan) as [[subs|join]|];
    repeat split; try reflexivity; exact Et.
Qed.

Lemma Join_is_stored_by_Where_witness :
  JoinPlan.joins Sample.joinedPlan
    = [JoinPlan.mkJoinFilter "`draft`" [Filters.Equal Sample.pDraftId (IInt 1)]] /\
  exists typeName fields t,
    StructPointer Sample.draft = StructPointer (Struct typeName fields) /\
    tableFor (JoinPlan.dbMap Sample.invoicePlan) typeName = Ok t /\
    JoinPlan.joins Sample.joinedPlan
      = (JoinPlan.joins (JoinPlan.storeJoin Sample.invoicePlan)
           ++ [JoinPlan.mkJoinFilter (quotedName t) [Filters.Equal Sample.pDraftId (IInt 1)]])%list /\
    JoinPlan.filters Sample.joinedPlan = Some (JoinPlan.andMulti []) /\
    JoinPlan.Errors Sample.joinedPlan = JoinPlan.Errors Sample.invoicePlan /\
    JoinPlan.args Sample.joinedPlan = JoinPlan.args Sample.invoicePlan.
Proof.
  split; [reflexivity|].
  exact (Join_is_stored_by_Where Sample.invoicePlan Sample.joinedPlan
           (StructPointer Sample.draft) [Filters.Equal Sample.pDraftId (IInt 1)] [] eq_refl).
Defined.

(** ** The revisions compared *)

Lemma mapColumns_revisions :
  forall (table : TableMap) (value : Value) (colMap colMap' : structColumnMap),
    mapColumns table value colMap = Returns colMap' ->
    exists bound,
      colMap' = (colMap ++ bound)%list /\
      forall joinMap,
        JoinPlan.mapColumns table value joinMap
          = Returns (joinMap ++ map (withTable (quotedName table)) bound)%list.
Proof.
  intros table value.
  induction value as [|typeName fields IH] using Value_nested_ind; intros colMap colMap' H.
  - discriminate.
  - cbn [mapColumns JoinPlan.mapColumns] in *.
    revert colMap colMap' H.
    induction fields as [|[fieldType fieldAddr fieldVal] fields IHfields];
      intros colMap colMap' H.
    + inversion H; subst. exists []. split; [now rewrite app_nil_r|].
      intros joinMap. cbn [map]. now rewrite app_nil_r.
    + inversion IH as [|f fs Hhead Htail]; subst. cbn [fieldValueOf] in Hhead.
      specialize (IHfields Htail).
      destruct (Anonymous fieldType).
      * destruct (mapColumns table fieldVal colMap) as [inner|] eqn:Einner; [|discriminate].
        destruct (Hhead _ _ Einner) as (bound1 & -> & Hjoin1).
        destruct (IHfields _ _ H) as (bound2 & -> & Hjoin2).
        exists (bound1 ++ bound2)%list. split; [now rewrite app_assoc|].
        intros joinMap. rewrite Hjoin1, Hjoin2. now rewrite map_app, app_assoc.
      * destruct (ColMap table (Name fieldType)) as [col|]; [|discriminate].
        destruct (String.eqb (PkgPath fieldType) ""); [|discriminate].
        destruct (IHfields _ _ H) as (bound2 & -> & Hjoin2).
        eexists (_ :: bound2). split; [now rewrite <- app_assoc|].
        intros joinMap. rewrite Hjoin2. cbn [map withTable addr column quotedColumn].
        unfold quotedName. now rewrite <- app_assoc.
Qed.

Lemma columnForPointer_withTable :
  forall (quotedTable : string) (structMap : structColumnMap) (fieldPtr : Pointer),
    JoinPlan.columnForPointer (map (withTable quotedTable) structMap) fieldPtr
      = columnForPointer structMap fieldPtr.
Proof.
  intros quotedTable structMap fieldPtr. unfold JoinPlan.columnForPointer.
  induction structMap as [|fieldMap rest IH]; cbn.
  - reflexivity.
  - destruct (Pointer_eqb (addr fieldMap) fieldPtr); [|exact IH].
    now destruct (Transient (column fieldMap)).
Qed.

(** X16. Every target that [query] of the first document of
    [query.go] maps is mapped by [query] of [query_plans.go] as well,
    with the same errors, and every field address resolves in both
    plans to the same column or to the same error. *)
Theorem query_revisions_bind_alike :
  forall (m : DbMap) (exec : SqlExecutor) (target : Target) (plan : FilterPlan.QueryPlan),
    FilterPlan.query m exec target = Returns plan ->
    exists joinPlan,
      JoinPlan.query m exec target = Returns joinPlan /\
      JoinPlan.Errors joinPlan = FilterPlan.Errors plan /\
      JoinPlan.table joinPlan = FilterPlan.table plan /\
      forall fieldPtr,
        JoinPlan.columnForPointer (JoinPlan.colMap joinPlan) fieldPtr
          = columnForPointer (FilterPlan.targetColMap plan) fieldPtr.
Proof.
  intros m exec target plan H.
  unfold FilterPlan.query in H. unfold JoinPlan.query, JoinPlan.mapTable.
  destruct target as [|[|typeName fields]]; cbn [obind].
  - inversion H; subst. eexists. split; [reflexivity|]. cbn. auto.
  - inversion H; subst. eexists. split; [reflexivity|]. cbn. auto.
  - cbn [JoinPlan.emptyPlan JoinPlan.dbMap JoinPlan.colMap].
    destruct (tableFor m typeName) as [t|e]; cbn [obind].
    + cbn [FilterPlan.targetColMap FilterPlan.setTable FilterPlan.setTarget
           FilterPlan.emptyPlan] in H.
      destruct (mapColumns t (Struct typeName fields) []) as [colMap'|] eqn:Emap;
        cbn [obind] in H; [|discriminate].
      destruct (mapColumns_revisions _ _ _ _ Emap) as (bound & -> & Hjoin).
      rewrite (Hjoin []). cbn [obind app]. inversion H; subst plan.
      eexists. split; [reflexivity|]. cbn. repeat split.
      intros fieldPtr. apply columnForPointer_withTable.
    + inversion H; subst. eexists. split; [reflexivity|]. cbn. auto.
Qed.

Lemma query_revisions_bind_alike_witness :
  exists joinPlan,
    JoinPlan.query Sample.dbmap Sample.executor (StructPointer Sample.overriddenInvoice)
      = Returns joinPlan /\
    JoinPlan.Errors joinPlan = FilterPlan.Errors Sample.filterPlan /\
    JoinPlan.table joinPlan = FilterPlan.table Sample.filterPlan /\
    forall fieldPtr,
      JoinPlan.columnForPointer (JoinPlan.colMap joinPlan) fieldPtr
        = columnForPointer (FilterPlan.targetColMap Sample.filterPlan) fieldPtr.
Proof.
  exact (query_revisions_bind_alike Sample.dbmap Sample.executor
           (StructPointer Sample.overriddenInvoice) Sample.filterPlan eq_refl).
Defined.

Lemma columnForPointer_find :
  forall (structMap : structColumnMap) (fieldPtr : Pointer),
    columnForPointer structMap fieldPtr =
    match find (fun fieldMap => Pointer_eqb (addr fieldMap) fieldPtr) structMap with
    | None => Err errNotFound
    | Some fieldMap =>
        if Transient (column fieldMap) then Err errTransient
        else Ok (quotedColumn fieldMap)
    end.
Proof.
  intros structMap fieldPtr. induction structMap as [|fieldMap rest IH]; cbn.
  - reflexivity.
  - destruct (Pointer_eqb (addr fieldMap) fieldPtr); [reflexivity | exact IH].
Qed.

Lemma find_app_first :
  forall (A : Type) (f : A -> bool) (l1 l2 : list A),
    find f (l1 ++ l2)%list = match find f l1 with Some x => Some x | None => find f l2 end.
Proof.
  intros A f l1 l2. induction l1 as [|x l1 IH]; cbn; [reflexivity|].
  destruct (f x); [reflexivity | exact IH].
Qed.

(** The walk of the second document finds a field exactly where the map
    of the first and third documents holds its address, and the field's
    name gives the binding's column. *)
Lemma findFieldType_mapColumns :
  forall (table : TableMap) (fieldPtr : Pointer) (value : Value)
         (colMap colMap' : structColumnMap),
    mapColumns table value colMap = Returns colMap' ->
    exists bound,
      colMap' = (colMap ++ bound)%list /\
      match find (fun fieldMap => Pointer_eqb (addr fieldMap) fieldPtr) bound with
      | None => ScanPlan.findFieldType value fieldPtr = Returns None
      | Some fieldMap =>
          exists fieldType,
            ScanPlan.findFieldType value fieldPtr = Returns (Some fieldType) /\
            ColMap table (Name fieldType) = Some (column fieldMap) /\
            quotedColumn fieldMap
              = QuoteField (tableDialect table) (ColumnName (column fieldMap))
      end.
Proof.
  intros table fieldPtr value.
  induction value as [|typeName fields IH] using Value_nested_ind; intros colMap colMap' H.
  - discriminate.
  - cbn [mapColumns ScanPlan.findFieldType] in *.
    revert colMap colMap' H.
    induction fields as [|[fieldType fieldAddr fieldVal] fields IHfields];
      intros colMap colMap' H.
    + inversion H; subst. exists []. split; [now rewrite app_nil_r | reflexivity].
    + inversion IH as [|f fs Hhead Htail]; subst. cbn [fieldValueOf] in Hhead.
      specialize (IHfields Htail).
      destruct (Anonymous fieldType).
      * destruct (mapColumns table fieldVal colMap) as [inner|] eqn:Einner; [|discriminate].
        destruct (Hhead _ _ Einner) as (bound1 & -> & Hfind1).
        destruct (IHfields _ _ H) as (bound2 & -> & Hfind2).
        exists (bound1 ++ bound2)%list. split; [now rewrite app_assoc|].
        rewrite find_app_first.
        destruct (find (fun fieldMap => Pointer_eqb (addr fieldMap) fieldPtr) bound1)
          as [fieldMap|].
        -- destruct Hfind1 as (ft & -> & Hcol & Hquoted). now exists ft.
        -- rewrite Hfind1. exact Hfind2.
      * destruct (ColMap table (Name fieldType)) as [col|] eqn:Ecol; [|discriminate].
        destruct (String.eqb (PkgPath fieldType) ""); [|discriminate].
        destruct (IHfields _ _ H) as (bound2 & -> & Hfind2).
        eexists (_ :: bound2). split; [now rewrite <- app_assoc|].
        cbn [find addr negb].
        destruct (Pointer_eqb fieldAddr fieldPtr).
        -- exists fieldType. cbn [column quotedColumn]. auto.
        -- exact Hfind2.
Qed.

(** X17. The second document of [query.go] finds a column by walking
    the target at every call, the third looks it up in the map built by
    [query]; on the plans the two revisions build for the same target
    they agree: an address that the walk resolves to a column is
    resolved by the map to the quoted name of this column, or to the
    transient-column error when the column is transient, and an address
    that the walk rejects is rejected by the map. *)
Theorem walk_and_map_resolve_alike :
  forall (m : DbMap) (exec : SqlExecutor) (target : Target) (plan : ListPlan.QueryPlan)
         (fieldPtr : Pointer),
    ListPlan.query m exec target = Returns plan ->
    match ScanPlan.ColumnForPointer (ScanPlan.query m exec target) fieldPtr with
    | Ok col =>
        exists t,
          ListPlan.table plan = Some t /\
          ListPlan.ColumnForPointer plan fieldPtr
            = if Transient col then Err errTransient
              else Ok (QuoteField (tableDialect t) (ColumnName col))
    | Err _ => exists e, ListPlan.ColumnForPointer plan fieldPtr = Err e
    end.
Proof.
  intros m exec target plan fieldPtr H.
  unfold ListPlan.query in H. unfold ScanPlan.query, ScanPlan.ColumnForPointer,
    ListPlan.ColumnForPointer.
  destruct target as [|[|typeName fields]].
  - inversion H; subst. cbn. now exists errNotFound.
  - inversion H; subst. cbn. now exists errNotFound.
  - destruct (tableFor m typeName) as [t|e].
    + cbn [ListPlan.targetColMap ListPlan.setTable ListPlan.setTarget ListPlan.emptyPlan] in H.
      destruct (mapColumns t (Struct typeName fields) []) as [colMap'|] eqn:Emap;
        cbn [obind] in H; [|discriminate].
      inversion H; subst plan.
      cbn [ScanPlan.target ScanPlan.table ScanPlan.setTable ScanPlan.setTarget
           ScanPlan.emptyPlan ListPlan.targetColMap ListPlan.setTargetColMap
           ListPlan.table ListPlan.setTable ListPlan.setTarget ListPlan.emptyPlan].
      destruct (findFieldType_mapColumns t fieldPtr _ _ _ Emap) as (bound & -> & Hfind).
      cbn [app]. rewrite columnForPointer_find.
      destruct (find (fun fieldMap => Pointer_eqb (addr fieldMap) fieldPtr) bound)
        as [fieldMap|].
      * destruct Hfind as (ft & -> & -> & ->). exists t. split; reflexivity.
      * rewrite Hfind. now exists errNotFound.
    + inversion H; subst plan.
      cbn [ScanPlan.target ScanPlan.table ScanPlan.appendError ScanPlan.setErrors
           ScanPlan.setTarget ScanPlan.emptyPlan].
      assert (He : exists e0, columnForPointer
                     (ListPlan.targetColMap
                        (ListPlan.appendError e
                           (ListPlan.setTarget (Some (Struct typeName fields))
                              (ListPlan.emptyPlan exec)))) fieldPtr = Err e0)
        by (now exists errNotFound).
      destruct (ScanPlan.findFieldType (Struct typeName fields) fieldPtr) as [[ft|]|];
        exact He.
Qed.

Lemma walk_and_map_resolve_alike_witness :
  ScanPlan.ColumnForPointer Sample.scanPlan Sample.pMemo
    = Ok (mkColumnMap "Memo" false "Memo") /\
  exists t,
    ListPlan.table Sample.listPlan = Some t /\
    ListPlan.ColumnForPointer Sample.listPlan Sample.pMemo
      = Ok (QuoteField (tableDialect t) "Memo").
Proof.
  split; [reflexivity|].
  exact (walk_and_map_resolve_alike Sample.dbmap Sample.executor
           (StructPointer Sample.overriddenInvoice) Sample.listPlan Sample.pMemo eq_refl).
Defined.

Lemma writeWhereList_later :
  forall (entries : list string) (index : nat) (buffer : string),
    index <> 0%nat ->
    writeWhereList entries index buffer = buffer ++ separated " and " entries.
Proof.
  induction entries as [|e rest IH]; intros index buffer Hi; cbn [writeWhereList separated].
  - now rewrite append_nil_r.
  - destruct index; [contradiction|]. cbn [Nat.eqb].
    rewrite IH by discriminate. now rewrite !append_assoc.
Qed.

Lemma writeWhereList_clause :
  forall (entries : list string) (buffer : string),
    writeWhereList entries 0 buffer = buffer ++ clauseOf " where " " and " entries.
Proof.
  intros [|e rest] buffer.
  - cbn. now rewrite append_nil_r.
  - cbn [writeWhereList Nat.eqb clauseOf]. rewrite writeWhereList_later by discriminate.
    rewrite strings_Join_cons. now rewrite !append_assoc.
Qed.

Lemma listComparisons_appends :
  forall (cs : list Comparison) (columns : list string) (plan : ListPlan.QueryPlan)
         (t : TableMap),
    ListPlan.table plan = Some t ->
    Forall2 (fun c column =>
               columnForPointer (ListPlan.targetColMap plan) (cmpAddr c) = Ok column)
            cs columns ->
    exists plan',
      listComparisons cs plan = Returns plan' /\
      ListPlan.where_ plan'
        = (ListPlan.where_ plan
             ++ comparisonTexts (tableDialect t) columns cs
                  (bindIndices (Z.of_nat (length (ListPlan.args plan))) (length cs)))%list /\
      ListPlan.args plan' = (ListPlan.args plan ++ map cmpValue cs)%list /\
      ListPlan.Errors plan' = ListPlan.Errors plan /\
      ListPlan.table plan' = ListPlan.table plan /\
      ListPlan.executor plan' = ListPlan.executor plan.
Proof.
  induction cs as [|c cs IH]; intros columns plan t Ht HF.
  - inversion HF; subst. exists plan. cbn. now rewrite !app_nil_r.
  - inversion HF as [|c' column cs' columns' Hc Hrest]; subst.
    cbn [listComparisons]. unfold ListPlan.addWhere, ListPlan.ColumnForPointer.
    rewrite Hc, Ht. cbn [obind].
    match goal with |- exists plan', listComparisons cs ?p = _ /\ _ =>
      destruct (IH columns' p t) as (plan' & Hrun & Hw & Ha & He & Htab & Hx);
        [exact Ht | exact Hrest |]
    end.
    exists plan'. split; [exact Hrun|].
    cbn [ListPlan.where_ ListPlan.args ListPlan.setArgs ListPlan.setWhere ListPlan.Errors
         ListPlan.table ListPlan.executor] in Hw, Ha, He, Htab, Hx.
    rewrite Hw, Ha, He, Htab, Hx. cbn [length map]. rewrite bindIndices_S.
    cbn [comparisonTexts]. rewrite length_app. cbn [length].
    rewrite <- !app_assoc. cbn [app].
    replace (Z.of_nat (length (ListPlan.args plan) + 1))
      with (Z.of_nat (length (ListPlan.args plan)) + 1) by lia.
    repeat split; try reflexivity; congruence.
Qed.

Lemma filterComparisons_appends :
  forall (cs : list Comparison) (plan : FilterPlan.QueryPlan),
    cs <> [] ->
    let subFilters := match FilterPlan.filters plan with
                      | None => []
                      | Some subFilters => subFilters
                      end in
    filterComparisons cs plan
      = FilterPlan.setFilters (Some (subFilters ++ map comparisonOf cs)%list) plan.
Proof.
  induction cs as [|c cs IH]; intros plan Hcs; [contradiction|].
  unfold filterComparisons. cbn [fold_left].
  destruct cs as [|c2 cs].
  - reflexivity.
  - fold (filterComparisons (c2 :: cs) (FilterPlan.Filter plan (comparisonOf c))).
    rewrite IH by discriminate.
    unfold FilterPlan.Filter. cbn [FilterPlan.filters FilterPlan.setFilters].
    rewrite <- app_assoc. reflexivity.
Qed.

Lemma comparisonTexts_length :
  forall (dialect : Dialect) (cs : list Comparison) (columns : list string) (k : Z),
    length columns = length cs ->
    length (comparisonTexts dialect columns cs (bindIndices k (length cs))) = length cs.
Proof.
  intros dialect cs. induction cs as [|c cs IH]; intros columns k Hlen.
  - destruct columns; reflexivity.
  - destruct columns as [|column columns]; [discriminate|].
    cbn [length]. rewrite bindIndices_S. cbn [comparisonTexts length].
    rewrite IH; [reflexivity | now inversion Hlen].
Qed.

(** X18. The third document of [query.go] renders each comparison
    when it is called and keeps a list of where entries; the first holds
    the comparisons in an and-filter and renders them in the terminal
    call. For the same comparisons on plans for the same target, with
    every address resolving, [Delete] sends the same arguments in both
    revisions and the same statement but for the parentheses that the
    and-filter puts around more than one comparison. *)
Theorem where_list_and_filter_agree :
  forall (m : DbMap) (exec : SqlExecutor) (target : Target)
         (listPlan : ListPlan.QueryPlan) (filterPlan : FilterPlan.QueryPlan)
         (t : TableMap) (cs : list Comparison) (columns : list string),
    ListPlan.query m exec target = Returns listPlan ->
    FilterPlan.query m exec target = Returns filterPlan ->
    ListPlan.table listPlan = Some t ->
    Forall2 (fun c column =>
               columnForPointer (ListPlan.targetColMap listPlan) (cmpAddr c) = Ok column)
            cs columns ->
    let joined :=
      strings_Join
        (comparisonTexts (tableDialect t) columns cs (bindIndices 0 (length cs))) " and " in
    joined <> "" ->
    exists listPlan' filterPlan',
      listComparisons cs listPlan = Returns listPlan' /\
      ListPlan.Delete listPlan'
        = Returns (execRows listPlan' exec
                     ("delete from " ++ quotedName t ++ " where " ++ joined)
                     (map cmpValue cs)) /\
      FilterPlan.Delete (filterComparisons cs filterPlan)
        = Returns (execRows filterPlan' exec
                     ("delete from " ++ quotedName t ++ " where "
                        ++ parenthesized (length cs) joined)
                     (map cmpValue cs)).
Proof.
  intros m exec target listPlan filterPlan t cs columns Hl Hf Ht HF joined Hjoined.
  assert (Hfresh : ListPlan.Errors listPlan = [] /\ ListPlan.args listPlan = [] /\
                   ListPlan.where_ listPlan = [] /\ ListPlan.executor listPlan = exec /\
                   FilterPlan.Errors filterPlan = [] /\ FilterPlan.args filterPlan = [] /\
                   FilterPlan.filters filterPlan = None /\
                   FilterPlan.executor filterPlan = exec /\
                   FilterPlan.table filterPlan = Some t /\
                   FilterPlan.targetColMap filterPlan = ListPlan.targetColMap listPlan).
  { unfold ListPlan.query in Hl. unfold FilterPlan.query in Hf.
    destruct target as [|[|typeName fields]];
      try (inversion Hl; subst; discriminate).
    destruct (tableFor m typeName) as [t'|e]; [|inversion Hl; subst; discriminate].
    cbn [ListPlan.targetColMap ListPlan.setTable ListPlan.setTarget ListPlan.emptyPlan
         FilterPlan.targetColMap FilterPlan.setTable FilterPlan.setTarget
         FilterPlan.emptyPlan] in Hl, Hf.
    destruct (mapColumns t' (Struct typeName fields) []) as [colMap'|]; [|discriminate].
    cbn [obind] in Hl, Hf. inversion Hl; subst. inversion Hf; subst.
    cbn in Ht. inversion Ht; subst. cbn. repeat split; reflexivity. }
  destruct Hfresh as (HlE & HlA & HlW & HlX & HfE & HfA & HfF & HfX & HfT & HfC).
  assert (Hcs : cs <> []).
  { intros ->. inversion HF; subst. now apply Hjoined. }
  destruct (listComparisons_appends cs columns listPlan t Ht HF)
    as (listPlan' & Hrun & Hw & Ha & He & Htab & Hx).
  rewrite HlA, HlW in Hw. rewrite HlA in Ha. cbn [app length Z.of_nat] in Hw, Ha.
  exists listPlan'.
  assert (Htexts : comparisonTexts (tableDialect t) columns cs (bindIndices 0 (length cs))
                   <> []).
  { intros Hnil. apply Hjoined. unfold joined. now rewrite Hnil. }
  rewrite filterComparisons_appends by exact Hcs. rewrite HfF. cbn [app].
  unfold FilterPlan.Delete, FilterPlan.whereClause.
  cbn [FilterPlan.Errors FilterPlan.table FilterPlan.filters FilterPlan.setFilters
       FilterPlan.targetColMap FilterPlan.args FilterPlan.executor].
  rewrite HfE, HfT, HfA, HfC. cbn [length Z.of_nat].
  rewrite (and_of_comparisons_rendering _ columnForPointer (ListPlan.targetColMap listPlan)
             (tableDialect t) 0 cs columns HF).
  fold joined.
  assert (Hpar : String.eqb (parenthesized (length cs) joined) "" = false).
  { apply String.eqb_neq. unfold parenthesized.
    destruct (Nat.ltb 1 (length cs)); [discriminate | exact Hjoined]. }
  rewrite Hpar. cbn [negb obind FilterPlan.executor FilterPlan.args FilterPlan.setArgs app].
  eexists. split; [exact Hrun|]. split.
  - unfold ListPlan.Delete. rewrite He, HlE, Htab, Ht, Hw, Ha, Hx, HlX.
    rewrite writeWhereList_clause. unfold clauseOf, quotedName. subst joined.
    destruct (comparisonTexts (tableDialect t) columns cs (bindIndices 0 (length cs)))
      as [|text texts]; [contradiction|].
    now rewrite !append_assoc.
  - cbn [FilterPlan.executor FilterPlan.setFilters]. rewrite HfX. unfold quotedName.
    now rewrite !append_assoc.
Qed.

Lemma where_list_and_filter_agree_witness :
  exists listPlan' filterPlan',
    listComparisons Sample.twoComparisons Sample.listPlan = Returns listPlan' /\
    ListPlan.Delete listPlan'
      = Returns (execRows listPlan' Sample.executor
                   "delete from `overriddeninvoice` where `IsPaid`=$1 and `Created`<$2"
                   [IBool false; IInt 2]) /\
    FilterPlan.Delete (filterComparisons Sample.twoComparisons Sample.filterPlan)
      = Returns (execRows filterPlan' Sample.executor
                   "delete from `overriddeninvoice` where (`IsPaid`=$1 and `Created`<$2)"
                   [IBool false; IInt 2]).
Proof.
  apply (where_list_and_filter_agree Sample.dbmap Sample.executor
           (StructPointer Sample.overriddenInvoice) Sample.listPlan Sample.filterPlan
           Sample.invoiceTable Sample.twoComparisons ["`IsPaid`"; "`Created`"]);
    try reflexivity.
  - repeat constructor.
  - discriminate.
Defined.

Lemma walk_resolves_what_map_resolves :
  forall (t : TableMap) (value : Value) (colMap : structColumnMap) (fieldPtr : Pointer)
         (quoted : string) (plan : ScanPlan.QueryPlan),
    mapColumns t value [] = Returns colMap ->
    columnForPointer colMap fieldPtr = Ok quoted ->
    ScanPlan.target plan = Some value ->
    ScanPlan.table plan = Some t ->
    exists col,
      ScanPlan.ColumnForPointer plan fieldPtr = Ok col /\
      Transient col = false /\
      quoted = QuoteField (tableDialect t) (ColumnName col).
Proof.
  intros t value colMap fieldPtr quoted plan Hmap Hcol Htarget Htable.
  destruct (findFieldType_mapColumns t fieldPtr _ _ _ Hmap) as (bound & -> & Hfind).
  cbn [app] in Hcol. rewrite columnForPointer_find in Hcol.
  unfold ScanPlan.ColumnForPointer. rewrite Htarget, Htable.
  destruct (find (fun fieldMap => Pointer_eqb (addr fieldMap) fieldPtr) bound)
    as [fieldMap|]; [|discriminate].
  destruct Hfind as (ft & -> & -> & Hquoted).
  destruct (Transient (column fieldMap)) eqn:Etr; [discriminate|].
  inversion Hcol; subst. exists (column fieldMap). repeat split; assumption.
Qed.

Lemma scanComparisons_appends :
  forall (t : TableMap) (value : Value) (colMap : structColumnMap),
    mapColumns t value [] = Returns colMap ->
    forall (cs : list Comparison) (columns : list string) (plan : ScanPlan.QueryPlan),
      ScanPlan.target plan = Some value ->
      ScanPlan.table plan = Some t ->
      Forall2 (fun c column => columnForPointer colMap (cmpAddr c) = Ok column) cs columns ->
      exists plan',
        scanComparisons cs plan = Returns plan' /\
        ScanPlan.where_ plan'
          = (ScanPlan.where_ plan
               ++ comparisonTexts (tableDialect t) columns cs
                    (bindIndices (Z.of_nat (length (ScanPlan.args plan))) (length cs)))%list /\
        ScanPlan.args plan' = (ScanPlan.args plan ++ map cmpValue cs)%list /\
        ScanPlan.Errors plan' = ScanPlan.Errors plan /\
        ScanPlan.table plan' = ScanPlan.table plan /\
        ScanPlan.executor plan' = ScanPlan.executor plan.
Proof.
  intros t value colMap Hmap.
  induction cs as [|c cs IH]; intros columns plan Htarget Ht HF.
  - inversion HF; subst. exists plan. cbn. now rewrite !app_nil_r.
  - inversion HF as [|c' column cs' columns' Hc Hrest]; subst.
    destruct (walk_resolves_what_map_resolves t value colMap (cmpAddr c) column plan
                Hmap Hc Htarget Ht) as (col & Hwalk & Htr & ->).
    cbn [scanComparisons]. unfold ScanPlan.addWhere, ScanPlan.columnOperatorString.
    rewrite Hwalk, Htr, Ht. cbn [obind].
    match goal with |- exists plan', scanComparisons cs ?p = _ /\ _ =>
      destruct (IH columns' p) as (plan' & Hrun & Hw & Ha & He & Htab & Hx);
        [exact Htarget | exact Ht | exact Hrest |]
    end.
    exists plan'. split; [exact Hrun|].
    cbn [ScanPlan.where_ ScanPlan.args ScanPlan.setArgs ScanPlan.setWhere ScanPlan.Errors
         ScanPlan.table ScanPlan.executor] in Hw, Ha, He, Htab, Hx.
    rewrite Hw, Ha, He, Htab, Hx. cbn [length map]. rewrite bindIndices_S.
    cbn [comparisonTexts]. rewrite length_app. cbn [length].
    rewrite <- !app_assoc. cbn [app].
    replace (Z.of_nat (length (ScanPlan.args plan) + 1))
      with (Z.of_nat (length (ScanPlan.args plan)) + 1) by lia.
    repeat split; try reflexivity; congruence.
Qed.

(** X19. When every compared address resolves, the second and the
    third document of [query.go] build the same where entries for the
    same comparison calls, and [Delete] sends the same statement with
    the same arguments in both: the entries joined by [" and "] after
    [" where "], each with the bind variable of its value's position. *)
Theorem walk_and_map_delete_alike :
  forall (m : DbMap) (exec : SqlExecutor) (target : Target) (listPlan : ListPlan.QueryPlan)
         (t : TableMap) (cs : list Comparison) (columns : list string),
    ListPlan.query m exec target = Returns listPlan ->
    ListPlan.table listPlan = Some t ->
    Forall2 (fun c column =>
               columnForPointer (ListPlan.targetColMap listPlan) (cmpAddr c) = Ok column)
            cs columns ->
    let statement :=
      "delete from " ++ quotedName t
        ++ clauseOf " where " " and "
             (comparisonTexts (tableDialect t) columns cs (bindIndices 0 (length cs))) in
    exists listPlan' scanPlan',
      listComparisons cs listPlan = Returns listPlan' /\
      scanComparisons cs (ScanPlan.query m exec target) = Returns scanPlan' /\
      ListPlan.Delete listPlan'
        = Returns (execRows listPlan' exec statement (map cmpValue cs)) /\
      ScanPlan.Delete scanPlan'
        = Returns (execRows scanPlan' exec statement (map cmpValue cs)).
Proof.
  intros m exec target listPlan t cs columns Hl Ht HF statement.
  unfold ListPlan.query in Hl.
  destruct target as [|[|typeName fields]]; try (inversion Hl; subst; discriminate).
  destruct (tableFor m typeName) as [t'|e] eqn:Et; [|inversion Hl; subst; discriminate].
  cbn [ListPlan.targetColMap ListPlan.setTable ListPlan.setTarget ListPlan.emptyPlan] in Hl.
  destruct (mapColumns t' (Struct typeName fields) []) as [colMap'|] eqn:Emap;
    [|discriminate].
  cbn [obind] in Hl. inversion Hl; subst listPlan. cbn in Ht. inversion Ht; subst t'.
  cbn [ListPlan.targetColMap ListPlan.setTargetColMap] in HF.
  match goal with |- exists l s, listComparisons cs ?lp = _ /\ _ =>
    destruct (listComparisons_appends cs columns lp t eq_refl HF)
      as (listPlan' & Hrun & Hw & Ha & He & Htab & Hx)
  end.
  assert (Hscan : ScanPlan.query m exec (StructPointer (Struct typeName fields))
                  = ScanPlan.setTable (Some t)
                      (ScanPlan.setTarget (Some (Struct typeName fields))
                         (ScanPlan.emptyPlan exec))).
  { unfold ScanPlan.query. now rewrite Et. }
  rewrite Hscan.
  destruct (scanComparisons_appends t _ _ Emap cs columns
              (ScanPlan.setTable (Some t)
                 (ScanPlan.setTarget (Some (Struct typeName fields))
                    (ScanPlan.emptyPlan exec))) eq_refl eq_refl HF)
    as (scanPlan' & Hrun2 & Hw2 & Ha2 & He2 & Htab2 & Hx2).
  cbn in Hw, Ha, He, Htab, Hx, Hw2, Ha2, He2, Htab2, Hx2.
  exists listPlan', scanPlan'.
  split; [exact Hrun|]. split; [exact Hrun2|].
  unfold ListPlan.Delete, ScanPlan.Delete.
  rewrite He, Htab, Hw, Ha, Hx, He2, Htab2, Hw2, Ha2, Hx2.
  rewrite !writeWhereList_clause. subst statement. unfold quotedName.
  rewrite !append_assoc. split; reflexivity.
Qed.


Lemma walk_and_map_delete_alike_witness :
  exists listPlan' scanPlan',
    listComparisons Sample.twoComparisons Sample.listPlan = Returns listPlan' /\
    scanComparisons Sample.twoComparisons Sample.scanPlan = Returns scanPlan' /\
    ListPlan.Delete listPlan'
      = Returns (execRows listPlan' Sample.executor
                   "delete from `overriddeninvoice` where `IsPaid`=$1 and `Created`<$2"
                   [IBool false; IInt 2]) /\
    ScanPlan.Delete scanPlan'
      = Returns (execRows scanPlan' Sample.executor
                   "delete from `overriddeninvoice` where `IsPaid`=$1 and `Created`<$2"
                   [IBool false; IInt 2]).
Proof.
  apply (walk_and_map_delete_alike Sample.dbmap Sample.executor
           (StructPointer Sample.overriddenInvoice) Sample.listPlan
           Sample.invoiceTable Sample.twoComparisons ["`IsPaid`"; "`Created`"]);
    try reflexivity.
  repeat constructor.
Defined.




(** ** The first document of [query.go] and [query_plans.go] *)

Section WhereExt.
Variables colMapA colMapB : Type.
Variable lookupA : colMapA -> Pointer -> result string.
Variable lookupB : colMapB -> Pointer -> result string.
Variable structMapA : colMapA.
Variable structMapB : colMapB.
Variable dialect : Dialect.
Hypothesis lookups_agree :
  forall fieldPtr, lookupA structMapA fieldPtr = lookupB structMapB fieldPtr.

Lemma joinLoop_ext :
  forall (whereA whereB : Filters.Filter -> Z -> result (string * list iface))
         (separator : string) (k : Z) (subFilters : list Filters.Filter),
    Forall (fun sub => forall idx, whereA sub idx = whereB sub idx) subFilters ->
    forall (index : nat) (buffer : string) (args : list iface),
      Filters.joinLoop whereA separator k subFilters index buffer args
        = Filters.joinLoop whereB separator k subFilters index buffer args.
Proof.
  intros whereA whereB separator k subFilters HF.
  induction HF as [|sub rest Hsub Hrest IH]; intros index buffer args;
    cbn [Filters.joinLoop].
  - reflexivity.
  - rewrite Hsub.
    destruct (whereB sub (k + Z.of_nat (length args))) as [[nextWhere nextArgs]|e];
      [apply IH | reflexivity].
Qed.

Lemma Where_ext :
  forall (filter : Filters.Filter) (k : Z),
    Filters.Where lookupA filter structMapA dialect k
      = Filters.Where lookupB filter structMapB dialect k.
Proof.
  induction filter as [subs IH|subs IH|a c v|inner IH|a|a] using Filter_nested_ind;
    intros k; cbn [Filters.Where].
  - unfold Filters.joinFilters.
    rewrite (joinLoop_ext _ (fun sub idx => Filters.Where lookupB sub structMapB dialect idx)
               " and " k subs IH). reflexivity.
  - unfold Filters.joinFilters.
    rewrite (joinLoop_ext _ (fun sub idx => Filters.Where lookupB sub structMapB dialect idx)
               " or " k subs IH). reflexivity.
  - now rewrite lookups_agree.
  - now rewrite IH.
  - now rewrite lookups_agree.
  - now rewrite lookups_agree.
Qed.
End WhereExt.

Lemma tableColumnForPointer_alike :
  forall (structMap : JoinPlan.structColumnMap) (fieldPtr : Pointer),
    match JoinPlan.columnForPointer structMap fieldPtr with
    | Err e => JoinPlan.tableColumnForPointer structMap fieldPtr = Err e
    | Ok _ => exists column, JoinPlan.tableColumnForPointer structMap fieldPtr = Ok column
    end.
Proof.
  intros structMap fieldPtr.
  unfold JoinPlan.columnForPointer, JoinPlan.tableColumnForPointer.
  destruct (JoinPlan.fieldMapForPointer structMap fieldPtr) as [fieldMap|e];
    [now eexists | reflexivity].
Qed.

Lemma query_sameBuild :
  forall (m : DbMap) (exec : SqlExecutor) (target : Target) (plan : FilterPlan.QueryPlan),
    FilterPlan.query m exec target = Returns plan ->
    exists joinPlan joinPlan',
      JoinPlan.query m exec target = Returns joinPlan /\
      JoinPlan.Where joinPlan [] = Returns joinPlan' /\
      sameBuild plan joinPlan'.
Proof.
  intros m exec target plan H.
  unfold FilterPlan.query in H. unfold JoinPlan.query, JoinPlan.mapTable.
  destruct target as [|[|typeName fields]]; cbn [obind].
  - inversion H; subst. eexists. eexists. split; [reflexivity|]. split; [reflexivity|].
    unfold sameBuild. cbn. repeat split.
  - inversion H; subst. eexists. eexists. split; [reflexivity|]. split; [reflexivity|].
    unfold sameBuild. cbn. repeat split.
  - cbn [JoinPlan.emptyPlan JoinPlan.dbMap JoinPlan.colMap].
    destruct (tableFor m typeName) as [t|e]; cbn [obind].
    + cbn [FilterPlan.targetColMap FilterPlan.setTable FilterPlan.setTarget
           FilterPlan.emptyPlan] in H.
      destruct (mapColumns t (Struct typeName fields) []) as [colMap'|] eqn:Emap;
        cbn [obind] in H; [|discriminate].
      destruct (mapColumns_revisions _ _ _ _ Emap) as (bound & -> & Hjoin).
      rewrite (Hjoin []). cbn [obind app]. inversion H; subst plan.
      eexists. eexists. split; [reflexivity|]. split; [reflexivity|].
      unfold sameBuild. cbn. repeat split.
      intros fieldPtr. apply columnForPointer_withTable.
    + inversion H; subst. eexists. eexists. split; [reflexivity|]. split; [reflexivity|].
      unfold sameBuild. cbn. repeat split.
Qed.

Lemma call_sameBuild :
  forall (call : SharedCall) (plan plan' : FilterPlan.QueryPlan)
         (joinPlan : JoinPlan.QueryPlan),
    sameBuild plan joinPlan ->
    filterPlanCall call plan = Returns plan' ->
    exists joinPlan',
      builderCall (asBuilderCall call) joinPlan = Returns joinPlan' /\
      sameBuild plan' joinPlan'.
Proof.
  intros call plan plan' joinPlan (HE & HT & HX & HC & HB & HA & HJ & HL & HF) H.
  destruct call as [fieldPtr value|filter|fieldPtr direction|fieldPtr|n|n];
    cbn [filterPlanCall asBuilderCall builderCall] in *.
  - unfold FilterPlan.Assign in H. unfold JoinPlan.Assign. rewrite HL, HT.
    destruct (columnForPointer (FilterPlan.targetColMap plan) fieldPtr) as [column|e].
    + destruct (FilterPlan.table plan) as [t|] eqn:Et; [|discriminate].
      inversion H; subst plan'. eexists. split; [reflexivity|].
      unfold sameBuild. cbn. rewrite HE, HC, HB, HA. repeat split; try reflexivity; try assumption; congruence.
    + inversion H; subst plan'. eexists. split; [reflexivity|].
      unfold sameBuild. cbn. rewrite HE. repeat split; try reflexivity; try assumption; congruence.
  - inversion H; subst plan'. unfold JoinPlan.Filter. rewrite HF.
    eexists. split; [reflexivity|].
    unfold sameBuild, FilterPlan.Filter. cbn. repeat split; try reflexivity; try assumption; congruence.
  - inversion H; subst plan'. eexists. split; [reflexivity|].
    unfold JoinPlan.OrderBy, FilterPlan.OrderBy.
    pose proof (tableColumnForPointer_alike (JoinPlan.colMap joinPlan) fieldPtr) as Halike.
    rewrite HL in Halike.
    destruct (columnForPointer (FilterPlan.targetColMap plan) fieldPtr) as [column|e].
    + destruct Halike as [tableColumn ->].
      destruct (String.eqb (ToLower direction) "asc"
                || String.eqb (ToLower direction) "desc")%bool;
        [|destruct (String.eqb (ToLower direction) "")];
        unfold sameBuild; cbn; rewrite ?HE; repeat split; try reflexivity; try assumption; congruence.
    + rewrite Halike. unfold sameBuild. cbn. rewrite HE. repeat split; try reflexivity; try assumption; congruence.
  - inversion H; subst plan'. eexists. split; [reflexivity|].
    unfold JoinPlan.GroupBy, FilterPlan.GroupBy.
    pose proof (tableColumnForPointer_alike (JoinPlan.colMap joinPlan) fieldPtr) as Halike.
    rewrite HL in Halike.
    destruct (columnForPointer (FilterPlan.targetColMap plan) fieldPtr) as [column|e].
    + destruct Halike as [tableColumn ->].
      unfold sameBuild; cbn; repeat split; try reflexivity; try assumption; congruence.
    + rewrite Halike. unfold sameBuild. cbn. rewrite HE. repeat split; try reflexivity; try assumption; congruence.
  - inversion H; subst plan'. eexists. split; [reflexivity|].
    unfold sameBuild. cbn. repeat split; try reflexivity; try assumption; congruence.
  - inversion H; subst plan'. eexists. split; [reflexivity|].
    unfold sameBuild. cbn. repeat split; try reflexivity; try assumption; congruence.
Qed.

Lemma calls_sameBuild :
  forall (chain : list SharedCall) (plan plan' : FilterPlan.QueryPlan)
         (joinPlan : JoinPlan.QueryPlan),
    sameBuild plan joinPlan ->
    filterPlanCalls chain plan = Returns plan' ->
    exists joinPlan',
      builderCalls (map asBuilderCall chain) joinPlan = Returns joinPlan' /\
      sameBuild plan' joinPlan'.
Proof.
  induction chain as [|call rest IH]; intros plan plan' joinPlan Hsame H;
    cbn [filterPlanCalls map builderCalls] in *.
  - inversion H; subst. now exists joinPlan.
  - destruct (filterPlanCall call plan) as [mid|] eqn:E; cbn [obind] in H; [|discriminate].
    destruct (call_sameBuild call plan mid joinPlan Hsame E) as (joinMid & -> & Hmid).
    cbn [obind]. exact (IH mid plan' joinMid Hmid H).
Qed.

Lemma whereClause_sameBuild :
  forall (jw : JoinPlan.joinFilter -> JoinPlan.structColumnMap -> Dialect -> Z ->
               result (string * list iface))
         (plan : FilterPlan.QueryPlan) (joinPlan : JoinPlan.QueryPlan),
    sameBuild plan joinPlan ->
    FilterPlan.filters plan <> None ->
    match FilterPlan.whereClause plan, JoinPlan.whereClause jw joinPlan with
    | Returns (plan', r), Returns (joinPlan', r') =>
        r' = r /\
        JoinPlan.args joinPlan' = FilterPlan.args plan' /\
        JoinPlan.executor joinPlan' = FilterPlan.executor plan'
    | Panics, Panics => True
    | _, _ => False
    end.
Proof.
  intros jw plan joinPlan (HE & HT & HX & HC & HB & HA & HJ & HL & HF) Hsome.
  unfold FilterPlan.whereClause, JoinPlan.whereClause, JoinPlan.multiWhere.
  rewrite HF, HT, HA.
  destruct (FilterPlan.filters plan) as [subFilters|]; [|contradiction].
  destruct (FilterPlan.table plan) as [t|]; [|exact I].
  rewrite (Where_ext _ _ JoinPlan.columnForPointer columnForPointer
             (JoinPlan.colMap joinPlan) (FilterPlan.targetColMap plan) (tableDialect t) HL).
  destruct (Filters.Where columnForPointer (Filters.andFilter subFilters)
              (FilterPlan.targetColMap plan) (tableDialect t)
              (Z.of_nat (length (FilterPlan.args plan)))) as [[w wargs]|e].
  - destruct (negb (String.eqb w "")); cbn; rewrite ?HA; auto.
  - cbn. auto.
Qed.

(** X21. [query_plans.go] without joins sends what the first document
    of [query.go] sends: for the same target and the same chain of
    assignments, filters, orderings, groupings, limits and offsets
    ([Where()] called first on the plan of [query_plans.go]), with at
    least one filter, [Insert], [Update] and [Delete] make the same
    executor calls and return the same values and errors in both
    revisions, or panic in both. *)
Theorem plans_without_joins_send_alike :
  forall (jw : JoinPlan.joinFilter -> JoinPlan.structColumnMap -> Dialect -> Z ->
               result (string * list iface))
         (m : DbMap) (exec : SqlExecutor) (target : Target) (chain : list SharedCall)
         (fresh plan : FilterPlan.QueryPlan),
    FilterPlan.query m exec target = Returns fresh ->
    filterPlanCalls chain fresh = Returns plan ->
    FilterPlan.filters plan <> None ->
    exists joinFresh joinPlan,
      JoinPlan.query m exec target = Returns joinFresh /\
      builderCalls (CallWhere [] :: map asBuilderCall chain) joinFresh = Returns joinPlan /\
      sameRun (FilterPlan.Insert plan) (JoinPlan.Insert joinPlan) /\
      sameRun (FilterPlan.Update plan) (JoinPlan.Update jw joinPlan) /\
      sameRun (FilterPlan.Delete plan) (JoinPlan.Delete jw joinPlan).
Proof.
  intros jw m exec target chain fresh plan Hq Hchain Hsome.
  destruct (query_sameBuild m exec target fresh Hq) as (joinFresh & joinStart & Hjq & Hw & Hs).
  destruct (calls_sameBuild chain fresh plan joinStart Hs Hchain) as (joinPlan & Hjc & Hsame).
  exists joinFresh, joinPlan. split; [exact Hjq|]. split.
  { cbn [builderCalls builderCall]. rewrite Hw. cbn [obind]. exact Hjc. }
  pose proof (whereClause_sameBuild jw plan joinPlan Hsame Hsome) as Hwhere.
  destruct Hsame as (HE & HT & HX & HC & HB & HA & HJ & HL & HF).
  split; [|split].
  - unfold FilterPlan.Insert, JoinPlan.Insert, sameRun. rewrite HE, HT, HC, HB, HA, HX.
    destruct (FilterPlan.Errors plan); [|cbn; auto].
    destruct (FilterPlan.table plan) as [t|]; [|exact I].
    unfold execInsert.
    destruct (executorExec (FilterPlan.executor plan) _ (FilterPlan.args plan)); cbn; auto.
  - unfold FilterPlan.Update, JoinPlan.Update, JoinPlan.joinFromAndWhereClause, sameRun.
    rewrite HE, HT, HC, HB, HJ.
    destruct (FilterPlan.Errors plan); [|cbn; auto].
    destruct (FilterPlan.table plan) as [t|]; [|exact I].
    destruct (writeAssignments (FilterPlan.assignCols plan) (FilterPlan.assignBindVars plan)
                0 _) as [buffer|]; cbn [obind String.eqb negb]; [|exact I].
    destruct (FilterPlan.whereClause plan) as [[plan' r]|];
      destruct (JoinPlan.whereClause jw joinPlan) as [[joinPlan' r']|];
      try contradiction; [|exact I].
    destruct Hwhere as (-> & Ha' & Hx'). cbn [obind].
    destruct r as [clause|e]; [|cbn; auto].
    unfold JoinPlan.withJoinWhere. cbn [String.eqb negb]. rewrite Ha', Hx'.
    unfold execRows.
    destruct (executorExec (FilterPlan.executor plan') _ (FilterPlan.args plan'))
      as [res|e]; [destruct (RowsAffected res)|]; cbn; auto.
  - unfold FilterPlan.Delete, JoinPlan.Delete, JoinPlan.joinFromAndWhereClause, sameRun.
    rewrite HE, HT, HJ.
    destruct (FilterPlan.Errors plan); [|cbn; auto].
    destruct (FilterPlan.table plan) as [t|]; [|exact I].
    cbn [obind String.eqb negb].
    destruct (FilterPlan.whereClause plan) as [[plan' r]|];
      destruct (JoinPlan.whereClause jw joinPlan) as [[joinPlan' r']|];
      try contradiction; [|exact I].
    destruct Hwhere as (-> & Ha' & Hx'). cbn [obind].
    destruct r as [clause|e]; [|cbn; auto].
    unfold JoinPlan.withJoinWhere. cbn [String.eqb negb]. rewrite Ha', Hx'.
    unfold execRows.
    destruct (executorExec (FilterPlan.executor plan') _ (FilterPlan.args plan'))
      as [res|e]; [destruct (RowsAffected res)|]; cbn; auto.
Qed.

Lemma plans_without_joins_send_alike_witness :
  exists joinFresh joinPlan,
    JoinPlan.query Sample.dbmap Sample.executor (StructPointer Sample.overriddenInvoice)
      = Returns joinFresh /\
    builderCalls (CallWhere [] :: map asBuilderCall Sample.sharedChain) joinFresh
      = Returns joinPlan /\
    sameRun (FilterPlan.Insert Sample.filterRunPlan) (JoinPlan.Insert joinPlan) /\
    sameRun (FilterPlan.Update Sample.filterRunPlan)
      (JoinPlan.Update Sample.joinWhere joinPlan) /\
    sameRun (FilterPlan.Delete Sample.filterRunPlan)
      (JoinPlan.Delete Sample.joinWhere joinPlan).
Proof.
  apply (plans_without_joins_send_alike Sample.joinWhere Sample.dbmap Sample.executor
           (StructPointer Sample.overriddenInvoice) Sample.sharedChain
           Sample.filterPlan Sample.filterRunPlan); try reflexivity.
  intros H. vm_compute in H. discriminate H.
Defined.

(** X22. [Where()] without any filter: in [query_plans.go] the where
    filter is an empty and-filter, it renders to the empty string, and
    [Delete] sends [delete from T] with no where clause and no
    argument; in the first document of [query.go] [Where()] leaves the
    filter nil and [Delete] panics. *)
Theorem Where_without_filters :
  forall (jw : JoinPlan.joinFilter -> JoinPlan.structColumnMap -> Dialect -> Z ->
               result (string * list iface))
         (m : DbMap) (exec : SqlExecutor) (target : Target)
         (plan : FilterPlan.QueryPlan) (t : TableMap),
    FilterPlan.query m exec target = Returns plan ->
    FilterPlan.Errors plan = [] ->
    FilterPlan.table plan = Some t ->
    FilterPlan.Delete (FilterPlan.Where plan) = Panics /\
    exists joinFresh joinPlan,
      JoinPlan.query m exec target = Returns joinFresh /\
      JoinPlan.Where joinFresh [] = Returns joinPlan /\
      JoinPlan.Delete jw joinPlan
        = Returns (execRows joinPlan exec ("delete from " ++ quotedName t) []).
Proof.
  intros jw m exec target plan t Hq Herrors Ht.
  destruct (query_sameBuild m exec target plan Hq) as (joinFresh & joinPlan & Hjq & Hw & Hs).
  assert (Hfresh : FilterPlan.filters plan = None /\ FilterPlan.args plan = [] /\
                   FilterPlan.executor plan = exec).
  { unfold FilterPlan.query in Hq.
    destruct target as [|[|typeName fields]]; try (inversion Hq; subst; auto; fail).
    destruct (tableFor m typeName) as [t'|e]; [|inversion Hq; subst; auto].
    cbn [FilterPlan.targetColMap FilterPlan.setTable FilterPlan.setTarget
         FilterPlan.emptyPlan] in Hq.
    destruct (mapColumns t' (Struct typeName fields) []) as [colMap'|]; [|discriminate].
    cbn [obind] in Hq. inversion Hq; subst. cbn. auto. }
  destruct Hfresh as (Hnone & Hargs & Hexec).
  split.
  - unfold FilterPlan.Delete, FilterPlan.Where, FilterPlan.whereClause.
    now rewrite Herrors, Ht, Hnone.
  - exists joinFresh, joinPlan. split; [exact Hjq|]. split; [exact Hw|].
    destruct Hs as (HE & HT & HX & HC & HB & HA & HJ & HL & HF).
    unfold JoinPlan.Delete, JoinPlan.joinFromAndWhereClause, JoinPlan.whereClause,
      JoinPlan.multiWhere.
    rewrite HE, Herrors, HT, Ht, HJ. cbn [obind String.eqb negb]. rewrite HF, HT, Ht, Hnone.
    cbn [Filters.Where Filters.joinFilters Filters.joinLoop length Nat.ltb Nat.leb
         String.eqb negb obind].
    unfold JoinPlan.withJoinWhere. cbn [String.eqb negb].
    rewrite HA, Hargs, HX, Hexec. unfold quotedName. now rewrite append_nil_r.
Qed.

Lemma Where_without_filters_witness :
  FilterPlan.Delete (FilterPlan.Where Sample.filterPlan) = Panics /\
  exists joinFresh joinPlan,
    JoinPlan.query Sample.dbmap Sample.executor (StructPointer Sample.overriddenInvoice)
      = Returns joinFresh /\
    JoinPlan.Where joinFresh [] = Returns joinPlan /\
    JoinPlan.Delete Sample.joinWhere joinPlan
      = Returns (execRows joinPlan Sample.executor "delete from `overriddeninvoice`" []).
Proof.
  exact (Where_without_filters Sample.joinWhere Sample.dbmap Sample.executor
           (StructPointer Sample.overriddenInvoice) Sample.filterPlan Sample.invoiceTable
           eq_refl eq_refl eq_refl).
Defined.

(** ** The second and the third document of [query.go] *)

Lemma listCall_errors_grow :
  forall (call : ListCall) (plan plan' : ListPlan.QueryPlan),
    listCall call plan = Returns plan' ->
    ListPlan.Errors plan' = [] -> ListPlan.Errors plan = [].
Proof.
  intros call plan plan' H Hnil.
  destruct call as [fieldPtr value|fieldPtr operator value|n|n]; cbn [listCall] in H;
    [unfold ListPlan.Set_ in H|unfold ListPlan.addWhere in H
    |inversion H; subst; exact Hnil|inversion H; subst; exact Hnil];
    destruct (ListPlan.ColumnForPointer plan fieldPtr) as [column|e];
    try (destruct (ListPlan.table plan) as [t|]; [|discriminate]);
    inversion H; subst plan'; cbn in Hnil; try exact Hnil;
    now apply app_eq_nil in Hnil as [_ Hnil].
Qed.

Lemma listCalls_errors_grow :
  forall (chain : list ListCall) (plan plan' : ListPlan.QueryPlan),
    listCalls chain plan = Returns plan' ->
    ListPlan.Errors plan' = [] -> ListPlan.Errors plan = [].
Proof.
  induction chain as [|call rest IH]; intros plan plan' H Hnil; cbn [listCalls] in H.
  - now inversion H; subst.
  - destruct (listCall call plan) as [mid|] eqn:E; cbn [obind] in H; [|discriminate].
    exact (listCall_errors_grow call plan mid E (IH mid plan' H Hnil)).
Qed.

Lemma call_sameLists :
  forall (t : TableMap) (value : Value) (call : ListCall)
         (plan plan' : ListPlan.QueryPlan) (scanPlan : ScanPlan.QueryPlan),
    sameLists t value plan scanPlan ->
    listCall call plan = Returns plan' ->
    ListPlan.Errors plan' = [] ->
    exists scanPlan',
      scanCall call scanPlan = Returns scanPlan' /\
      sameLists t value plan' scanPlan'.
Proof.
  intros t value call plan plan' scanPlan
    (Hmap & Ht & Hst & Hsv & HE & HX & HC & HB & HW & HA & HL & HO & Hlv & Hlo & Hlg
       & Hso & Hsg) H Hnil.
  pose proof (listCall_errors_grow call plan plan' H Hnil) as Hnil0.
  destruct call as [fieldPtr val|fieldPtr operator val|n|n]; cbn [listCall scanCall] in *.
  - unfold ListPlan.Set_, ListPlan.ColumnForPointer in H. unfold ScanPlan.Set_.
    destruct (columnForPointer (ListPlan.targetColMap plan) fieldPtr) as [column|e] eqn:Ec.
    + destruct (walk_resolves_what_map_resolves t value _ fieldPtr column scanPlan
                  Hmap Ec Hsv Hst) as (col & -> & Htr & ->).
      rewrite Ht in H. rewrite Hst. inversion H; subst plan'.
      eexists. split; [reflexivity|].
      unfold sameLists. cbn. rewrite HE, HC, HB, HA.
      repeat split; try reflexivity; assumption.
    + inversion H; subst plan'. cbn in Hnil. rewrite Hnil0 in Hnil. discriminate.
  - unfold ListPlan.addWhere, ListPlan.ColumnForPointer in H.
    unfold ScanPlan.addWhere, ScanPlan.columnOperatorString.
    destruct (columnForPointer (ListPlan.targetColMap plan) fieldPtr) as [column|e] eqn:Ec.
    + destruct (walk_resolves_what_map_resolves t value _ fieldPtr column scanPlan
                  Hmap Ec Hsv Hst) as (col & -> & Htr & ->).
      rewrite Ht in H. rewrite Htr, Hst. inversion H; subst plan'. cbn [obind].
      eexists. split; [reflexivity|].
      unfold sameLists. cbn. rewrite HE, HW, HA.
      repeat split; try reflexivity; assumption.
    + inversion H; subst plan'. cbn in Hnil. rewrite Hnil0 in Hnil. discriminate.
  - inversion H; subst plan'. eexists. split; [reflexivity|].
    unfold sameLists. cbn. repeat split; try reflexivity; assumption.
  - inversion H; subst plan'. eexists. split; [reflexivity|].
    unfold sameLists. cbn. repeat split; try reflexivity; assumption.
Qed.

Lemma calls_sameLists :
  forall (t : TableMap) (value : Value) (chain : list ListCall)
         (plan plan' : ListPlan.QueryPlan) (scanPlan : ScanPlan.QueryPlan),
    sameLists t value plan scanPlan ->
    listCalls chain plan = Returns plan' ->
    ListPlan.Errors plan' = [] ->
    exists scanPlan',
      scanCalls chain scanPlan = Returns scanPlan' /\
      sameLists t value plan' scanPlan'.
Proof.
  intros t value. induction chain as [|call rest IH]; intros plan plan' scanPlan Hs H Hnil;
    cbn [listCalls scanCalls] in *.
  - inversion H; subst. now exists scanPlan.
  - destruct (listCall call plan) as [mid|] eqn:E; cbn [obind] in H; [|discriminate].
    pose proof (listCalls_errors_grow rest mid plan' H Hnil) as Hmid.
    destruct (call_sameLists t value call plan mid scanPlan Hs E Hmid)
      as (scanMid & -> & Hsmid).
    cbn [obind]. exact (IH mid plan' scanMid Hsmid H Hnil).
Qed.

(** X23. The second document of [query.go] runs as the third whenever
    the third records no error: for the same target and the same chain
    of [Set], comparison, [Limit] and [Offset] calls, if the plan of the
    third document ends without a recorded error, the calls return in
    the second document too, and [Select], [Insert], [Update] and
    [Delete] make the same executor calls and return the same values
    and errors in both revisions, or panic in both. *)
Theorem walk_and_map_send_alike :
  forall (m : DbMap) (exec : SqlExecutor) (target : Target) (chain : list ListCall)
         (fresh plan : ListPlan.QueryPlan),
    ListPlan.query m exec target = Returns fresh ->
    listCalls chain fresh = Returns plan ->
    ListPlan.Errors plan = [] ->
    exists scanPlan,
      scanCalls chain (ScanPlan.query m exec target) = Returns scanPlan /\
      sameRun (ListPlan.Select plan) (ScanPlan.Select scanPlan) /\
      sameRun (ListPlan.Insert plan) (ScanPlan.Insert scanPlan) /\
      sameRun (ListPlan.Update plan) (ScanPlan.Update scanPlan) /\
      sameRun (ListPlan.Delete plan) (ScanPlan.Delete scanPlan).
Proof.
  intros m exec target chain fresh plan Hq Hchain Hnil.
  pose proof (listCalls_errors_grow chain fresh plan Hchain Hnil) as Hfresh.
  assert (Hstart : exists t value,
             sameLists t value fresh (ScanPlan.query m exec target)).
  { unfold ListPlan.query in Hq. unfold ScanPlan.query.
    destruct target as [|[|typeName fields]];
      try (inversion Hq; subst; discriminate).
    destruct (tableFor m typeName) as [t|e]; [|inversion Hq; subst; discriminate].
    cbn [ListPlan.targetColMap ListPlan.setTable ListPlan.setTarget ListPlan.emptyPlan] in Hq.
    destruct (mapColumns t (Struct typeName fields) []) as [colMap'|] eqn:Emap;
      [|discriminate].
    cbn [obind] in Hq. inversion Hq; subst fresh.
    exists t, (Struct typeName fields). unfold sameLists. cbn.
    repeat split; try reflexivity. exact Emap. }
  destruct Hstart as (t & value & Hstart).
  destruct (calls_sameLists t value chain fresh plan _ Hstart Hchain Hnil)
    as (scanPlan & Hrun & Hsame).
  exists scanPlan. split; [exact Hrun|].
  destruct Hsame as (Hmap & Ht & Hst & Hsv & HE & HX & HC & HB & HW & HA & HL & HO & Hlv
                       & Hlo & Hlg & Hso & Hsg).
  split; [|split; [|split]].
  - unfold ListPlan.Select, ScanPlan.Select, sameRun.
    rewrite HE, Hnil, Hst, Ht, HW, Hlo, Hlg, Hso, Hsg.
    cbn [writeClauseList String.eqb negb].
    unfold ListPlan.limitOffset, ScanPlan.limitOffset. rewrite HL, HA.
    destruct (0 <? ListPlan.limit plan);
      cbn [ListPlan.offset ListPlan.setArgs ListPlan.args ScanPlan.offset ScanPlan.setArgs
           ScanPlan.args];
      rewrite HO; destruct (0 <? ListPlan.offset plan);
      cbn [ListPlan.target ListPlan.setArgs ListPlan.executor ListPlan.args
           ScanPlan.target ScanPlan.setArgs ScanPlan.executor ScanPlan.args];
      rewrite Hlv, Hsv, HX, ?HA; unfold execSelect;
      destruct (executorSelect (ListPlan.executor plan) _ _) as [rows err]; cbn; auto.
  - unfold ListPlan.Insert, ScanPlan.Insert, sameRun. rewrite HE, Hst, Ht, HC, HB, HA, HX.
    destruct (ListPlan.Errors plan); [|cbn; auto].
    unfold execInsert.
    destruct (executorExec (ListPlan.executor plan) _ (ListPlan.args plan)); cbn; auto.
  - unfold ListPlan.Update, ScanPlan.Update, sameRun. rewrite HE, Hst, Ht, HC, HB, HW, HA, HX.
    destruct (ListPlan.Errors plan); [|cbn; auto].
    destruct (writeAssignments (ListPlan.assignCols plan) (ListPlan.assignBindVars plan)
                0 _) as [buffer|]; cbn [obind]; [|exact I].
    unfold execRows.
    destruct (executorExec (ListPlan.executor plan) _ (ListPlan.args plan))
      as [res|e]; [destruct (RowsAffected res)|]; cbn; auto.
  - unfold ListPlan.Delete, ScanPlan.Delete, sameRun. rewrite HE, Hst, Ht, HW, HA, HX.
    destruct (ListPlan.Errors plan); [|cbn; auto].
    unfold execRows.
    destruct (executorExec (ListPlan.executor plan) _ (ListPlan.args plan))
      as [res|e]; [destruct (RowsAffected res)|]; cbn; auto.
Qed.

Lemma walk_and_map_send_alike_witness :
  exists scanPlan,
    scanCalls Sample.listChain Sample.scanPlan = Returns scanPlan /\
    sameRun (ListPlan.Select Sample.listRunPlan) (ScanPlan.Select scanPlan) /\
    sameRun (ListPlan.Insert Sample.listRunPlan) (ScanPlan.Insert scanPlan) /\
    sameRun (ListPlan.Update Sample.listRunPlan) (ScanPlan.Update scanPlan) /\
    sameRun (ListPlan.Delete Sample.listRunPlan) (ScanPlan.Delete scanPlan).
Proof.
  exact (walk_and_map_send_alike Sample.dbmap Sample.executor
           (StructPointer Sample.overriddenInvoice) Sample.listChain
           Sample.listPlan Sample.listRunPlan eq_refl eq_refl eq_refl).
Defined.

(** ** The joins of a statement *)

Lemma selectJoinLoop_renders :
  forall (jc : JoinPlan.joinFilter -> JoinPlan.structColumnMap -> Dialect -> Z ->
               result (string * list iface))
         (t : TableMap) (js : list JoinPlan.joinFilter) (plan : JoinPlan.QueryPlan)
         (buffer : string),
    exists plan',
      JoinPlan.selectJoinLoop jc t js plan buffer
        = (plan',
           match fst (renderJoins jc (JoinPlan.colMap plan) (tableDialect t)
                        (length (JoinPlan.args plan)) js) with
           | Ok texts => Ok (buffer ++ String.concat "" texts)
           | Err err => Err err
           end) /\
      JoinPlan.args plan'
        = (JoinPlan.args plan
             ++ snd (renderJoins jc (JoinPlan.colMap plan) (tableDialect t)
                       (length (JoinPlan.args plan)) js))%list.
Proof.
  intros jc t js. induction js as [|join rest IH]; intros plan buffer;
    cbn [JoinPlan.selectJoinLoop renderJoins].
  - exists plan. cbn. now rewrite append_nil_r, app_nil_r.
  - destruct (jc join (JoinPlan.colMap plan) (tableDialect t)
                (Z.of_nat (length (JoinPlan.args plan)))) as [[text args]|e].
    + destruct (IH (JoinPlan.setArgs (JoinPlan.args plan ++ args) plan) (buffer ++ text))
        as (plan' & Hloop & Hargs).
      cbn [JoinPlan.colMap JoinPlan.args JoinPlan.setArgs] in Hloop, Hargs.
      rewrite length_app in Hloop, Hargs.
      exists plan'.
      destruct (renderJoins jc (JoinPlan.colMap plan) (tableDialect t)
                  (length (JoinPlan.args plan) + length args) rest) as [r more].
      cbn [fst snd] in *. rewrite Hloop, Hargs. split; [|now rewrite app_assoc].
      destruct r as [texts|err]; [|reflexivity].
      destruct texts as [|text2 texts]; cbn [String.concat];
        now rewrite ?append_nil_r, ?append_assoc.
    + exists plan. cbn. now rewrite app_nil_r.
Qed.

Lemma joinFromAndWhereLoop_renders :
  forall (jw : JoinPlan.joinFilter -> JoinPlan.structColumnMap -> Dialect -> Z ->
               result (string * list iface))
         (t : TableMap) (js : list JoinPlan.joinFilter) (plan : JoinPlan.QueryPlan)
         (fromSlice : list string) (whereBuffer : string),
    exists plan',
      JoinPlan.joinFromAndWhereLoop jw t js plan fromSlice whereBuffer
        = (plan',
           match fst (renderJoins jw (JoinPlan.colMap plan) (tableDialect t)
                        (length (JoinPlan.args plan)) js) with
           | Ok texts =>
               Ok (strings_Join (fromSlice ++ map JoinPlan.quotedJoinTable js) ", ",
                   whereBuffer ++ String.concat "" texts)
           | Err err => Err err
           end) /\
      JoinPlan.args plan'
        = (JoinPlan.args plan
             ++ snd (renderJoins jw (JoinPlan.colMap plan) (tableDialect t)
                       (length (JoinPlan.args plan)) js))%list.
Proof.
  intros jw t js. induction js as [|join rest IH]; intros plan fromSlice whereBuffer;
    cbn [JoinPlan.joinFromAndWhereLoop renderJoins].
  - exists plan. cbn. now rewrite append_nil_r, !app_nil_r.
  - destruct (jw join (JoinPlan.colMap plan) (tableDialect t)
                (Z.of_nat (length (JoinPlan.args plan)))) as [[text args]|e].
    + destruct (IH (JoinPlan.setArgs (JoinPlan.args plan ++ args) plan)
                  (fromSlice ++ [JoinPlan.quotedJoinTable join])%list (whereBuffer ++ text))
        as (plan' & Hloop & Hargs).
      cbn [JoinPlan.colMap JoinPlan.args JoinPlan.setArgs] in Hloop, Hargs.
      rewrite length_app in Hloop, Hargs.
      exists plan'.
      destruct (renderJoins jw (JoinPlan.colMap plan) (tableDialect t)
                  (length (JoinPlan.args plan) + length args) rest) as [r more].
      cbn [fst snd] in *. rewrite Hloop, Hargs. split; [|now rewrite app_assoc].
      destruct r as [texts|err]; [|reflexivity].
      cbn [map]. rewrite <- app_assoc. cbn [app].
      destruct texts as [|text2 texts]; cbn [String.concat];
        now rewrite ?append_nil_r, ?append_assoc.
    + exists plan. cbn. now rewrite app_nil_r.
Qed.

(** X24. The joins of a plan are rendered in the order of the [Join]
    calls, each from the bind index after the plan's arguments and the
    arguments of the joins before it; [selectJoinClause] concatenates
    their join clauses, [joinFromAndWhereClause] joins their quoted
    tables by [", "] and concatenates their where clauses; the
    arguments are appended to the plan's in the same order, and when a
    join fails the arguments of the joins before it stay on the plan. *)
Theorem joins_render_in_sequence :
  forall (jw jc : JoinPlan.joinFilter -> JoinPlan.structColumnMap -> Dialect -> Z ->
                  result (string * list iface))
         (plan : JoinPlan.QueryPlan) (t : TableMap),
    JoinPlan.table plan = Some t ->
    let rendered render :=
      renderJoins render (JoinPlan.colMap plan) (tableDialect t)
        (length (JoinPlan.args plan)) (JoinPlan.joins plan) in
    (exists plan',
       JoinPlan.selectJoinClause jc plan
         = Returns (plan',
                    match fst (rendered jc) with
                    | Ok texts => Ok (String.concat "" texts)
                    | Err err => Err err
                    end) /\
       JoinPlan.args plan' = (JoinPlan.args plan ++ snd (rendered jc))%list) /\
    (exists plan',
       JoinPlan.joinFromAndWhereClause jw plan
         = Returns (plan',
                    match fst (rendered jw) with
                    | Ok texts =>
                        Ok (strings_Join (map JoinPlan.quotedJoinTable (JoinPlan.joins plan))
                              ", ",
                            String.concat "" texts)
                    | Err err => Err err
                    end) /\
       JoinPlan.args plan' = (JoinPlan.args plan ++ snd (rendered jw))%list).
Proof.
  intros jw jc plan t Ht rendered. subst rendered. cbv beta.
  unfold JoinPlan.selectJoinClause, JoinPlan.joinFromAndWhereClause. rewrite Ht.
  destruct (JoinPlan.joins plan) as [|join rest] eqn:Ej.
  - split; exists plan; cbn; now rewrite app_nil_r.
  - split.
    + destruct (selectJoinLoop_renders jc t (join :: rest) plan "")
        as (plan' & Hloop & Hargs).
      exists plan'. rewrite Hloop. split; [|exact Hargs].
      destruct (fst (renderJoins jc (JoinPlan.colMap plan) (tableDialect t)
                       (length (JoinPlan.args plan)) (join :: rest))); reflexivity.
    + destruct (joinFromAndWhereLoop_renders jw t (join :: rest) plan [] "")
        as (plan' & Hloop & Hargs).
      exists plan'. rewrite Hloop. split; [|exact Hargs].
      destruct (fst (renderJoins jw (JoinPlan.colMap plan) (tableDialect t)
                       (length (JoinPlan.args plan)) (join :: rest))); reflexivity.
Qed.

Lemma joins_render_in_sequence_witness :
  exists plan',
    JoinPlan.selectJoinClause Sample.joinClause Sample.joinedPlan
      = Returns (plan', Ok " inner join `draft` on `Id`=$1") /\
    JoinPlan.args plan' = [IInt 1].
Proof.
  exact (proj1 (joins_render_in_sequence Sample.joinWhere Sample.joinClause
                  Sample.joinedPlan Sample.invoiceTable eq_refl)).
Defined.

(** ** Selecting and ordering in the revisions of [query.go] *)

(** X25. [Select] of the third document of [query.go] end to end: the
    statement is the column list, [from] the table, the where entries
    joined by [" and "], the order-by list, the group-by list, then a
    positive limit bound to the first index after the plan's arguments
    and a positive offset bound to the next one (the limit comes first
    here, and is written [limit]); the executor receives the plan's
    arguments, the limit and the offset in this order. *)
Theorem ListPlan_Select_statement :
  forall (plan : ListPlan.QueryPlan) (t : TableMap) (v : Value),
    ListPlan.Errors plan = [] ->
    ListPlan.table plan = Some t ->
    ListPlan.target plan = Some v ->
    let bound := length (ListPlan.args plan) in
    let limitArgs := if 0 <? ListPlan.limit plan then [IInt (ListPlan.limit plan)] else [] in
    let offsetArgs :=
      if 0 <? ListPlan.offset plan then [IInt (ListPlan.offset plan)] else [] in
    let sent := (ListPlan.args plan ++ limitArgs ++ offsetArgs)%list in
    exists plan',
      ListPlan.args plan' = sent /\
      ListPlan.Select plan
        = Returns (execSelect plan' (ListPlan.executor plan)
                     (writeColumns (tableDialect t) "" (columns t) 0 "select "
                        ++ " from " ++ quotedName t
                        ++ clauseOf " where " " and " (ListPlan.where_ plan)
                        ++ clauseOf " order by " ", " (ListPlan.orderBy plan)
                        ++ clauseOf " group by " ", " (ListPlan.groupBy plan)
                        ++ (if 0 <? ListPlan.limit plan
                            then " limit " ++ BindVar (tableDialect t) (Z.of_nat bound)
                            else "")
                        ++ (if 0 <? ListPlan.offset plan
                            then " offset "
                                   ++ BindVar (tableDialect t)
                                        (Z.of_nat (bound + length limitArgs))
                            else ""))
                     sent).
Proof.
  intros plan t v Herrors Ht Hv bound limitArgs offsetArgs sent.
  subst sent offsetArgs limitArgs bound.
  unfold ListPlan.Select. rewrite Herrors, Ht.
  rewrite writeWhereList_clause, !writeClauseList_clause.
  unfold ListPlan.limitOffset, quotedName.
  destruct (0 <? ListPlan.limit plan);
    cbn [ListPlan.offset ListPlan.setArgs ListPlan.args];
    destruct (0 <? ListPlan.offset plan);
    cbn [ListPlan.target ListPlan.setArgs ListPlan.executor ListPlan.args];
    rewrite Hv;
    rewrite ?length_app, <- ?app_assoc, ?append_assoc, ?append_nil_r, ?app_nil_r;
    cbn [length app append]; rewrite ?Nat.add_0_r, ?append_nil_r;
    eexists; (split; [|reflexivity]);
    cbn [ListPlan.args]; rewrite <- ?app_assoc, ?app_nil_r; reflexivity.
Qed.

Lemma ListPlan_Select_statement_witness :
  exists plan',
    ListPlan.args plan' = [IBool false; IInt 2; IInt 10; IInt 20] /\
    ListPlan.Select Sample.listPagePlan
      = Returns (execSelect plan' Sample.executor
                   ("select `Id`,`Created`,`Updated`,`Memo`,`PersonId`,`IsPaid`"
                      ++ " from `overriddeninvoice` where `IsPaid`=$1 and `Created`<$2"
                      ++ " order by `Created` limit $3 offset $4")
                   [IBool false; IInt 2; IInt 10; IInt 20]).
Proof.
  exact (ListPlan_Select_statement Sample.listPagePlan Sample.invoiceTable
           Sample.overriddenInvoice eq_refl eq_refl eq_refl).
Defined.

(** X26. Ordering twice: the second document of [query.go] keeps one
    ordering column and [OrderBy] replaces it, so only the column and
    the direction of the last call remain; the third document appends,
    so both columns remain, in the order of the calls. *)
Theorem OrderBy_twice :
  forall (m : DbMap) (exec : SqlExecutor) (target : Target) (plan : ListPlan.QueryPlan)
         (t : TableMap) (first second : Pointer) (firstColumn secondColumn : string)
         (direction : string),
    ListPlan.query m exec target = Returns plan ->
    ListPlan.table plan = Some t ->
    columnForPointer (ListPlan.targetColMap plan) first = Ok firstColumn ->
    columnForPointer (ListPlan.targetColMap plan) second = Ok secondColumn ->
    ListPlan.orderBy (ListPlan.OrderBy (ListPlan.OrderBy plan first "") second "")
      = [firstColumn; secondColumn] /\
    exists col,
      secondColumn = QuoteField (tableDialect t) (ColumnName col) /\
      let scanPlan :=
        ScanPlan.OrderBy (ScanPlan.OrderBy (ScanPlan.query m exec target) first "")
          second direction in
      ScanPlan.orderBy scanPlan = ColumnName col /\
      ScanPlan.orderByDirection scanPlan = direction /\
      ScanPlan.Errors scanPlan = [].
Proof.
  intros m exec target plan t first second firstColumn secondColumn direction
    Hq Ht Hfirst Hsecond.
  split.
  - unfold ListPlan.OrderBy, ListPlan.ColumnForPointer. rewrite Hfirst.
    cbn [ToLower String.eqb orb ListPlan.targetColMap ListPlan.setOrderBy].
    rewrite Hsecond. cbn [ListPlan.orderBy ListPlan.setOrderBy].
    unfold ListPlan.query in Hq.
    destruct target as [|[|typeName fields]]; try (inversion Hq; subst; discriminate).
    destruct (tableFor m typeName) as [t'|e]; [|inversion Hq; subst; discriminate].
    cbn [ListPlan.targetColMap ListPlan.setTable ListPlan.setTarget ListPlan.emptyPlan] in Hq.
    destruct (mapColumns t' (Struct typeName fields) []) as [colMap'|]; [|discriminate].
    cbn [obind] in Hq. inversion Hq; subst. reflexivity.
  - unfold ListPlan.query in Hq.
    destruct target as [|[|typeName fields]]; try (inversion Hq; subst; discriminate).
    destruct (tableFor m typeName) as [t'|e] eqn:Et; [|inversion Hq; subst; discriminate].
    cbn [ListPlan.targetColMap ListPlan.setTable ListPlan.setTarget ListPlan.emptyPlan] in Hq.
    destruct (mapColumns t' (Struct typeName fields) []) as [colMap'|] eqn:Emap;
      [|discriminate].
    cbn [obind] in Hq. inversion Hq; subst plan. cbn in Ht. inversion Ht; subst t'.
    cbn [ListPlan.targetColMap ListPlan.setTargetColMap] in Hfirst, Hsecond.
    assert (Hscan : ScanPlan.query m exec (StructPointer (Struct typeName fields))
                    = ScanPlan.setTable (Some t)
                        (ScanPlan.setTarget (Some (Struct typeName fields))
                           (ScanPlan.emptyPlan exec))).
    { unfold ScanPlan.query. now rewrite Et. }
    rewrite Hscan.
    destruct (walk_resolves_what_map_resolves t _ _ first firstColumn
                (ScanPlan.setTable (Some t)
                   (ScanPlan.setTarget (Some (Struct typeName fields))
                      (ScanPlan.emptyPlan exec)))
                Emap Hfirst eq_refl eq_refl) as (col1 & Hwalk1 & _ & _).
    unfold ScanPlan.OrderBy at 2. rewrite Hwalk1.
    destruct (walk_resolves_what_map_resolves t _ _ second secondColumn
                (ScanPlan.setOrderBy (ColumnName col1) ""
                   (ScanPlan.setTable (Some t)
                      (ScanPlan.setTarget (Some (Struct typeName fields))
                         (ScanPlan.emptyPlan exec))))
                Emap Hsecond eq_refl eq_refl) as (col2 & Hwalk2 & _ & Hquoted).
    exists col2. split; [exact Hquoted|].
    unfold ScanPlan.OrderBy. rewrite Hwalk2. cbn. auto.
Qed.

Lemma OrderBy_twice_witness :
  ListPlan.orderBy
    (ListPlan.OrderBy (ListPlan.OrderBy Sample.listPlan Sample.pCreated "") Sample.pMemo "")
    = ["`Created`"; "`Memo`"] /\
  exists col,
    "`Memo`" = QuoteField (tableDialect Sample.invoiceTable) (ColumnName col) /\
    ScanPlan.orderBy
      (ScanPlan.OrderBy (ScanPlan.OrderBy Sample.scanPlan Sample.pCreated "")
         Sample.pMemo "desc") = ColumnName col /\
    ScanPlan.orderByDirection
      (ScanPlan.OrderBy (ScanPlan.OrderBy Sample.scanPlan Sample.pCreated "")
         Sample.pMemo "desc") = "desc" /\
    ScanPlan.Errors
      (ScanPlan.OrderBy (ScanPlan.OrderBy Sample.scanPlan Sample.pCreated "")
         Sample.pMemo "desc") = [].
Proof.
  exact (OrderBy_twice Sample.dbmap Sample.executor (StructPointer Sample.overriddenInvoice)
           Sample.listPlan Sample.invoiceTable Sample.pCreated Sample.pMemo
           "`Created`" "`Memo`" "desc" eq_refl eq_refl eq_refl eq_refl).
Defined.

(** X27. [Select] of the second document of [query.go] end to end,
    when the stored direction is one that its switch accepts: the
    ordering column is quoted when the statement is written and the
    direction follows it without a space; the grouping column is
    written as stored, without quotes; a positive limit is bound first
    and a positive offset after it; the executor receives the plan's
    arguments, the limit and the offset in this order. *)
Theorem ScanPlan_Select_statement :
  forall (plan : ScanPlan.QueryPlan) (t : TableMap) (v : Value),
    ScanPlan.Errors plan = [] ->
    ScanPlan.table plan = Some t ->
    ScanPlan.target plan = Some v ->
    (String.eqb (ToLower (ScanPlan.orderByDirection plan)) "desc"
     || String.eqb (ToLower (ScanPlan.orderByDirection plan)) "asc"
     || String.eqb (ToLower (ScanPlan.orderByDirection plan)) "")%bool = true ->
    let bound := length (ScanPlan.args plan) in
    let limitArgs := if 0 <? ScanPlan.limit plan then [IInt (ScanPlan.limit plan)] else [] in
    let offsetArgs :=
      if 0 <? ScanPlan.offset plan then [IInt (ScanPlan.offset plan)] else [] in
    let sent := (ScanPlan.args plan ++ limitArgs ++ offsetArgs)%list in
    let ordering :=
      if String.eqb (ScanPlan.orderBy plan) "" then ""
      else " order by " ++ QuoteField (tableDialect t) (ScanPlan.orderBy plan)
             ++ (if String.eqb (ToLower (ScanPlan.orderByDirection plan)) ""
                 then "" else ScanPlan.orderByDirection plan) in
    let grouping :=
      if String.eqb (ScanPlan.groupBy plan) "" then ""
      else " group by " ++ ScanPlan.groupBy plan in
    exists plan',
      ScanPlan.args plan' = sent /\
      ScanPlan.Select plan
        = Returns (execSelect plan' (ScanPlan.executor plan)
                     (writeColumns (tableDialect t) "" (columns t) 0 "select "
                        ++ " from " ++ quotedName t
                        ++ clauseOf " where " " and " (ScanPlan.where_ plan)
                        ++ ordering ++ grouping
                        ++ (if 0 <? ScanPlan.limit plan
                            then " limit " ++ BindVar (tableDialect t) (Z.of_nat bound)
                            else "")
                        ++ (if 0 <? ScanPlan.offset plan
                            then " offset "
                                   ++ BindVar (tableDialect t)
                                        (Z.of_nat (bound + length limitArgs))
                            else ""))
                     sent).
Proof.
  intros plan t v Herrors Ht Hv Hdir bound limitArgs offsetArgs sent ordering grouping.
  subst sent offsetArgs limitArgs bound ordering grouping.
  unfold ScanPlan.Select. rewrite Herrors, Ht.
  rewrite writeWhereList_clause.
  set (lower := ToLower (ScanPlan.orderByDirection plan)) in *.
  unfold ScanPlan.limitOffset, quotedName.
  destruct (String.eqb (ScanPlan.orderBy plan) "") eqn:Eo; cbn [negb];
    destruct (String.eqb (ScanPlan.groupBy plan) "") eqn:Eg; cbn [negb];
    try (destruct (String.eqb lower "desc") eqn:Ed; cbn [orb];
         [assert (El : String.eqb lower "" = false)
            by (apply String.eqb_eq in Ed; rewrite Ed; reflexivity); rewrite ?El
         |destruct (String.eqb lower "asc") eqn:Ea; cbn [orb];
          [assert (El : String.eqb lower "" = false)
             by (apply String.eqb_eq in Ea; rewrite Ea; reflexivity); rewrite ?El
          |cbn [orb] in Hdir; rewrite Hdir]]);
    destruct (0 <? ScanPlan.limit plan);
    cbn [ScanPlan.offset ScanPlan.setArgs ScanPlan.args];
    destruct (0 <? ScanPlan.offset plan);
    cbn [ScanPlan.target ScanPlan.setArgs ScanPlan.executor ScanPlan.args];
    rewrite Hv;
    rewrite ?length_app, <- ?app_assoc, ?append_assoc, ?append_nil_r, ?app_nil_r;
    cbn [length app append]; rewrite ?Nat.add_0_r, ?append_nil_r;
    eexists; (split; [|reflexivity]);
    cbn [ScanPlan.args]; rewrite <- ?app_assoc, ?app_nil_r; reflexivity.
Qed.

Lemma ScanPlan_Select_statement_witness :
  exists plan',
    ScanPlan.args plan' = [IBool false; IInt 10] /\
    ScanPlan.Select Sample.scanPagePlan
      = Returns (execSelect plan' Sample.executor
                   ("select `Id`,`Created`,`Updated`,`Memo`,`PersonId`,`IsPaid`"
                      ++ " from `overriddeninvoice` where `IsPaid`=$1"
                      ++ " order by `Created`desc group by PersonId limit $2")
                   [IBool false; IInt 10]).
Proof.
  exact (ScanPlan_Select_statement Sample.scanPagePlan Sample.invoiceTable
           Sample.overriddenInvoice eq_refl eq_refl eq_refl eq_refl).
Defined.
